(** * A shallow embedding of [src/main.py]

    The script reads a CSV file into a pandas DataFrame (or generates a
    five-row sample when the file is missing), derives two numeric columns,
    keeps the rows with [value1 > 20], labels them "High"/"Medium" and
    returns the result.

    The embedding follows the script line by line.  The pandas and numpy
    calls it makes are modelled on a small column-major DataFrame:

    - an [int64] column is a list of [Z] and arithmetic on it wraps around
      at 64 bits, as numpy's does;
    - a [float64] column is a list of exact rationals extended with the two
      infinities and NaN.  A result whose magnitude reaches the overflow
      threshold of binary64 is an infinity; rounding below that threshold
      and the sign of zero are not modelled;
    - an [object] column is a list of strings.  Object columns that hold
      other Python values, and the dtypes beyond int64, float64, bool and
      object, are outside the embedding.

    The filesystem, the random generator and the logger are the state the
    script threads through its calls; they form the [World] record.  The
    filesystem is a store keyed by whole paths; a path is a directory when
    the store says so or when it holds an entry below that path. *)

From Stdlib Require Import ZArith QArith Lia List Ascii String.
From stdpp Require Import base option list strings gmap.

Local Open Scope string_scope.
Local Open Scope Z_scope.

(** ** Machine integers *)

Definition INT64_MIN : Z := - 2 ^ 63.
Definition INT64_MAX : Z := 2 ^ 63 - 1.

(** Two's-complement reduction of an integer to 64 bits. *)
Definition wrap64 (z : Z) : Z := (z + 2 ^ 63) mod 2 ^ 64 - 2 ^ 63.

Definition in_int64 (z : Z) : Prop := INT64_MIN <= z <= INT64_MAX.

(** ** Floating-point values *)

Inductive float64 : Type :=
| Finite (q : Q)
| PosInf
| NegInf
| NaN.

Definition Qsign (q : Q) : Z := Z.sgn (Qnum q).

Definition signed_inf (s : Z) : float64 :=
  if s <? 0 then NegInf else PosInf.

Definition float_sign (x : float64) : Z :=
  match x with
  | Finite q => Qsign q
  | PosInf => 1
  | NegInf => -1
  | NaN => 0
  end.

(** The least magnitude that rounds to an infinity: half way between the
    largest binary64 value, [2^1024 - 2^971], and [2^1024]. *)
Definition FLOAT_OVERFLOW : Q := inject_Z (2 ^ 1024 - 2 ^ 970).

(** The result of an operation whose exact value is [q]. *)
Definition round_overflow (q : Q) : float64 :=
  if Qle_bool FLOAT_OVERFLOW q then PosInf
  else if Qle_bool q (- FLOAT_OVERFLOW) then NegInf
  else Finite q.

Definition float_add (x y : float64) : float64 :=
  match x, y with
  | NaN, _ | _, NaN => NaN
  | Finite a, Finite b => round_overflow (a + b)
  | PosInf, NegInf | NegInf, PosInf => NaN
  | PosInf, _ | _, PosInf => PosInf
  | NegInf, _ | _, NegInf => NegInf
  end.

Definition float_mul (x y : float64) : float64 :=
  match x, y with
  | NaN, _ | _, NaN => NaN
  | Finite a, Finite b => round_overflow (a * b)
  | _, _ =>
      let s := float_sign x * float_sign y in
      if s =? 0 then NaN else signed_inf s
  end.

(** numpy's true division: a zero divisor yields an infinity or NaN, never
    an exception. *)
Definition float_div (x y : float64) : float64 :=
  match x, y with
  | NaN, _ | _, NaN => NaN
  | Finite a, Finite b =>
      if Qeq_bool b 0
      then (if Qeq_bool a 0 then NaN else signed_inf (Qsign a))
      else round_overflow (a / b)
  | Finite _, _ => Finite 0
  | _, Finite b => signed_inf (float_sign x * (if Qsign b <? 0 then -1 else 1))
  | _, _ => NaN
  end.

(** [x > k] for a rational constant [k]; comparisons with NaN are false. *)
Definition float_gt (x : float64) (k : Q) : bool :=
  match x with
  | Finite a => negb (Qle_bool a k)
  | PosInf => true
  | NegInf | NaN => false
  end.




Definition float_of_int (z : Z) : float64 := Finite (inject_Z z).

(** The literal [1e-6] of line 113. *)
Definition epsilon : Q := 1 # 1000000.

(** ** Exceptions *)

Inductive exn : Type :=
| EmptyDataError          (* pd.errors.EmptyDataError *)
| ParserError             (* pd.errors.ParserError and other malformed input *)
| OSError                 (* PermissionError, IsADirectoryError, ... *)
| KeyError (key : string)
| TypeError.

Inductive Outcome (A : Type) : Type :=
| Returns (a : A)
| Raises (e : exn).
Arguments Returns {A} a.
Arguments Raises {A} e.

Definition is_EmptyDataError (e : exn) : bool :=
  match e with EmptyDataError => true | _ => false end.

(** ** Series and DataFrames *)

Inductive Series : Type :=
| SInt (xs : list Z)            (* dtype int64 *)
| SFloat (xs : list float64)    (* dtype float64 *)
| SObj (xs : list string)       (* dtype object, holding str *)
| SBool (xs : list bool).       (* dtype bool *)

(** Columns in their order; [df[name]] reads the first column of that name. *)
Definition DataFrame : Type := list (string * Series).

Definition series_len (s : Series) : nat :=
  match s with
  | SInt xs => length xs
  | SFloat xs => length xs
  | SObj xs => length xs
  | SBool xs => length xs
  end.

Definition bool_to_Z (b : bool) : Z := if b then 1 else 0.

(** Boolean-mask selection, [xs[mask]]. *)
Fixpoint mask_filter {A : Type} (mask : list bool) (xs : list A) : list A :=
  match mask, xs with
  | b :: mask', x :: xs' =>
      if b then x :: mask_filter mask' xs' else mask_filter mask' xs'
  | _, _ => []
  end.

Definition series_filter (mask : list bool) (s : Series) : Series :=
  match s with
  | SInt xs => SInt (mask_filter mask xs)
  | SFloat xs => SFloat (mask_filter mask xs)
  | SObj xs => SObj (mask_filter mask xs)
  | SBool xs => SBool (mask_filter mask xs)
  end.

Definition series_head (n : nat) (s : Series) : Series :=
  match s with
  | SInt xs => SInt (firstn n xs)
  | SFloat xs => SFloat (firstn n xs)
  | SObj xs => SObj (firstn n xs)
  | SBool xs => SBool (firstn n xs)
  end.

(** An [object] column without a value: what [pd.read_csv] makes of every
    column of a file that has a header line and no data line. *)
Definition is_empty_object (s : Series) : bool :=
  match s with
  | SObj [] => true
  | _ => false
  end.

(** [s + k] for a Python int [k].  On an [object] column pandas applies
    [+] value by value: the first string raises [TypeError], and a column
    without values comes back as it is. *)
Definition series_add_int (s : Series) (k : Z) : Outcome Series :=
  match s with
  | SInt xs => Returns (SInt (map (fun x => wrap64 (x + k)) xs))
  | SFloat xs => Returns (SFloat (map (fun x => float_add x (float_of_int k)) xs))
  | SBool xs => Returns (SInt (map (fun b => wrap64 (bool_to_Z b + k)) xs))
  | SObj [] => Returns (SObj [])
  | SObj (_ :: _) => Raises TypeError
  end.

(** The values of a numeric column as floats. *)
Definition series_as_float (s : Series) : Outcome (list float64) :=
  match s with
  | SInt xs => Returns (map float_of_int xs)
  | SFloat xs => Returns xs
  | SBool xs => Returns (map (fun b => float_of_int (bool_to_Z b)) xs)
  | SObj _ => Raises TypeError
  end.

(** [s + e] for a Python float [e]. *)
Definition series_add_float (s : Series) (e : Q) : Outcome Series :=
  if is_empty_object s then Returns (SObj [])
  else
    match series_as_float s with
    | Returns xs => Returns (SFloat (map (fun x => float_add x (Finite e)) xs))
    | Raises err => Raises err
    end.

Fixpoint zip_with_div (xs ys : list float64) : list float64 :=
  match xs, ys with
  | x :: xs', y :: ys' => float_div x y :: zip_with_div xs' ys'
  | _, _ => []
  end.

(** [a / b], elementwise.  Both operands come from the same frame, so they
    have the same length: when one is an [object] column without values
    there is nothing to divide. *)
Definition series_div (a b : Series) : Outcome Series :=
  if is_empty_object a || is_empty_object b then Returns (SObj [])
  else
    match series_as_float a with
    | Returns xs =>
        match series_as_float b with
        | Returns ys => Returns (SFloat (zip_with_div xs ys))
        | Raises err => Raises err
        end
    | Raises err => Raises err
    end.

(** [s > k] for a Python int [k]: a boolean mask. *)
Definition series_gt (s : Series) (k : Z) : Outcome (list bool) :=
  match s with
  | SInt xs => Returns (map (fun x => k <? x) xs)
  | SFloat xs => Returns (map (fun x => float_gt x (inject_Z k)) xs)
  | SBool xs => Returns (map (fun b => k <? bool_to_Z b) xs)
  | SObj [] => Returns []
  | SObj (_ :: _) => Raises TypeError
  end.

(** [np.where(mask, a, b)] for two string constants. *)
Definition np_where (mask : list bool) (a b : string) : Series :=
  SObj (map (fun c : bool => if c then a else b) mask).

Fixpoint df_lookup (df : DataFrame) (name : string) : option Series :=
  match df with
  | [] => None
  | (n, s) :: rest => if String.eqb n name then Some s else df_lookup rest name
  end.

(** [df[name]] *)
Definition getitem (df : DataFrame) (name : string) : Outcome Series :=
  match df_lookup df name with
  | Some s => Returns s
  | None => Raises (KeyError name)
  end.

(** [df[name] = s]: an existing column is replaced where it stands, a new
    one is appended. *)
Fixpoint setitem (df : DataFrame) (name : string) (s : Series) : DataFrame :=
  match df with
  | [] => [(name, s)]
  | (n, old) :: rest =>
      if String.eqb n name then (n, s) :: rest
      else (n, old) :: setitem rest name s
  end.

(** [df[mask].copy()] *)
Definition df_filter (df : DataFrame) (mask : list bool) : DataFrame :=
  map (fun c : string * Series => (fst c, series_filter mask (snd c))) df.

(** [df.head()] *)
Definition df_head (df : DataFrame) : DataFrame :=
  map (fun c : string * Series => (fst c, series_head 5 (snd c))) df.

Definition df_columns (df : DataFrame) : list string := map fst df.

(** [len(df)] *)
Definition df_len (df : DataFrame) : nat :=
  match df with
  | [] => O
  | (_, s) :: _ => series_len s
  end.

(** [df.empty] *)
Definition df_empty (df : DataFrame) : bool :=
  match df with
  | [] => true
  | _ => Nat.eqb (df_len df) 0
  end.

(** [pd.DataFrame()] *)
Definition pd_DataFrame : DataFrame := [].

(** ** Rows

    The specification speaks of rows; a frame stores columns.  [cell_at] reads one
    value of one row, and a frame of the input schema (id, category,
    value1, value2) is viewed as a list of typed rows. *)

Inductive cell : Type :=
| CInt (z : Z)
| CFloat (x : float64)
| CStr (s : string)
| CBool (b : bool).

Definition series_cells (s : Series) : list cell :=
  match s with
  | SInt xs => map CInt xs
  | SFloat xs => map CFloat xs
  | SObj xs => map CStr xs
  | SBool xs => map CBool xs
  end.

(** The value of column [name] in the row at position [i]. *)
Definition cell_at (df : DataFrame) (i : nat) (name : string) : option cell :=
  match df_lookup df name with
  | Some s => series_cells s !! i
  | None => None
  end.

(** [c > k] on one value, [None] where Python raises [TypeError]. *)
Definition cell_gt (c : cell) (k : Z) : option bool :=
  match c with
  | CInt x => Some (k <? x)
  | CFloat x => Some (float_gt x (inject_Z k))
  | CBool b => Some (k <? bool_to_Z b)
  | CStr _ => None
  end.

Record Row : Type := mkRow {
  row_id : Z;
  row_category : string;
  row_value1 : Z;
  row_value2 : float64
}.

Definition table_of_rows (rs : list Row) : DataFrame :=
  [ ("id", SInt (map row_id rs));
    ("category", SObj (map row_category rs));
    ("value1", SInt (map row_value1 rs));
    ("value2", SFloat (map row_value2 rs)) ].

Fixpoint zip_rows (ids : list Z) (cats : list string) (v1s : list Z)
    (v2s : list float64) : list Row :=
  match ids, cats, v1s, v2s with
  | i :: ids', c :: cats', a :: v1s', b :: v2s' =>
      mkRow i c a b :: zip_rows ids' cats' v1s' v2s'
  | _, _, _, _ => []
  end.

(** The rows of a frame, read off its four input columns. *)
Definition rows_of (df : DataFrame) : option (list Row) :=
  match df_lookup df "id", df_lookup df "category",
        df_lookup df "value1", df_lookup df "value2" with
  | Some (SInt ids), Some (SObj cats), Some (SInt v1s), Some (SFloat v2s) =>
      Some (zip_rows ids cats v1s v2s)
  | _, _, _, _ => None
  end.

(** The filter of line 116 and the three derived values, on one row. *)
Definition kept (r : Row) : bool := 20 <? row_value1 r.

Definition plus_10_of (r : Row) : Z := wrap64 (row_value1 r + 10).

Definition divisor_of (r : Row) : float64 :=
  float_add (float_of_int (row_value1 r)) (Finite epsilon).

Definition quotient_of (r : Row) : float64 :=
  float_div (row_value2 r) (divisor_of r).

Definition type_of (r : Row) : string :=
  if 35 <? row_value1 r then "High" else "Medium".

(** The frame the pipeline builds from the rows it keeps. *)
Definition annotated_table (rs : list Row) : DataFrame :=
  (table_of_rows rs ++
   [ ("value1_plus_10", SInt (map plus_10_of rs));
     ("value2_div_value1", SFloat (map quotient_of rs));
     ("value1_type", SObj (map type_of rs)) ])%list.

(** A list repeats with period [p]. *)
Definition periodic {A : Type} (p : nat) (xs : list A) : Prop :=
  forall i x, xs !! (i + p)%nat = Some x -> xs !! i = Some x.

(** [xs] cycles through [pattern]: element [i] is [pattern[i mod n]]. *)
Definition cycles_through {A : Type} (pattern xs : list A) : Prop :=
  forall i x, xs !! i = Some x ->
              pattern !! (i mod length pattern)%nat = Some x.

(** ** The world the script runs in *)

(** What a path names: a file that can be read and written, a directory,
    or a file the process has no permission to open ([Denied]).  [open]
    raises [OSError] on the last two. *)
Inductive fsnode : Type :=
| RegularFile (text : string)
| Directory
| Denied.

(** numpy's global generator: the raw draws to come and how many were
    taken. *)
Record RandomState : Type := mkRandomState {
  tape : nat -> Z;
  cursor : nat
}.

Inductive Level : Type := DEBUG | INFO | WARNING | ERROR | CRITICAL.

(** One constructor per logger call of the script, with the values its
    message is formatted from. *)
Inductive LogMsg : Type :=
| CreatingSample
| SampleCreated (rows : nat)
| ReadingFrom (path : string)
| NotFoundGenerating (path : string)
| SampleSaved (path : string)
| InputEmpty (path : string)
| InputError (path : string) (e : exn)
| OriginalHead
| Frame (df : DataFrame)
| StartingTransformations
| AddedColumn (name : string)
| Filtered (rows : nat)
| ProcessedHead
| ScriptStarted
| SavedTo (path : string)
| NoDataToSave
| Unhandled (e : exn)
| ScriptFinished.

(** The state of a run.  [files] is what the disk holds, but for the
    records written to the log file: wherever they go, they are kept in
    [log], in the order of the logger calls. *)
Record World : Type := mkWorld {
  files : gmap string fsnode;
  random : RandomState;
  log : list (Level * LogMsg)
}.

(** ** Computations: state passing with exceptions

    A raised exception keeps the state reached so far: files written and
    records logged before the [raise] stay. *)

Definition M (A : Type) : Type := World -> Outcome A * World.

Definition ret {A : Type} (a : A) : M A := fun w => (Returns a, w).

Definition raise {A : Type} (e : exn) : M A := fun w => (Raises e, w).

Definition bind {A B : Type} (m : M A) (k : A -> M B) : M B :=
  fun w =>
    match m w with
    | (Returns a, w') => k a w'
    | (Raises e, w') => (Raises e, w')
    end.

(** [try: m except ...]: run [m] and hand its outcome to the handlers. *)
Definition try_ {A : Type} (m : M A) : M (Outcome A) :=
  fun w => let '(r, w') := m w in (Returns r, w').

Definition lift {A : Type} (r : Outcome A) : M A := fun w => (r, w).

Declare Scope py_scope.
Delimit Scope py_scope with py.
Notation "x <- m ;; k" := (bind m (fun x => k))
  (at level 100, m at next level, k at level 200, right associativity)
  : py_scope.
Notation "m ;; k" := (bind m (fun _ => k))
  (at level 100, k at level 200, right associativity) : py_scope.
Local Open Scope py_scope.

(** *** Logging *)

Definition logger_log (lvl : Level) (msg : LogMsg) : M unit :=
  fun w => (Returns tt,
            {| files := files w; random := random w;
               log := log w ++ [(lvl, msg)] |}).

Definition logger_debug := logger_log DEBUG.
Definition logger_info := logger_log INFO.
Definition logger_warning := logger_log WARNING.
Definition logger_error := logger_log ERROR.
Definition logger_critical := logger_log CRITICAL.

(** *** numpy.random *)

Definition advance (n : nat) (st : RandomState) : RandomState :=
  {| tape := tape st; cursor := (cursor st + n)%nat |}.

Definition draws (n : nat) (st : RandomState) : list Z :=
  map (fun i => tape st (cursor st + i)%nat) (seq 0 n).

(** [np.random.randint(low, high, size)]: [size] int64 values of
    [low, high). *)
Definition np_random_randint (low high : Z) (size : nat) : M (list Z) :=
  fun w =>
    (Returns (map (fun r => low + r mod (high - low)) (draws size (random w))),
     {| files := files w; random := advance size (random w); log := log w |}).

(** [np.random.rand(size)]: [size] floats of [0, 1), 53 random bits each. *)
Definition np_random_rand (size : nat) : M (list float64) :=
  fun w =>
    (Returns (map (fun r => Finite (Qmake (r mod 2 ^ 53) (2 ^ 53)))
                  (draws size (random w))),
     {| files := files w; random := advance size (random w); log := log w |}).

(** [range(lo, hi)] *)
Definition range (lo hi : Z) : list Z :=
  map (fun i => lo + Z.of_nat i) (seq 0 (Z.to_nat (hi - lo))).

(** *** os.path *)

Fixpoint ends_with_slash (s : string) : bool :=
  match s with
  | EmptyString => false
  | String c EmptyString => Ascii.eqb c "/"%char
  | String _ rest => ends_with_slash rest
  end.

(** [os.path.join(a, b)] for a relative [b]. *)
Definition os_path_join (a b : string) : string :=
  match a with
  | EmptyString => b
  | _ => if ends_with_slash a then a +:+ b else a +:+ "/" +:+ b
  end.

Fixpoint has_slash (s : string) : bool :=
  match s with
  | EmptyString => false
  | String c rest => Ascii.eqb c "/"%char || has_slash rest
  end.

(** [p[:p.rfind('/') + 1]] *)
Fixpoint head_to_last_slash (s : string) : string :=
  match s with
  | EmptyString => EmptyString
  | String c rest =>
      if has_slash rest then String c (head_to_last_slash rest)
      else if Ascii.eqb c "/"%char then String c EmptyString
      else EmptyString
  end.

(** [s.rstrip('/')] *)
Fixpoint rstrip_slashes (s : string) : string :=
  match s with
  | EmptyString => EmptyString
  | String c rest =>
      match rstrip_slashes rest with
      | EmptyString =>
          if Ascii.eqb c "/"%char then EmptyString else String c EmptyString
      | stripped => String c stripped
      end
  end.

(** [os.path.dirname(p)]: the head up to the last slash, without its
    trailing slashes unless it consists of slashes only. *)
Definition os_path_dirname (p : string) : string :=
  let head := head_to_last_slash p in
  match rstrip_slashes head with
  | EmptyString => head
  | stripped => stripped
  end.

(** *** The file store

    The store is keyed by whole paths, compared as they are written (no
    trailing slash, no normalisation).  It lists files and, where it
    matters, directories; a path that has an entry below it is a directory
    whether the store lists it or not. *)

Fixpoint starts_with (prefix s : string) : bool :=
  match prefix, s with
  | EmptyString, _ => true
  | String _ _, EmptyString => false
  | String a prefix', String b s' => Ascii.eqb a b && starts_with prefix' s'
  end.

(** [path] is an entry of the directory [dir] or of a directory below it. *)
Definition lies_below (dir path : string) : bool :=
  starts_with (dir +:+ "/") path.

Definition has_entry_below (fs : gmap string fsnode) (dir : string) : bool :=
  existsb (fun kv : string * fsnode => lies_below dir (fst kv))
          (map_to_list fs).

(** What the filesystem has at [path]: a directory when the store holds an
    entry below [path], else what the store holds at [path]. *)
Definition entry (fs : gmap string fsnode) (path : string) : option fsnode :=
  if has_entry_below fs path then Some Directory else fs !! path.

(** [open(path, 'w')] succeeds: on a file, or where nothing is yet. *)
Definition writable (fs : gmap string fsnode) (path : string) : bool :=
  match entry fs path with
  | Some (RegularFile _) | None => true
  | Some Directory | Some Denied => false
  end.

(** A directory cannot be made at [path] when a path above it is a
    file. *)
Definition blocked_above (fs : gmap string fsnode) (path : string) : bool :=
  existsb (fun kv : string * fsnode =>
             lies_below (fst kv) path &&
             match snd kv with Directory => false | _ => true end)
          (map_to_list fs).

(** [os.makedirs(path, exist_ok=True)] on the store: a directory that is
    there is left alone; a file at [path] or above it raises
    ([FileExistsError], [NotADirectoryError]); otherwise the directory is
    made, and with it the directories above it. *)
Definition makedirs (path : string) (fs : gmap string fsnode)
  : Outcome (gmap string fsnode) :=
  match entry fs path with
  | Some Directory => Returns fs
  | Some (RegularFile _) | Some Denied => Raises OSError
  | None =>
      if blocked_above fs path then Raises OSError
      else Returns (<[path := Directory]> fs)
  end.

Definition os_path_exists (path : string) : M bool :=
  fun w => (Returns (bool_decide (is_Some (entry (files w) path))), w).

Definition os_makedirs (path : string) : M unit :=
  fun w =>
    match makedirs path (files w) with
    | Returns fs => (Returns tt,
                     {| files := fs; random := random w; log := log w |})
    | Raises e => (Raises e, w)
    end.

(** ** The script *)

(** [setup_logging()] as [main] sees it: the call has returned, the
    handlers are installed and carry the records, which [log] keeps.  What
    the call does to the logger and the files, and how it can raise, is
    [setup_logging_handlers] below; [script] runs it ahead of [main]. *)
Definition setup_logging : M unit := ret tt.

(** Lines 60-71. *)
Definition create_sample_dataframe : M DataFrame :=
  logger_debug CreatingSample ;;
  value1 <- np_random_randint 10 50 5 ;;
  r <- np_random_rand 5 ;;
  let value2 := map (fun x => float_mul x (float_of_int 100)) r in
  let df : DataFrame :=
    [ ("id", SInt (range 1 6));
      ("category", SObj ["A"; "B"; "A"; "C"; "B"]);
      ("value1", SInt value1);
      ("value2", SFloat value2) ] in
  logger_debug (SampleCreated (df_len df)) ;;
  ret df.

Section Script.

(** Where the script is installed, and the two pandas routines that turn
    text into a frame and back: [pd.read_csv] applied to the text of a
    file and the text [DataFrame.to_csv(index=False)] produces. *)
Variable PROJECT_ROOT : string.
Variable read_csv_text : string -> Outcome DataFrame.
Variable to_csv_text : DataFrame -> string.

(** The directory the script keeps its files in: [data_dir] of line 80
    and, being the directory of the log file, [log_dir] of line 28. *)
Definition data_dir : string := os_path_join PROJECT_ROOT "data".

Definition DEFAULT_INPUT_CSV_PATH : string :=
  os_path_join (os_path_join PROJECT_ROOT "data") "sample_input.csv".
Definition DEFAULT_OUTPUT_CSV_PATH : string :=
  os_path_join (os_path_join PROJECT_ROOT "data") "processed_output.csv".
Definition DEFAULT_LOG_FILE_PATH : string :=
  os_path_join (os_path_join PROJECT_ROOT "data") "data_processing.log".

(** [pd.read_csv(path)] *)
Definition pd_read_csv (path : string) : M DataFrame :=
  fun w =>
    match entry (files w) path with
    | Some (RegularFile text) => (read_csv_text text, w)
    | Some Directory | Some Denied | None => (Raises OSError, w)
    end.

(** [df.to_csv(path, index=False)].  The script writes into the data
    directory only, after [os.makedirs] has made sure of it. *)
Definition to_csv (df : DataFrame) (path : string) : M unit :=
  fun w =>
    if writable (files w) path then
      (Returns tt,
       {| files := <[path := RegularFile (to_csv_text df)]> (files w);
          random := random w; log := log w |})
    else (Raises OSError, w).

(** [input_csv_path if input_csv_path else DEFAULT_INPUT_CSV_PATH]: [None]
    and the empty string are both falsy. *)
Definition effective_input_path (input_csv_path : option string) : string :=
  match input_csv_path with
  | Some EmptyString | None => DEFAULT_INPUT_CSV_PATH
  | Some p => p
  end.

(** The body of the [try] statement, lines 86-93. *)
Definition load_input (path : string) : M DataFrame :=
  found <- os_path_exists path ;;
  if found : bool then
    logger_info (ReadingFrom path) ;;
    pd_read_csv path
  else
    logger_warning (NotFoundGenerating path) ;;
    df <- create_sample_dataframe ;;
    to_csv df DEFAULT_INPUT_CSV_PATH ;;
    logger_info (SampleSaved DEFAULT_INPUT_CSV_PATH) ;;
    ret df.

(** Lines 105-125. *)
Definition transform (df : DataFrame) : M DataFrame :=
  logger_info OriginalHead ;;
  logger_info (Frame (df_head df)) ;;
  logger_debug StartingTransformations ;;
  value1 <- lift (getitem df "value1") ;;
  plus_10 <- lift (series_add_int value1 10) ;;
  let df := setitem df "value1_plus_10" plus_10 in
  logger_debug (AddedColumn "value1_plus_10") ;;
  value2 <- lift (getitem df "value2") ;;
  value1 <- lift (getitem df "value1") ;;
  divisor <- lift (series_add_float value1 epsilon) ;;
  quotient <- lift (series_div value2 divisor) ;;
  let df := setitem df "value2_div_value1" quotient in
  logger_debug (AddedColumn "value2_div_value1") ;;
  value1 <- lift (getitem df "value1") ;;
  keep <- lift (series_gt value1 20) ;;
  let df_filtered := df_filter df keep in
  logger_debug (Filtered (df_len df_filtered)) ;;
  value1 <- lift (getitem df_filtered "value1") ;;
  high <- lift (series_gt value1 35) ;;
  let df_filtered :=
    setitem df_filtered "value1_type" (np_where high "High" "Medium") in
  logger_debug (AddedColumn "value1_type") ;;
  logger_info ProcessedHead ;;
  logger_info (Frame (df_head df_filtered)) ;;
  ret df_filtered.

(** Lines 83-125: [process_data] once the data directory is there. *)
Definition load_and_transform (input_csv_path : option string)
  : M DataFrame :=
  let path := effective_input_path input_csv_path in
  loaded <- try_ (load_input path) ;;
  match loaded with
  | Raises e =>
      if is_EmptyDataError e then
        logger_error (InputEmpty path) ;;
        ret pd_DataFrame
      else
        logger_error (InputError path e) ;;
        ret pd_DataFrame
  | Returns df => transform df
  end.

(** Lines 75-125. *)
Definition process_data (input_csv_path : option string) : M DataFrame :=
  let data_dir := os_path_join PROJECT_ROOT "data" in
  os_makedirs data_dir ;;
  let path := effective_input_path input_csv_path in
  loaded <- try_ (load_input path) ;;
  match loaded with
  | Raises e =>
      if is_EmptyDataError e then
        logger_error (InputEmpty path) ;;
        ret pd_DataFrame
      else
        logger_error (InputError path e) ;;
        ret pd_DataFrame
  | Returns df => transform df
  end.

(** Lines 129-152, with a [setup_logging] that has returned. *)
Definition main : M unit :=
  setup_logging ;;
  logger_info ScriptStarted ;;
  run <- try_ (
    processed_df <- process_data (Some DEFAULT_INPUT_CSV_PATH) ;;
    if negb (df_empty processed_df) then
      to_csv processed_df DEFAULT_OUTPUT_CSV_PATH ;;
      logger_info (SavedTo DEFAULT_OUTPUT_CSV_PATH)
    else
      logger_info NoDataToSave) ;;
  match run with
  | Raises e => logger_critical (Unhandled e)
  | Returns _ => ret tt
  end ;;
  logger_info ScriptFinished.

(** *** What the transformation computes

    [transform] only logs on its way, so its value is a function of the
    frame alone: the same steps without the logger calls. *)

Definition and_then {A B : Type} (r : Outcome A) (k : A -> Outcome B)
  : Outcome B :=
  match r with
  | Returns a => k a
  | Raises e => Raises e
  end.

Definition transform_result (df : DataFrame) : Outcome DataFrame :=
  and_then (getitem df "value1") (fun value1 =>
  and_then (series_add_int value1 10) (fun plus_10 =>
  let df1 := setitem df "value1_plus_10" plus_10 in
  and_then (getitem df1 "value2") (fun value2 =>
  and_then (getitem df1 "value1") (fun value1 =>
  and_then (series_add_float value1 epsilon) (fun divisor =>
  and_then (series_div value2 divisor) (fun quotient =>
  let df2 := setitem df1 "value2_div_value1" quotient in
  and_then (getitem df2 "value1") (fun value1 =>
  and_then (series_gt value1 20) (fun keep =>
  let df_filtered := df_filter df2 keep in
  and_then (getitem df_filtered "value1") (fun value1 =>
  and_then (series_gt value1 35) (fun high =>
  Returns (setitem df_filtered "value1_type"
             (np_where high "High" "Medium")))))))))))).

(** *** The sample, as a function of the generator

    The frame lines 63-69 build when the generator is in state [st]: five
    draws for [value1], the next five for [value2]. *)

Definition sample_value1 (st : RandomState) : list Z :=
  map (fun r => 10 + r mod (50 - 10)) (draws 5 st).

Definition sample_value2 (st : RandomState) : list float64 :=
  map (fun r => float_mul (Finite (Qmake (r mod 2 ^ 53) (2 ^ 53)))
                          (float_of_int 100))
      (draws 5 (advance 5 st)).

Definition sample_rows (st : RandomState) : list Row :=
  zip_rows (range 1 6) ["A"; "B"; "A"; "C"; "B"]
           (sample_value1 st) (sample_value2 st).

Definition sample_frame (st : RandomState) : DataFrame :=
  [ ("id", SInt (range 1 6));
    ("category", SObj ["A"; "B"; "A"; "C"; "B"]);
    ("value1", SInt (sample_value1 st));
    ("value2", SFloat (sample_value2 st)) ].

(** *** The driver, seen from the disk *)

(** What [main] leaves on disk: the files after [process_data], with the
    output file written when the result is not empty and the output
    location can be written. *)
Definition files_after_main (r : Outcome DataFrame) (fs : gmap string fsnode)
  : gmap string fsnode :=
  match r with
  | Returns df =>
      if negb (df_empty df) && writable fs DEFAULT_OUTPUT_CSV_PATH then
        <[DEFAULT_OUTPUT_CSV_PATH := RegularFile (to_csv_text df)]> fs
      else fs
  | Raises _ => fs
  end.

Definition started (w : World) : World :=
  {| files := files w; random := random w;
     log := log w ++ [(INFO, ScriptStarted)] |}.

(** The world line 81 leaves: the data directory made where it was not. *)
Definition prepared (w : World) : World :=
  snd (os_makedirs data_dir w).

(** *** Columns the arithmetic accepts *)

(** Every dtype but [object] takes part in [+], [/] and [>]. *)
Definition is_numeric (s : Series) : bool :=
  match s with
  | SObj _ => false
  | SInt _ | SFloat _ | SBool _ => true
  end.

(** A column the arithmetic of lines 110-119 goes through with: a numeric
    one, or one without values. *)
Definition accepted (s : Series) : bool :=
  is_numeric s || is_empty_object s.

(** *** The handlers of the logger

    [setup_logging] in detail (lines 25-56): the state of the module's logger
    and the files it opens.  [World.log] above records every logger call;
    here is where the installed handlers carry a record. *)

Inductive Sink : Type :=
| FileSink (path : string)
| ConsoleSink.

Record Handler : Type := mkHandler {
  handler_sink : Sink;
  handler_level : Level;
  handler_format : string
}.

Record Logger : Type := mkLogger {
  handlers : list Handler;
  logger_level : Level;
  propagate : bool
}.

(** [logging.DEBUG] ... [logging.CRITICAL] *)
Definition level_no (l : Level) : Z :=
  match l with
  | DEBUG => 10
  | INFO => 20
  | WARNING => 30
  | ERROR => 40
  | CRITICAL => 50
  end.

(** [logging.getLogger(__name__)] before any configuration: no handler, the
    effective level of the root logger, records passed on to it. *)
Definition getLogger : Logger :=
  {| handlers := []; logger_level := WARNING; propagate := true |}.

(** [logging.FileHandler(path)] opens the file for appending: a missing
    file is created, a directory or a file without permission raises. *)
Definition open_for_append (path : string) (fs : gmap string fsnode)
  : Outcome (gmap string fsnode) :=
  match entry fs path with
  | Some Directory | Some Denied => Raises OSError
  | Some (RegularFile _) => Returns fs
  | None => Returns (<[path := RegularFile EmptyString]> fs)
  end.

(** Lines 25-56, on the logger and the files. *)
Definition setup_logging_handlers (lg : Logger) (fs : gmap string fsnode)
  : Outcome Logger * gmap string fsnode :=
  let log_dir := os_path_dirname DEFAULT_LOG_FILE_PATH in
  match makedirs log_dir fs with
  | Raises e => (Raises e, fs)
  | Returns fs1 =>
      let formatter :=
        "%(asctime)s - %(name)s - %(levelname)s - %(message)s" in
      match open_for_append DEFAULT_LOG_FILE_PATH fs1 with
      | Raises e => (Raises e, fs1)
      | Returns fs2 =>
          let file_handler :=
            mkHandler (FileSink DEFAULT_LOG_FILE_PATH) DEBUG formatter in
          let console_handler := mkHandler ConsoleSink INFO formatter in
          (Returns {| handlers :=
                        handlers lg ++ [file_handler; console_handler];
                      logger_level := DEBUG;
                      propagate := false |},
           fs2)
      end
  end.

(** [Logger.callHandlers]: the handlers whose level admits a record of
    level [lvl], in the order they were added. *)
Definition routed (lg : Logger) (lvl : Level) : list Sink :=
  map handler_sink
      (List.filter (fun h => level_no (handler_level h) <=? level_no lvl)
                   (handlers lg)).

(** [Logger.handle]: a record at or above the logger's level goes to the
    logger's handlers that admit it.  What the root logger does with a
    record passed on to it ([propagate]) is left out. *)
Definition deliver (lg : Logger) (lvl : Level) : list Sink :=
  if level_no (logger_level lg) <=? level_no lvl then routed lg lvl else [].

(** [setup_logging] called [n] times in a row. *)
Fixpoint setup_logging_times (n : nat) (lg : Logger)
    (fs : gmap string fsnode) : Outcome Logger * gmap string fsnode :=
  match n with
  | O => (Returns lg, fs)
  | S n' =>
      match setup_logging_handlers lg fs with
      | (Returns lg', fs') => setup_logging_times n' lg' fs'
      | (Raises e, fs') => (Raises e, fs')
      end
  end.

Definition count_sink (s : Sink) (sinks : list Sink) : nat :=
  length (List.filter
            (fun t => match s, t with
                      | ConsoleSink, ConsoleSink => true
                      | FileSink p, FileSink q => String.eqb p q
                      | _, _ => false
                      end) sinks).

(** *** Column lists *)

(** The column names after [df[name] = ...]: a name already there keeps its
    place, a new one goes last. *)
Definition add_column (names : list string) (name : string) : list string :=
  if existsb (fun n => String.eqb n name) names then names
  else (names ++ [name])%list.

(** All columns have [n] values. *)
Definition rectangular (df : DataFrame) (n : nat) : Prop :=
  Forall (fun c : string * Series => series_len (snd c) = n) df.

(** A record below the level ERROR. *)
Definition low_level (r : Level * LogMsg) : Prop := level_no (fst r) < 40.

(** *** The driver, record by record *)

Definition logged (w : World) (records : list (Level * LogMsg)) : World :=
  {| files := files w; random := random w; log := log w ++ records |}.

(** The world [main] ends in, from what [process_data] gave it. *)
Definition finish_main (r : Outcome DataFrame) (w : World) : World :=
  match r with
  | Returns df =>
      if negb (df_empty df) then
        if writable (files w) DEFAULT_OUTPUT_CSV_PATH then
          {| files := <[DEFAULT_OUTPUT_CSV_PATH :=
                          RegularFile (to_csv_text df)]> (files w);
             random := random w;
             log := log w ++ [(INFO, SavedTo DEFAULT_OUTPUT_CSV_PATH);
                              (INFO, ScriptFinished)] |}
        else logged w [(CRITICAL, Unhandled OSError); (INFO, ScriptFinished)]
      else logged w [(INFO, NoDataToSave); (INFO, ScriptFinished)]
  | Raises e => logged w [(CRITICAL, Unhandled e); (INFO, ScriptFinished)]
  end.

(** *** The script, handlers included

    Lines 129-152 with [setup_logging] in detail: the call of line 130
    stands outside the [try] statement, so what it raises ends the script.
    [main] above is the script from line 131 on. *)
Definition script (lg : Logger) (w : World)
  : Outcome unit * World * Logger :=
  match setup_logging_handlers lg (files w) with
  | (Raises e, fs') =>
      (Raises e, {| files := fs'; random := random w; log := log w |}, lg)
  | (Returns lg', fs') =>
      let '(r, w') :=
        main {| files := fs'; random := random w; log := log w |} in
      (r, w', lg')
  end.

(** *** Concrete inputs

    The frame of the fixture in [tests/test_main.py], three further CSV
    texts, and a reader that knows what [pd.read_csv] makes of each of
    them (any other text counts as malformed).  They are the inputs at
    which the statements below are exercised. *)

Definition nl : string := String (ascii_of_nat 10) EmptyString.

(** The text of a zero-byte file. *)
Definition zero_bytes : string := EmptyString.

Definition header : string := "id,category,value1,value2" +:+ nl.

Definition fixture_rows : list Row :=
  [ mkRow 1 "X" 15 (Finite 10); mkRow 2 "Y" 25 (Finite 20);
    mkRow 3 "X" 35 (Finite 30); mkRow 4 "Z" 45 (Finite 40);
    mkRow 5 "Y" 10 (Finite 50) ].

Definition fixture_csv : string :=
  header +:+ "1,X,15,10.0" +:+ nl +:+ "2,Y,25,20.0" +:+ nl
         +:+ "3,X,35,30.0" +:+ nl +:+ "4,Z,45,40.0" +:+ nl
         +:+ "5,Y,10,50.0" +:+ nl.

(** A row whose [value1] is the largest int64, and one whose [value1] is
    zero. *)
Definition extreme_rows : list Row :=
  [ mkRow 1 "A" 9223372036854775807 (Finite 1); mkRow 2 "B" 0 (Finite 5) ].

Definition extreme_csv : string :=
  header +:+ "1,A,9223372036854775807,1.0" +:+ nl +:+ "2,B,0,5.0" +:+ nl.


Definition read_csv_known (text : string) : Outcome DataFrame :=
  if String.eqb text zero_bytes then Raises EmptyDataError
  else if String.eqb text fixture_csv then Returns (table_of_rows fixture_rows)
  else if String.eqb text extreme_csv then Returns (table_of_rows extreme_rows)
  else Raises ParserError.

(** A stand-in for the writer: the header line of the frame. *)
Definition to_csv_header (df : DataFrame) : string :=
  String.concat "," (df_columns df) +:+ nl.

Definition app_root : string := "/srv/app".

Definition generator_from (draw : nat -> Z) : RandomState :=
  {| tape := draw; cursor := 0 |}.

(** A world whose only file is [path], holding [text]. *)
Definition world_with (path text : string) : World :=
  {| files := {[ path := RegularFile text ]};
     random := generator_from (fun n => 7 * Z.of_nat n);
     log := [] |}.

(** A world without files whose generator draws [draw]. *)
Definition bare_world (draw : nat -> Z) : World :=
  {| files := ∅; random := generator_from draw; log := [] |}.

Definition fixture_output : DataFrame :=
  annotated_table
    [ mkRow 2 "Y" 25 (Finite 20); mkRow 3 "X" 35 (Finite 30);
      mkRow 4 "Z" 45 (Finite 40) ].

(** A second world that holds the same input file beside another file, with
    another generator and an earlier log. *)
Definition busy_world (path text : string) : World :=
  {| files := <[ "notes.txt" := RegularFile "x" ]>
                {[ path := RegularFile text ]};
     random := generator_from (fun n => 13 + Z.of_nat n);
     log := [(INFO, ScriptStarted)] |}.

(** The default input location under [app_root]. *)
Definition default_input : string := "/srv/app/data/sample_input.csv".

(** *** Further inputs: frames outside the schema, blocked locations *)

(** A table without the columns the pipeline reads. *)
Definition other_columns_csv : string := "a,b" +:+ nl +:+ "1,2" +:+ nl.

Definition other_columns_frame : DataFrame :=
  [ ("a", SInt [1]); ("b", SInt [2]) ].

(** A table whose [value1] is text. *)
Definition text_value1_csv : string := header +:+ "1,X,abc,1.0" +:+ nl.

Definition text_value1_frame : DataFrame :=
  [ ("id", SInt [1]); ("category", SObj ["X"]);
    ("value1", SObj ["abc"]); ("value2", SFloat [Finite 1]) ].

(** A table with [value1] and no [value2]. *)
Definition no_value2_csv : string :=
  "id,value1" +:+ nl +:+ "1,30" +:+ nl.

Definition no_value2_frame : DataFrame :=
  [ ("id", SInt [1]); ("value1", SInt [30]) ].

Definition read_csv_more (text : string) : Outcome DataFrame :=
  if String.eqb text other_columns_csv then Returns other_columns_frame
  else if String.eqb text text_value1_csv then Returns text_value1_frame
  else if String.eqb text no_value2_csv then Returns no_value2_frame
  else read_csv_known text.

(** A world without files in which nothing can be written at the default
    input location. *)
Definition blocked_world : World :=
  {| files := {[ default_input := Denied ]};
     random := generator_from (fun n => 7 * Z.of_nat n);
     log := [] |}.

(** The sample the generator of [world_with] and [bare_world] draws first,
    a writer that renders it as a fixed text and a reader that parses that
    text back. *)
Definition first_sample : DataFrame :=
  sample_frame (generator_from (fun n => 7 * Z.of_nat n)).

Definition sample_text : string := "the sample, as csv".

Definition to_csv_sample (df : DataFrame) : string := sample_text.

Definition read_csv_sample (text : string) : Outcome DataFrame :=
  if String.eqb text sample_text then Returns first_sample
  else Raises ParserError.

(** A file with the header line and no data line: every column comes out
    of [pd.read_csv] as an [object] column without values.  The same for
    a header line that names other columns. *)
Definition header_only_frame : DataFrame :=
  [ ("id", SObj []); ("category", SObj []);
    ("value1", SObj []); ("value2", SObj []) ].

Definition other_header_csv : string := "a,b" +:+ nl.

Definition other_header_frame : DataFrame :=
  [ ("a", SObj []); ("b", SObj []) ].

Definition read_csv_headers (text : string) : Outcome DataFrame :=
  if String.eqb text header then Returns header_only_frame
  else if String.eqb text other_header_csv then Returns other_header_frame
  else read_csv_more text.

(** A world in which the place of the data directory is taken by a
    file. *)
Definition occupied_world (path text : string) : World :=
  {| files := <[ "/srv/app/data" := RegularFile "not a directory" ]>
                {[ path := RegularFile text ]};
     random := generator_from (fun n => 7 * Z.of_nat n);
     log := [] |}.

(** The data directory under [app_root]. *)
Definition data_directory : string := "/srv/app/data".

(** ** Masks and columns *)

Lemma mask_filter_map {A B : Type} (f : A -> B) (mask : list bool)
    (xs : list A) :
  mask_filter mask (map f xs) = map f (mask_filter mask xs).
Proof.
  revert xs. induction mask as [|b mask IH]; intros [|x xs]; simpl; trivial.
  destruct b; simpl; now rewrite IH.
Qed.

Lemma mask_filter_self {A : Type} (p : A -> bool) (xs : list A) :
  mask_filter (map p xs) xs = List.filter p xs.
Proof.
  induction xs as [|x xs IH]; simpl; trivial.
  destruct (p x); now rewrite IH.
Qed.

Lemma mask_filter_rows {A B : Type} (p : A -> bool) (f : A -> B)
    (xs : list A) :
  mask_filter (map p xs) (map f xs) = map f (List.filter p xs).
Proof. now rewrite mask_filter_map, mask_filter_self. Qed.

Lemma mask_filter_length {A : Type} (mask : list bool) (xs : list A) :
  (length (mask_filter mask xs) <= length xs)%nat.
Proof.
  revert xs. induction mask as [|b mask IH]; intros [|x xs]; simpl; try lia.
  specialize (IH xs). destruct b; simpl; lia.
Qed.

Lemma zip_with_div_map {A : Type} (f g : A -> float64) (xs : list A) :
  zip_with_div (map f xs) (map g xs) = map (fun x => float_div (f x) (g x)) xs.
Proof. induction xs as [|x xs IH]; simpl; congruence. Qed.

Lemma lookup_map {A B : Type} (f : A -> B) (xs : list A) (i : nat) :
  map f xs !! i = option_map f (xs !! i).
Proof. revert i. induction xs as [|x xs IH]; intros [|i]; simpl; auto. Qed.

Lemma series_cells_filter (mask : list bool) (s : Series) :
  series_cells (series_filter mask s) = mask_filter mask (series_cells s).
Proof. destruct s; simpl; now rewrite mask_filter_map. Qed.

Lemma df_lookup_setitem_eq (df : DataFrame) (name : string) (s : Series) :
  df_lookup (setitem df name s) name = Some s.
Proof.
  induction df as [|[n old] df IH]; simpl.
  - now rewrite String.eqb_refl.
  - destruct (String.eqb n name) eqn:E; simpl; now rewrite E.
Qed.

Lemma df_lookup_setitem_ne (df : DataFrame) (name other : string)
    (s : Series) :
  String.eqb name other = false ->
  df_lookup (setitem df name s) other = df_lookup df other.
Proof.
  intros Hne. induction df as [|[n old] df IH]; simpl.
  - now rewrite Hne.
  - destruct (String.eqb n name) eqn:E; simpl.
    + apply String.eqb_eq in E. subst n. now rewrite Hne.
    + now rewrite IH.
Qed.

Lemma df_lookup_filter (df : DataFrame) (mask : list bool) (name : string) :
  df_lookup (df_filter df mask) name
  = option_map (series_filter mask) (df_lookup df name).
Proof.
  induction df as [|[n s] df IH]; simpl; trivial.
  destruct (String.eqb n name); simpl; trivial.
Qed.

Lemma getitem_Returns (df : DataFrame) (name : string) (s : Series) :
  getitem df name = Returns s <-> df_lookup df name = Some s.
Proof.
  unfold getitem. destruct (df_lookup df name); split; congruence.
Qed.

(** ** The transformation *)

Lemma and_then_Returns {A B : Type} (r : Outcome A) (k : A -> Outcome B)
    (b : B) :
  and_then r k = Returns b -> exists a, r = Returns a /\ k a = Returns b.
Proof. destruct r; simpl; intros H; [eauto | discriminate]. Qed.

(** The steps a successful transformation went through. *)
Lemma transform_result_inv (df out : DataFrame) :
  transform_result df = Returns out ->
  exists value1 value2 plus_10 divisor quotient keep high,
    df_lookup df "value1" = Some value1 /\
    df_lookup df "value2" = Some value2 /\
    series_add_int value1 10 = Returns plus_10 /\
    series_add_float value1 epsilon = Returns divisor /\
    series_div value2 divisor = Returns quotient /\
    series_gt value1 20 = Returns keep /\
    series_gt (series_filter keep value1) 35 = Returns high /\
    out = setitem
            (df_filter
               (setitem (setitem df "value1_plus_10" plus_10)
                        "value2_div_value1" quotient) keep)
            "value1_type" (np_where high "High" "Medium").
Proof.
  unfold transform_result. intros H.
  apply and_then_Returns in H as (v1 & Hv1 & H).
  apply and_then_Returns in H as (p10 & Hp & H).
  apply and_then_Returns in H as (v2 & Hv2 & H).
  apply and_then_Returns in H as (v1' & Hv1' & H).
  apply and_then_Returns in H as (d & Hd & H).
  apply and_then_Returns in H as (q & Hq & H).
  apply and_then_Returns in H as (v1'' & Hv1'' & H).
  apply and_then_Returns in H as (keep & Hk & H).
  apply and_then_Returns in H as (v1f & Hv1f & H).
  apply and_then_Returns in H as (high & Hh & H).
  apply getitem_Returns in Hv1, Hv2, Hv1', Hv1'', Hv1f.
  rewrite df_lookup_setitem_ne in Hv2, Hv1' by reflexivity.
  rewrite df_lookup_filter in Hv1f.
  rewrite !df_lookup_setitem_ne in Hv1'', Hv1f by reflexivity.
  rewrite Hv1 in Hv1', Hv1'', Hv1f. simpl in Hv1f.
  injection Hv1' as <-. injection Hv1'' as <-. injection Hv1f as <-.
  exists v1, v2, p10, d, q, keep, high.
  repeat split; trivial. now injection H as <-.
Qed.

Ltac step_outcome :=
  match goal with
  | |- context [match ?r with Returns _ => _ | Raises _ => _ end] =>
      destruct r; simpl
  end.

(** The logger calls do not change what [transform] returns. *)
Lemma transform_value (df : DataFrame) (w : World) :
  fst (transform df w) = transform_result df.
Proof.
  unfold transform, transform_result, bind, lift, ret, and_then,
    logger_info, logger_debug, logger_log; simpl.
  repeat (step_outcome; try reflexivity).
Qed.

(** [transform] touches neither the files nor the generator. *)
Lemma transform_frame (df : DataFrame) (w : World) :
  files (snd (transform df w)) = files w /\
  random (snd (transform df w)) = random w.
Proof.
  unfold transform, bind, lift, ret,
    logger_info, logger_debug, logger_log; simpl.
  repeat (step_outcome; try (split; reflexivity)).
Qed.

(** ** The sample generator *)

Lemma create_sample_dataframe_run (w : World) :
  create_sample_dataframe w
  = (Returns (sample_frame (random w)),
     {| files := files w;
        random := advance 5 (advance 5 (random w));
        log := (log w ++ [(DEBUG, CreatingSample)])
                 ++ [(DEBUG, SampleCreated 5)] |}).
Proof. reflexivity. Qed.

Lemma sample_frame_rows (st : RandomState) :
  sample_frame st = table_of_rows (sample_rows st).
Proof. reflexivity. Qed.

Lemma sample_rows_length (st : RandomState) : length (sample_rows st) = 5%nat.
Proof. reflexivity. Qed.

(** ** The pipeline on frames of the input schema *)

Lemma rows_of_table (rs : list Row) : rows_of (table_of_rows rs) = Some rs.
Proof.
  unfold rows_of, table_of_rows. simpl.
  f_equal. induction rs as [|[i c a b] rs IH]; simpl; congruence.
Qed.

(** Column by column, the script computes what the rows say. *)
Lemma transform_result_rows (rs : list Row) :
  transform_result (table_of_rows rs)
  = Returns (annotated_table (List.filter kept rs)).
Proof.
  unfold transform_result, table_of_rows, getitem, annotated_table.
  cbn -[wrap64 float_div float_add float_of_int Z.ltb Z.add epsilon
        mask_filter zip_with_div List.filter].
  rewrite !map_map.
  change (map (fun x : Row => 20 <? row_value1 x) rs) with (map kept rs).
  rewrite zip_with_div_map, !mask_filter_rows.
  unfold np_where. rewrite !map_map.
  reflexivity.
Qed.

(** ** Paths *)

Lemma append_cons (ch : ascii) (a b : string) :
  String ch a +:+ b = String ch (a +:+ b).
Proof. reflexivity. Qed.

Lemma append_nil (b : string) : EmptyString +:+ b = b.
Proof. reflexivity. Qed.

Lemma append_assoc (a b c : string) : (a +:+ b) +:+ c = a +:+ (b +:+ c).
Proof.
  induction a as [|ch a IH]; rewrite ?append_nil, ?append_cons;
    [reflexivity | now rewrite IH].
Qed.

Lemma append_inj_r (a b c : string) : a +:+ b = a +:+ c -> b = c.
Proof.
  induction a as [|ch a IH]; simpl; intros H; [exact H|].
  injection H. exact IH.
Qed.

Lemma starts_with_app (a b c : string) :
  starts_with (a +:+ b) (a +:+ c) = starts_with b c.
Proof.
  induction a as [|ch a IH]; rewrite ?append_nil, ?append_cons; simpl;
    [reflexivity|].
  now rewrite Ascii.eqb_refl.
Qed.

Lemma starts_with_longer (a : string) (c : ascii) (s : string) :
  starts_with (a +:+ String c s) a = false.
Proof.
  induction a as [|ch a IH]; rewrite ?append_nil, ?append_cons; simpl;
    [reflexivity|].
  now rewrite Ascii.eqb_refl.
Qed.

Lemma starts_with_app_l (a b s : string) :
  starts_with (a +:+ b) s = true -> starts_with a s = true.
Proof.
  revert s. induction a as [|ch a IH]; intros s; [reflexivity|].
  rewrite append_cons. destruct s as [|c s]; simpl; [discriminate|].
  destruct (Ascii.eqb ch c); simpl; [apply IH | discriminate].
Qed.

Lemma lies_below_irrefl (path : string) : lies_below path path = false.
Proof. apply starts_with_longer. Qed.

Lemma ends_with_slash_data (a : string) :
  ends_with_slash (a +:+ "data") = false.
Proof.
  induction a as [|ch a IH]; [reflexivity|]. rewrite append_cons. simpl.
  destruct (a +:+ "data") eqn:E; [destruct a; discriminate | exact IH].
Qed.

Lemma data_dir_tail : exists a, data_dir = a +:+ "data".
Proof.
  unfold data_dir, os_path_join. destruct PROJECT_ROOT as [|ch r].
  - now exists EmptyString.
  - destruct (ends_with_slash (String ch r)); [eexists; reflexivity|].
    exists (String ch r +:+ "/").
    exact (eq_sym (append_assoc (String ch r) "/" "data")).
Qed.

(** The data directory never ends in a slash: its entries are at
    [data_dir/name]. *)
Lemma data_dir_join (name : string) :
  os_path_join data_dir name = data_dir +:+ String "/" name.
Proof.
  destruct data_dir_tail as [a ->]. unfold os_path_join.
  rewrite ends_with_slash_data. now destruct a.
Qed.

Lemma lies_below_data_dir (name : string) :
  lies_below data_dir (os_path_join data_dir name) = true.
Proof.
  rewrite data_dir_join. unfold lies_below.
  now rewrite (starts_with_app data_dir "/" (String "/" name)).
Qed.

Lemma lies_below_join (a b : string) :
  lies_below (os_path_join data_dir a) (os_path_join data_dir b)
  = starts_with (a +:+ "/") b.
Proof.
  rewrite !data_dir_join. unfold lies_below.
  rewrite append_assoc, starts_with_app. reflexivity.
Qed.

Lemma lies_below_join_dir (a : string) :
  lies_below (os_path_join data_dir a) data_dir = false.
Proof.
  rewrite data_dir_join. unfold lies_below. rewrite append_assoc.
  apply starts_with_longer.
Qed.

Lemma data_dir_join_ne (a : string) : os_path_join data_dir a <> data_dir.
Proof.
  intros H. pose proof (lies_below_data_dir a) as Hb.
  rewrite H, lies_below_irrefl in Hb. discriminate Hb.
Qed.

Lemma os_path_join_inj (dir a b : string) :
  os_path_join dir a = os_path_join dir b -> a = b.
Proof.
  unfold os_path_join. destruct dir as [|ch dir]; [trivial|].
  destruct (ends_with_slash (String ch dir)); intros H;
    repeat apply append_inj_r in H; exact H.
Qed.

Lemma default_paths_differ : DEFAULT_INPUT_CSV_PATH <> DEFAULT_OUTPUT_CSV_PATH.
Proof.
  unfold DEFAULT_INPUT_CSV_PATH, DEFAULT_OUTPUT_CSV_PATH. intros H.
  apply os_path_join_inj in H. discriminate H.
Qed.

Lemma effective_default :
  effective_input_path (Some DEFAULT_INPUT_CSV_PATH) = DEFAULT_INPUT_CSV_PATH.
Proof.
  unfold effective_input_path. now destruct DEFAULT_INPUT_CSV_PATH.
Qed.

(** ** The file store *)

Lemma has_entry_below_true (fs : gmap string fsnode) (dir : string) :
  has_entry_below fs dir = true
  <-> exists path node, fs !! path = Some node /\ lies_below dir path = true.
Proof.
  unfold has_entry_below. rewrite existsb_exists. split.
  - intros ([path node] & Hin & Hb). exists path, node.
    split; [|exact Hb]. now apply elem_of_map_to_list, list_elem_of_In.
  - intros (path & node & Hl & Hb). exists (path, node).
    split; [|exact Hb]. now apply list_elem_of_In, elem_of_map_to_list.
Qed.

Lemma has_entry_below_insert (fs : gmap string fsnode) (path : string)
    (node : fsnode) (dir : string) :
  has_entry_below (<[path := node]> fs) dir
  = has_entry_below fs dir || lies_below dir path.
Proof.
  apply Bool.eq_iff_eq_true.
  rewrite orb_true_iff, !has_entry_below_true. split.
  - intros (k & n & Hl & Hb). destruct (decide (k = path)) as [->|Hne].
    + now right.
    + left. exists k, n. now rewrite lookup_insert_ne in Hl.
  - intros [(k & n & Hl & Hb) | Hb].
    + destruct (decide (k = path)) as [->|Hne].
      * exists path, node. now rewrite lookup_insert_eq.
      * exists k, n. now rewrite lookup_insert_ne.
    + exists path, node. now rewrite lookup_insert_eq.
Qed.

Lemma entry_insert_ne (fs : gmap string fsnode) (path other : string)
    (node : fsnode) :
  other <> path -> lies_below other path = false ->
  entry (<[path := node]> fs) other = entry fs other.
Proof.
  intros Hne Hb. unfold entry.
  rewrite has_entry_below_insert, Hb, orb_false_r.
  now rewrite lookup_insert_ne.
Qed.

Lemma entry_insert_eq (fs : gmap string fsnode) (path : string)
    (node : fsnode) :
  has_entry_below fs path = false ->
  entry (<[path := node]> fs) path = Some node.
Proof.
  intros Hb. unfold entry.
  rewrite has_entry_below_insert, Hb, lies_below_irrefl.
  apply lookup_insert_eq.
Qed.

Lemma entry_None (fs : gmap string fsnode) (path : string) :
  entry fs path = None ->
  fs !! path = None /\ has_entry_below fs path = false.
Proof.
  unfold entry. destruct (has_entry_below fs path); [discriminate | auto].
Qed.

Lemma entry_file (fs : gmap string fsnode) (path text : string) :
  entry fs path = Some (RegularFile text) ->
  fs !! path = Some (RegularFile text) /\ has_entry_below fs path = false.
Proof.
  unfold entry. destruct (has_entry_below fs path); [discriminate | auto].
Qed.

Lemma entry_above (fs : gmap string fsnode) (dir path : string)
    (node : fsnode) :
  fs !! path = Some node -> lies_below dir path = true ->
  entry fs dir = Some Directory.
Proof.
  intros Hl Hb. unfold entry.
  replace (has_entry_below fs dir) with true; [reflexivity|].
  symmetry. apply has_entry_below_true. eauto.
Qed.

(** A directory stays one whatever is written elsewhere. *)
Lemma entry_directory_insert (fs : gmap string fsnode) (dir path : string)
    (node : fsnode) :
  entry fs dir = Some Directory -> path <> dir ->
  entry (<[path := node]> fs) dir = Some Directory.
Proof.
  unfold entry. intros H Hne. rewrite has_entry_below_insert.
  destruct (has_entry_below fs dir); [reflexivity|].
  destruct (lies_below dir path); [reflexivity|].
  now rewrite lookup_insert_ne.
Qed.

Lemma writable_no_entries (fs : gmap string fsnode) (path : string) :
  writable fs path = true -> has_entry_below fs path = false.
Proof.
  unfold writable, entry. now destruct (has_entry_below fs path).
Qed.

(** ** [os.makedirs] *)

Lemma makedirs_Returns (path : string) (fs fs' : gmap string fsnode) :
  makedirs path fs = Returns fs' ->
  (entry fs path = Some Directory /\ fs' = fs) \/
  (entry fs path = None /\ fs' = <[path := Directory]> fs).
Proof.
  unfold makedirs. destruct (entry fs path) as [[text| |]|]; try discriminate.
  - intros [= <-]. now left.
  - destruct (blocked_above fs path); [discriminate|].
    intros [= <-]. now right.
Qed.

Lemma blocked_above_false (fs : gmap string fsnode) (path other : string)
    (node : fsnode) :
  blocked_above fs path = false ->
  fs !! other = Some node -> lies_below other path = true ->
  node = Directory.
Proof.
  unfold blocked_above. intros H Hl Hb.
  destruct (existsb_exists
              (fun kv : string * fsnode =>
                 lies_below (fst kv) path &&
                 match snd kv with Directory => false | _ => true end)
              (map_to_list fs)) as [_ Hex].
  destruct node; [exfalso | reflexivity | exfalso];
    (rewrite Hex in H; [discriminate H|]; eexists (other, _);
     split; [apply list_elem_of_In, elem_of_map_to_list; exact Hl|];
     cbn [fst snd]; now rewrite Hb).
Qed.

Lemma makedirs_created (path : string) (fs fs' : gmap string fsnode) :
  makedirs path fs = Returns fs' -> entry fs path = None ->
  blocked_above fs path = false /\ fs' = <[path := Directory]> fs.
Proof.
  unfold makedirs. intros H He. rewrite He in H.
  destruct (blocked_above fs path); [discriminate|].
  injection H as <-. now split.
Qed.

(** [os.makedirs] leaves every entry as it is. *)
Lemma makedirs_entry_kept (path other : string)
    (fs fs' : gmap string fsnode) (node : fsnode) :
  makedirs path fs = Returns fs' ->
  entry fs other = Some node -> entry fs' other = Some node.
Proof.
  intros H Ho.
  destruct (makedirs_Returns _ _ _ H) as [[_ ->] | [He _]]; [exact Ho|].
  destruct (makedirs_created _ _ _ H He) as [Hb ->].
  revert Ho. unfold entry. rewrite has_entry_below_insert.
  destruct (has_entry_below fs other); [trivial|]. cbn [orb].
  intros Hl. destruct (lies_below other path) eqn:Hlb.
  - now rewrite (blocked_above_false _ _ _ _ Hb Hl Hlb).
  - rewrite lookup_insert_ne; [exact Hl|]. intros <-.
    apply entry_None in He as [He _]. congruence.
Qed.

Lemma makedirs_existing (path : string) (fs : gmap string fsnode) :
  entry fs path = Some Directory -> makedirs path fs = Returns fs.
Proof. intros H. unfold makedirs. now rewrite H. Qed.

Lemma makedirs_entry (path : string) (fs fs' : gmap string fsnode) :
  makedirs path fs = Returns fs' -> entry fs' path = Some Directory.
Proof.
  intros H. apply makedirs_Returns in H as [[He ->] | [He ->]]; [exact He|].
  apply entry_insert_eq. now apply entry_None in He.
Qed.

(** Making a directory a second time changes nothing. *)
Lemma makedirs_again (path : string) (fs fs' : gmap string fsnode) :
  makedirs path fs = Returns fs' -> makedirs path fs' = Returns fs'.
Proof. intros H. apply makedirs_existing. now apply (makedirs_entry _ fs). Qed.

Lemma makedirs_lookup (path other : string) (fs fs' : gmap string fsnode) :
  makedirs path fs = Returns fs' -> other <> path ->
  fs' !! other = fs !! other.
Proof.
  intros H Hne. apply makedirs_Returns in H as [[_ ->] | [_ ->]];
    [reflexivity | now apply lookup_insert_ne].
Qed.

(** What a path names after [os.makedirs]: what it named before, or a
    directory (the one made, or one above it). *)
Lemma makedirs_entry_other (path other : string)
    (fs fs' : gmap string fsnode) :
  makedirs path fs = Returns fs' ->
  entry fs' other = entry fs other \/ entry fs' other = Some Directory.
Proof.
  intros H. apply makedirs_Returns in H as [[_ ->] | [_ ->]]; [now left|].
  unfold entry. rewrite has_entry_below_insert.
  destruct (has_entry_below fs other); [now left|].
  destruct (lies_below other path); [now right|]. cbn [orb].
  destruct (decide (other = path)) as [->|Hne].
  - right. apply lookup_insert_eq.
  - left. now apply lookup_insert_ne.
Qed.

Lemma makedirs_entry_apart (path other : string)
    (fs fs' : gmap string fsnode) :
  makedirs path fs = Returns fs' ->
  other <> path -> lies_below other path = false ->
  entry fs' other = entry fs other.
Proof.
  intros H Hne Hb. apply makedirs_Returns in H as [[_ ->] | [_ ->]];
    [reflexivity | now apply entry_insert_ne].
Qed.

(** ** Line 81 *)

Lemma os_makedirs_Returns (w : World) (u : unit) :
  fst (os_makedirs data_dir w) = Returns u ->
  makedirs data_dir (files w) = Returns (files (prepared w)) /\
  os_makedirs data_dir w = (Returns tt, prepared w).
Proof.
  unfold prepared, os_makedirs.
  destruct (makedirs data_dir (files w)); [|discriminate]. now split.
Qed.

Lemma os_makedirs_Raises (w : World) (e : exn) :
  fst (os_makedirs data_dir w) = Raises e ->
  makedirs data_dir (files w) = Raises e /\
  os_makedirs data_dir w = (Raises e, w) /\ prepared w = w.
Proof.
  unfold prepared, os_makedirs.
  destruct (makedirs data_dir (files w)); [discriminate|].
  intros [= ->]. now repeat split.
Qed.

Lemma prepared_random (w : World) : random (prepared w) = random w.
Proof.
  unfold prepared, os_makedirs. now destruct (makedirs data_dir (files w)).
Qed.

Lemma prepared_log (w : World) : log (prepared w) = log w.
Proof.
  unfold prepared, os_makedirs. now destruct (makedirs data_dir (files w)).
Qed.

(** In the world line 81 leaves, the data directory is there; making it
    again changes nothing. *)
Lemma prepared_data_dir (w : World) (u : unit) :
  fst (os_makedirs data_dir w) = Returns u ->
  entry (files (prepared w)) data_dir = Some Directory.
Proof.
  intros H. apply os_makedirs_Returns in H as [H _].
  now apply makedirs_entry in H.
Qed.

Lemma os_makedirs_existing (w : World) :
  entry (files w) data_dir = Some Directory ->
  os_makedirs data_dir w = (Returns tt, w).
Proof.
  intros H. unfold os_makedirs. rewrite (makedirs_existing _ _ H).
  now destruct w.
Qed.

Lemma prepared_existing (w : World) :
  entry (files w) data_dir = Some Directory -> prepared w = w.
Proof. intros H. unfold prepared. now rewrite os_makedirs_existing. Qed.

(** An entry of the data directory shows that the directory is there. *)
Lemma data_dir_of_entry (w : World) (name : string) (node : fsnode) :
  entry (files w) (os_path_join data_dir name) = Some node ->
  entry (files w) data_dir = Some Directory.
Proof.
  unfold entry at 1.
  destruct (has_entry_below (files w) (os_path_join data_dir name)) eqn:E.
  - intros _. apply has_entry_below_true in E as (path & n & Hl & Hb).
    apply (entry_above _ _ path n Hl).
    rewrite data_dir_join in Hb. unfold lies_below in *.
    apply (starts_with_app_l (data_dir +:+ "/") (name +:+ "/")).
    rewrite append_assoc in *. exact Hb.
  - intros Hl. apply (entry_above _ _ _ node Hl), lies_below_data_dir.
Qed.

Lemma prepared_entry_kept (w : World) (u : unit) (path : string)
    (node : fsnode) :
  fst (os_makedirs data_dir w) = Returns u ->
  entry (files w) path = Some node ->
  entry (files (prepared w)) path = Some node.
Proof.
  intros H. apply os_makedirs_Returns in H as [H _].
  now apply (makedirs_entry_kept data_dir path (files w)).
Qed.

(** ** Loading *)

Lemma load_input_exists (path : string) (w : World) (node : fsnode) :
  entry (files w) path = Some node ->
  load_input path w
  = (match node with
     | RegularFile text => read_csv_text text
     | Directory | Denied => Raises OSError
     end,
     logged w [(INFO, ReadingFrom path)]).
Proof.
  intros Hf. unfold load_input, bind, os_path_exists, logger_info,
    logger_log, pd_read_csv, logged; simpl.
  rewrite bool_decide_eq_true_2 by (rewrite Hf; eauto).
  simpl. rewrite Hf. now destruct node.
Qed.

Lemma load_input_present (path text : string) (w : World) :
  entry (files w) path = Some (RegularFile text) ->
  load_input path w
  = (read_csv_text text, logged w [(INFO, ReadingFrom path)]).
Proof. intros Hf. now rewrite (load_input_exists _ _ _ Hf). Qed.

Lemma load_input_missing (path : string) (w : World) :
  entry (files w) path = None ->
  writable (files w) DEFAULT_INPUT_CSV_PATH = true ->
  load_input path w
  = (Returns (sample_frame (random w)),
     {| files := <[DEFAULT_INPUT_CSV_PATH :=
                     RegularFile (to_csv_text (sample_frame (random w)))]>
                   (files w);
        random := advance 5 (advance 5 (random w));
        log := log w ++
               [(WARNING, NotFoundGenerating path); (DEBUG, CreatingSample);
                (DEBUG, SampleCreated 5);
                (INFO, SampleSaved DEFAULT_INPUT_CSV_PATH)] |}).
Proof.
  intros Hf Hd. unfold load_input, bind, os_path_exists.
  rewrite bool_decide_eq_false_2 by (rewrite Hf; intros [? ?]; discriminate).
  unfold logger_warning, logger_log. cbn [files random log].
  rewrite create_sample_dataframe_run. unfold to_csv. cbn [files random log].
  rewrite Hd. unfold logger_info, logger_log, ret. cbn [files random log].
  now rewrite <- !app_assoc.
Qed.

Lemma load_input_unwritable (path : string) (w : World) :
  entry (files w) path = None ->
  writable (files w) DEFAULT_INPUT_CSV_PATH = false ->
  load_input path w
  = (Raises OSError,
     {| files := files w;
        random := advance 5 (advance 5 (random w));
        log := log w ++
               [(WARNING, NotFoundGenerating path); (DEBUG, CreatingSample);
                (DEBUG, SampleCreated 5)] |}).
Proof.
  intros Hf Hd. unfold load_input, bind, os_path_exists.
  rewrite bool_decide_eq_false_2 by (rewrite Hf; intros [? ?]; discriminate).
  unfold logger_warning, logger_log. cbn [files random log].
  rewrite create_sample_dataframe_run. unfold to_csv. cbn [files random log].
  rewrite Hd. now rewrite <- !app_assoc.
Qed.

(** ** Lines 83-125 *)

Lemma load_and_transform_loaded (p : option string) (w : World)
    (df : DataFrame) :
  fst (load_input (effective_input_path p) w) = Returns df ->
  load_and_transform p w
  = transform df (snd (load_input (effective_input_path p) w)).
Proof.
  intros H. unfold load_and_transform, bind, ret, try_; simpl.
  destruct (load_input (effective_input_path p) w) as [r w']. simpl in *.
  now subst r.
Qed.

Lemma load_and_transform_failed (p : option string) (w : World) (e : exn) :
  fst (load_input (effective_input_path p) w) = Raises e ->
  load_and_transform p w
  = (Returns pd_DataFrame,
     logged (snd (load_input (effective_input_path p) w))
       [(ERROR, if is_EmptyDataError e
                then InputEmpty (effective_input_path p)
                else InputError (effective_input_path p) e)]).
Proof.
  intros H. unfold load_and_transform, bind, ret, try_; simpl.
  destruct (load_input (effective_input_path p) w) as [r w']. simpl in *.
  subst r. destruct (is_EmptyDataError e); reflexivity.
Qed.

Lemma load_and_transform_value (p : option string) (w : World) :
  fst (load_and_transform p w)
  = match fst (load_input (effective_input_path p) w) with
    | Returns df => transform_result df
    | Raises _ => Returns pd_DataFrame
    end.
Proof.
  destruct (fst (load_input (effective_input_path p) w)) eqn:H.
  - rewrite (load_and_transform_loaded _ _ _ H). apply transform_value.
  - now rewrite (load_and_transform_failed _ _ _ H).
Qed.

Lemma load_and_transform_files (p : option string) (w : World) :
  files (snd (load_and_transform p w))
  = files (snd (load_input (effective_input_path p) w)).
Proof.
  destruct (fst (load_input (effective_input_path p) w)) eqn:H.
  - rewrite (load_and_transform_loaded _ _ _ H). apply transform_frame.
  - now rewrite (load_and_transform_failed _ _ _ H).
Qed.

Lemma load_and_transform_random (p : option string) (w : World) :
  random (snd (load_and_transform p w))
  = random (snd (load_input (effective_input_path p) w)).
Proof.
  destruct (fst (load_input (effective_input_path p) w)) eqn:H.
  - rewrite (load_and_transform_loaded _ _ _ H). apply transform_frame.
  - now rewrite (load_and_transform_failed _ _ _ H).
Qed.

(** ** Lines 75-125 *)

(** [process_data] stops at line 81 when the data directory cannot be
    made, and goes on from the world line 81 leaves when it can. *)
Lemma process_data_run (p : option string) (w : World) :
  process_data p w
  = match fst (os_makedirs data_dir w) with
    | Returns _ => load_and_transform p (prepared w)
    | Raises e => (Raises e, w)
    end.
Proof.
  unfold process_data, bind, prepared, os_makedirs, data_dir.
  now destruct (makedirs (os_path_join PROJECT_ROOT "data") (files w)).
Qed.

Lemma process_data_prepared (p : option string) (w : World) (u : unit) :
  fst (os_makedirs data_dir w) = Returns u ->
  process_data p w = load_and_transform p (prepared w).
Proof. intros H. now rewrite process_data_run, H. Qed.

Lemma process_data_blocked (p : option string) (w : World) (e : exn) :
  fst (os_makedirs data_dir w) = Raises e ->
  process_data p w = (Raises e, w).
Proof. intros H. now rewrite process_data_run, H. Qed.

Lemma process_data_Returns (p : option string) (w : World)
    (out : DataFrame) :
  fst (process_data p w) = Returns out ->
  fst (os_makedirs data_dir w) = Returns tt /\
  fst (load_and_transform p (prepared w)) = Returns out.
Proof.
  rewrite process_data_run.
  destruct (fst (os_makedirs data_dir w)) as [[]|e]; [auto | discriminate].
Qed.

(** Whatever [process_data] returns is the empty frame of a failed load or
    the transformation of a loaded frame. *)
Lemma process_data_value (p : option string) (w : World) (u : unit) :
  fst (os_makedirs data_dir w) = Returns u ->
  fst (process_data p w)
  = match fst (load_input (effective_input_path p) (prepared w)) with
    | Returns df => transform_result df
    | Raises _ => Returns pd_DataFrame
    end.
Proof.
  intros H. rewrite (process_data_prepared _ _ _ H).
  apply load_and_transform_value.
Qed.

Lemma process_data_returned (p : option string) (w : World)
    (out : DataFrame) :
  fst (process_data p w) = Returns out ->
  out = pd_DataFrame \/ exists df, transform_result df = Returns out.
Proof.
  intros H. apply process_data_Returns in H as [_ H].
  rewrite load_and_transform_value in H.
  destruct (fst (load_input (effective_input_path p) (prepared w)))
    as [df|e].
  - eauto.
  - injection H as <-. now left.
Qed.

(** The frame returned after a successful load is the transformation of
    the frame loaded. *)
Lemma process_data_transformed (p : option string) (w : World)
    (df out : DataFrame) :
  fst (load_input (effective_input_path p) (prepared w)) = Returns df ->
  fst (process_data p w) = Returns out ->
  transform_result df = Returns out.
Proof.
  intros Hl H. apply process_data_Returns in H as [_ H].
  now rewrite load_and_transform_value, Hl in H.
Qed.

(** What the [try] body does in the world line 81 leaves is what it would
    have done before, unless [os.makedirs] put a directory in its way. *)
Lemma load_input_prepared (path : string) (w : World) :
  fst (load_input path (prepared w)) = fst (load_input path w) \/
  fst (load_input path (prepared w)) = Raises OSError.
Proof.
  destruct (fst (os_makedirs data_dir w)) as [u|e] eqn:Hm.
  2:{ apply os_makedirs_Raises in Hm as (_ & _ & ->). now left. }
  apply os_makedirs_Returns in Hm as [Hm _].
  pose proof (prepared_random w) as Hr.
  destruct (makedirs_entry_other _ path _ _ Hm) as [Hp|Hp].
  - destruct (entry (files w) path) as [node|] eqn:E.
    + left. rewrite (load_input_exists _ _ _ Hp).
      now rewrite (load_input_exists _ _ _ E).
    + assert (Hw : writable (files (prepared w)) DEFAULT_INPUT_CSV_PATH
                   = writable (files w) DEFAULT_INPUT_CSV_PATH \/
                   writable (files (prepared w)) DEFAULT_INPUT_CSV_PATH
                   = false).
      { unfold writable.
        destruct (makedirs_entry_other _ DEFAULT_INPUT_CSV_PATH _ _ Hm)
          as [-> | ->]; auto. }
      destruct (writable (files (prepared w)) DEFAULT_INPUT_CSV_PATH) eqn:Hw'.
      * left. destruct Hw as [Hw|Hw]; [|discriminate].
        rewrite (load_input_missing _ _ Hp Hw').
        rewrite (load_input_missing _ _ E) by congruence.
        cbn [fst]. now rewrite Hr.
      * right. now rewrite (load_input_unwritable _ _ Hp Hw').
  - right. now rewrite (load_input_exists _ _ _ Hp).
Qed.

(** ** The derived columns, row by row *)

Lemma wrap64_in_range (z : Z) : in_int64 z -> wrap64 z = z.
Proof.
  unfold in_int64, INT64_MIN, INT64_MAX, wrap64. intros H.
  rewrite Z.mod_small by lia. lia.
Qed.

(** The columns of a returned frame that the row properties read. *)
Lemma transform_result_lookup (df out : DataFrame) :
  transform_result df = Returns out ->
  exists value1 plus_10 keep high,
    series_add_int value1 10 = Returns plus_10 /\
    series_gt (series_filter keep value1) 35 = Returns high /\
    df_lookup out "value1" = Some (series_filter keep value1) /\
    df_lookup out "value1_plus_10" = Some (series_filter keep plus_10) /\
    df_lookup out "value1_type" = Some (np_where high "High" "Medium").
Proof.
  intros H.
  apply transform_result_inv in H
    as (v1 & v2 & p10 & d & q & keep & high
        & Hv1 & Hv2 & Hp & Hd & Hq & Hk & Hh & ->).
  exists v1, p10, keep, high. repeat split; trivial.
  - rewrite df_lookup_setitem_ne, df_lookup_filter by reflexivity.
    rewrite !df_lookup_setitem_ne by reflexivity. now rewrite Hv1.
  - rewrite df_lookup_setitem_ne, df_lookup_filter by reflexivity.
    rewrite df_lookup_setitem_ne by reflexivity.
    now rewrite df_lookup_setitem_eq.
  - apply df_lookup_setitem_eq.
Qed.

Lemma mask_filter_nil {A : Type} (mask : list bool) :
  mask_filter mask (@nil A) = [].
Proof. now destruct mask. Qed.

Lemma series_add_int_cell (v sum : Series) (k : Z) (i : nat) (x : Z) :
  series_add_int v k = Returns sum ->
  series_cells v !! i = Some (CInt x) ->
  series_cells sum !! i = Some (CInt (wrap64 (x + k))).
Proof.
  destruct v as [xs|xs|[|s xs]|xs]; simpl; intros [= <-]; simpl;
    rewrite ?lookup_map; try discriminate;
    destruct (xs !! i); simpl; congruence.
Qed.

Lemma series_add_int_filter (keep : list bool) (v sum : Series) (k : Z) :
  series_add_int v k = Returns sum ->
  series_add_int (series_filter keep v) k = Returns (series_filter keep sum).
Proof.
  destruct v as [xs|xs|[|s xs]|xs]; simpl; intros [= <-]; simpl;
    now rewrite ?mask_filter_map, ?mask_filter_nil.
Qed.

Lemma series_gt_cell (v : Series) (k : Z) (mask : list bool) (i : nat)
    (c : cell) :
  series_gt v k = Returns mask ->
  series_cells v !! i = Some c ->
  exists b, cell_gt c k = Some b /\ mask !! i = Some b.
Proof.
  destruct v as [xs|xs|[|s xs]|xs]; simpl; intros [= <-];
    rewrite ?lookup_map; try discriminate;
    destruct (xs !! i); simpl; intros [= <-]; simpl; eauto.
Qed.

Lemma filter_length_le {A : Type} (f : A -> bool) (xs : list A) :
  (length (List.filter f xs) <= length xs)%nat.
Proof.
  induction xs as [|x xs IH]; simpl; [lia|]. destruct (f x); simpl; lia.
Qed.

Lemma filter_sublist {A : Type} (f : A -> bool) (xs : list A) :
  sublist (List.filter f xs) xs.
Proof.
  induction xs as [|x xs IH]; simpl; [constructor|].
  destruct (f x); now constructor.
Qed.

Lemma filter_lookup {A : Type} (f : A -> bool) (xs : list A) (i : nat)
    (x : A) :
  List.filter f xs !! i = Some x -> f x = true.
Proof.
  intros H. apply list_elem_of_lookup_2, list_elem_of_In in H.
  now apply filter_In in H.
Qed.

Lemma series_gt_filter_cell (v : Series) (k : Z) (mask : list bool)
    (i : nat) (c : cell) :
  series_gt v k = Returns mask ->
  series_cells (series_filter mask v) !! i = Some c ->
  cell_gt c k = Some true.
Proof.
  destruct v as [xs|xs|[|s xs]|xs]; simpl; intros [= <-];
    try discriminate;
    rewrite mask_filter_self, lookup_map;
    destruct (List.filter _ xs !! i) as [x|] eqn:E; simpl; intros [= <-];
    simpl; apply filter_lookup in E; now rewrite E.
Qed.

(** ** Column names *)

Lemma df_columns_filter (df : DataFrame) (mask : list bool) :
  df_columns (df_filter df mask) = df_columns df.
Proof.
  unfold df_columns, df_filter. rewrite map_map. reflexivity.
Qed.

Lemma df_columns_setitem (df : DataFrame) (name : string) (s : Series) :
  df_columns (setitem df name s) = add_column (df_columns df) name.
Proof.
  unfold add_column, df_columns.
  induction df as [|[n old] df IH]; simpl; [reflexivity|].
  destruct (String.eqb n name); simpl; [reflexivity|].
  rewrite IH. now destruct (existsb _ (map fst df)).
Qed.

Lemma add_column_prefix (names : list string) (name : string) :
  names `prefix_of` add_column names name.
Proof.
  unfold add_column. destruct (existsb _ names); [reflexivity|].
  now apply prefix_app_r.
Qed.

Lemma add_column_fresh (names : list string) (name : string) :
  ~ In name names -> add_column names name = (names ++ [name])%list.
Proof.
  intros H. unfold add_column.
  destruct (existsb _ names) eqn:E; [|reflexivity].
  apply existsb_exists in E as (n & Hn & Heq).
  apply String.eqb_eq in Heq. now subst n.
Qed.

(** ** Columns of equal length *)

Lemma mask_filter_count {A : Type} (mask : list bool) (xs : list A) :
  length xs = length mask ->
  length (mask_filter mask xs) = length (List.filter (fun b => b) mask).
Proof.
  revert xs. induction mask as [|b mask IH]; intros [|x xs]; simpl;
    try discriminate; trivial.
  intros [= H]. destruct b; simpl; now rewrite IH.
Qed.

Lemma series_filter_len (mask : list bool) (s : Series) :
  series_len s = length mask ->
  series_len (series_filter mask s)
  = length (List.filter (fun b => b) mask).
Proof. destruct s; simpl; apply mask_filter_count. Qed.

Lemma zip_with_div_length (xs ys : list float64) :
  length xs = length ys -> length (zip_with_div xs ys) = length xs.
Proof.
  revert ys. induction xs as [|x xs IH]; intros [|y ys]; simpl;
    try discriminate; trivial.
  intros [= H]. now rewrite IH.
Qed.

Lemma series_add_int_len (s sum : Series) (k : Z) :
  series_add_int s k = Returns sum -> series_len sum = series_len s.
Proof.
  destruct s as [xs|xs|[|x xs]|xs]; simpl; intros [= <-]; simpl;
    now rewrite ?length_map.
Qed.

Lemma series_as_float_len (s : Series) (xs : list float64) :
  series_as_float s = Returns xs -> length xs = series_len s.
Proof.
  destruct s; simpl; intros [= <-]; now rewrite ?length_map.
Qed.

Lemma is_empty_object_len (s : Series) :
  is_empty_object s = true -> series_len s = 0%nat.
Proof. now destruct s as [xs|xs|[|x xs]|xs]. Qed.

Lemma series_add_float_len (s sum : Series) (e : Q) :
  series_add_float s e = Returns sum -> series_len sum = series_len s.
Proof.
  unfold series_add_float. destruct (is_empty_object s) eqn:E.
  - intros [= <-]. now rewrite (is_empty_object_len _ E).
  - destruct (series_as_float s) as [xs|] eqn:Ex; [|discriminate].
    intros [= <-]. simpl. rewrite length_map.
    now apply series_as_float_len.
Qed.

Lemma series_div_len (a b quotient : Series) :
  series_div a b = Returns quotient -> series_len a = series_len b ->
  series_len quotient = series_len a.
Proof.
  unfold series_div. intros H Hlen.
  destruct (is_empty_object a) eqn:Ea.
  - injection H as <-. now rewrite (is_empty_object_len _ Ea).
  - destruct (is_empty_object b) eqn:Eb.
    + injection H as <-. now rewrite Hlen, (is_empty_object_len _ Eb).
    + cbn [orb] in H.
      destruct (series_as_float a) as [xs|] eqn:E1; [|discriminate].
      destruct (series_as_float b) as [ys|] eqn:E2; [|discriminate].
      injection H as <-. simpl.
      apply series_as_float_len in E1, E2.
      rewrite zip_with_div_length; congruence.
Qed.

Lemma series_gt_len (s : Series) (k : Z) (mask : list bool) :
  series_gt s k = Returns mask -> length mask = series_len s.
Proof.
  destruct s as [xs|xs|[|x xs]|xs]; simpl; intros [= <-];
    now rewrite ?length_map.
Qed.

Lemma rectangular_lookup (df : DataFrame) (n : nat) (name : string)
    (s : Series) :
  rectangular df n -> df_lookup df name = Some s -> series_len s = n.
Proof.
  unfold rectangular. induction df as [|[m t] df IH]; simpl; [discriminate|].
  intros H. apply Forall_cons in H as [Hh Ht]. simpl in Hh.
  destruct (String.eqb m name); [intros [= <-]; exact Hh | now apply IH].
Qed.

Lemma rectangular_setitem (df : DataFrame) (n : nat) (name : string)
    (s : Series) :
  rectangular df n -> series_len s = n -> rectangular (setitem df name s) n.
Proof.
  unfold rectangular. intros H Hs.
  induction df as [|[m t] df IH]; simpl.
  - repeat constructor. exact Hs.
  - apply Forall_cons in H as [Hh Ht].
    destruct (String.eqb m name); constructor; auto.
Qed.

Lemma rectangular_filter (df : DataFrame) (mask : list bool) :
  rectangular df (length mask) ->
  rectangular (df_filter df mask) (length (List.filter (fun b => b) mask)).
Proof.
  unfold rectangular, df_filter. intros H.
  apply Forall_map. eapply Forall_impl; [exact H|].
  intros [m t] Hlen. simpl in *. now apply series_filter_len.
Qed.

Lemma rectangular_len (df : DataFrame) (n : nat) (name : string)
    (s : Series) :
  rectangular df n -> df_lookup df name = Some s -> df_len df = n.
Proof.
  destruct df as [|[m t] df]; simpl; [discriminate|].
  intros H _. now apply Forall_cons in H as [Hh _].
Qed.

(** A transformed frame has one row for each row of the input that the
    mask of line 116 keeps. *)
Lemma transform_result_rectangular (df out : DataFrame) (n : nat) :
  rectangular df n ->
  transform_result df = Returns out ->
  exists value1 keep,
    df_lookup df "value1" = Some value1 /\
    series_gt value1 20 = Returns keep /\
    length keep = n /\
    rectangular out (length (List.filter (fun b => b) keep)) /\
    df_len out = length (List.filter (fun b => b) keep) /\
    forall name s,
      df_lookup df name = Some s ->
      name <> "value1_plus_10" -> name <> "value2_div_value1" ->
      name <> "value1_type" ->
      df_lookup out name = Some (series_filter keep s).
Proof.
  intros Hrect Hrun.
  apply transform_result_inv in Hrun
    as (v1 & v2 & p10 & d & q & keep & high
        & Hv1 & Hv2 & Hp & Hd & Hq & Hk & Hh & ->).
  pose proof (rectangular_lookup _ _ _ _ Hrect Hv1) as Hn1.
  pose proof (rectangular_lookup _ _ _ _ Hrect Hv2) as Hn2.
  assert (Hp10 : series_len p10 = n)
    by now rewrite (series_add_int_len _ _ _ Hp).
  assert (Hdn : series_len d = n)
    by now rewrite (series_add_float_len _ _ _ Hd).
  assert (Hqn : series_len q = n).
  { rewrite (series_div_len _ _ _ Hq); congruence. }
  assert (Hkeep : length keep = n)
    by now rewrite (series_gt_len _ _ _ Hk).
  set (m := length (List.filter (fun b => b) keep)).
  assert (Hmid : rectangular
            (df_filter (setitem (setitem df "value1_plus_10" p10)
                          "value2_div_value1" q) keep) m).
  { apply rectangular_filter. rewrite Hkeep.
    now repeat apply rectangular_setitem. }
  assert (Hhigh : series_len (np_where high "High" "Medium") = m).
  { simpl. rewrite length_map, (series_gt_len _ _ _ Hh).
    apply series_filter_len. congruence. }
  assert (Hout : rectangular
            (setitem (df_filter (setitem (setitem df "value1_plus_10" p10)
                                   "value2_div_value1" q) keep)
               "value1_type" (np_where high "High" "Medium")) m)
    by now apply rectangular_setitem.
  exists v1, keep. split; [exact Hv1|]. split; [exact Hk|].
  split; [exact Hkeep|]. split; [exact Hout|]. split.
  - apply (rectangular_len _ m "value1_type" _ Hout
             (df_lookup_setitem_eq _ _ _)).
  - intros name s Hs H1 H2 H3.
    rewrite df_lookup_setitem_ne by now apply String.eqb_neq.
    rewrite df_lookup_filter.
    rewrite !df_lookup_setitem_ne by now apply String.eqb_neq.
    now rewrite Hs.
Qed.

(** ** Frames of the input schema *)

Lemma annotated_table_rows (rs : list Row) :
  rows_of (annotated_table rs) = Some rs.
Proof. apply rows_of_table. Qed.

Lemma process_data_rows (p : option string) (w : World) (rs : list Row)
    (out : DataFrame) :
  fst (load_input (effective_input_path p) (prepared w))
  = Returns (table_of_rows rs) ->
  fst (process_data p w) = Returns out ->
  out = annotated_table (List.filter kept rs).
Proof.
  intros Hl H. pose proof (process_data_transformed _ _ _ _ Hl H) as Ht.
  rewrite transform_result_rows in Ht. now injection Ht.
Qed.

(** A frame built from rows is empty exactly when there is no row. *)
Lemma annotated_table_empty (rs : list Row) :
  df_empty (annotated_table rs) = true <-> rs = [].
Proof.
  destruct rs; simpl; split; intros H; try reflexivity; discriminate.
Qed.

Lemma filter_nil_iff {A : Type} (f : A -> bool) (xs : list A) :
  List.filter f xs = [] <-> Forall (fun x => f x = false) xs.
Proof.
  induction xs as [|x xs IH]; simpl.
  - split; [constructor | reflexivity].
  - destruct (f x) eqn:E; split; intros H.
    + discriminate H.
    + inversion H; congruence.
    + constructor; [exact E | now apply IH].
    + inversion H; now apply IH.
Qed.

(** ** The two derived columns of every returned row *)

(** C1 (as amended): in every row of the frame [process_data] returns, an
    int64 [value1] has [value1_plus_10] equal to [value1 + 10] reduced to
    64 bits two's complement; it is [value1 + 10] itself whenever that sum
    fits in an int64. *)
Theorem value1_plus_10_wraps (p : option string) (w : World)
    (out : DataFrame) (i : nat) (x : Z) :
  fst (process_data p w) = Returns out ->
  cell_at out i "value1" = Some (CInt x) ->
  cell_at out i "value1_plus_10" = Some (CInt (wrap64 (x + 10))) /\
  (in_int64 (x + 10) ->
   cell_at out i "value1_plus_10" = Some (CInt (x + 10))).
Proof.
  intros Hrun Hcell.
  assert (Hw : cell_at out i "value1_plus_10" = Some (CInt (wrap64 (x + 10)))).
  { apply process_data_returned in Hrun as [-> | [df Hdf]]; [discriminate|].
    apply transform_result_lookup in Hdf
      as (v1 & p10 & keep & high & Hp & _ & Hv1 & Hp10 & _).
    unfold cell_at in *. rewrite Hv1 in Hcell. rewrite Hp10.
    eapply series_add_int_cell; [|exact Hcell].
    now apply series_add_int_filter. }
  split; [exact Hw|]. intros Hr. now rewrite Hw, (wrap64_in_range _ Hr).
Qed.

(** C2: in every row of the frame [process_data] returns, [value1_type] is
    "High" if and only if that row's [value1] is greater than 35, and it is
    "Medium" otherwise. *)
Theorem value1_type_threshold (p : option string) (w : World)
    (out : DataFrame) (i : nat) (c : cell) :
  fst (process_data p w) = Returns out ->
  cell_at out i "value1" = Some c ->
  exists high : bool,
    cell_gt c 35 = Some high /\
    cell_at out i "value1_type"
    = Some (CStr (if high then "High" else "Medium")) /\
    (cell_at out i "value1_type" = Some (CStr "High") <-> high = true) /\
    (cell_at out i "value1_type" = Some (CStr "Medium") <-> high = false).
Proof.
  intros Hrun Hcell.
  apply process_data_returned in Hrun as [-> | [df Hdf]]; [discriminate|].
  apply transform_result_lookup in Hdf
    as (v1 & p10 & keep & high & _ & Hh & Hv1 & _ & Ht).
  unfold cell_at in *. rewrite Hv1 in Hcell. rewrite Ht.
  destruct (series_gt_cell _ _ _ _ _ Hh Hcell) as (b & Hb & Hi).
  exists b. split; [exact Hb|].
  unfold np_where. simpl. rewrite !lookup_map, Hi. simpl.
  destruct b; repeat split; intros; congruence.
Qed.

(** ** The filter *)

(** C3: when the [try] body, run in the world line 81 leaves, loads a frame
    (from a file or generated) and [process_data] returns, the frame
    returned holds exactly the rows of the loaded frame whose [value1]
    compares greater than 20: there is one mask, true at the rows with
    [value1 > 20], and every input column comes back filtered by it; the
    row count of the result is the number of such rows and at most the row
    count of the input.  For a frame of the input schema the rows returned
    are the input rows with [value1 > 20], in their order. *)
Theorem filter_keeps_rows_above_20 (p : option string) (w : World)
    (df out : DataFrame) (n : nat) :
  fst (load_input (effective_input_path p) (prepared w)) = Returns df ->
  rectangular df n ->
  fst (process_data p w) = Returns out ->
  exists keep : list bool,
    length keep = n /\
    (forall i c, cell_at df i "value1" = Some c ->
       exists b, cell_gt c 20 = Some b /\ keep !! i = Some b) /\
    (forall name s,
       df_lookup df name = Some s ->
       name <> "value1_plus_10" -> name <> "value2_div_value1" ->
       name <> "value1_type" ->
       df_lookup out name = Some (series_filter keep s)) /\
    df_len out = length (List.filter (fun b => b) keep) /\
    (df_len out <= n)%nat /\
    (forall rs, df = table_of_rows rs ->
       rows_of out = Some (List.filter (fun r => 20 <? row_value1 r) rs) /\
       df_len out
       = length (List.filter (fun r => 20 <? row_value1 r) rs) /\
       (df_len out <= length rs)%nat).
Proof.
  intros Hl Hrect Hrun.
  pose proof (process_data_transformed _ _ _ _ Hl Hrun) as Ht.
  destruct (transform_result_rectangular _ _ _ Hrect Ht)
    as (v1 & keep & Hv1 & Hk & Hkeep & _ & Hlen & Hcols).
  exists keep. split; [exact Hkeep|]. split.
  { intros i c Hc. unfold cell_at in Hc. rewrite Hv1 in Hc.
    exact (series_gt_cell _ _ _ _ _ Hk Hc). }
  split; [exact Hcols|]. split; [exact Hlen|]. split.
  { rewrite Hlen, <- Hkeep. apply filter_length_le. }
  intros rs ->. rewrite transform_result_rows in Ht. injection Ht as <-.
  split; [apply annotated_table_rows|].
  assert (Hrows : df_len (annotated_table (List.filter kept rs))
                  = length (List.filter kept rs)).
  { simpl. apply length_map. }
  split; [exact Hrows|]. rewrite Hrows. apply filter_length_le.
Qed.

(** ** The guarded division *)

Lemma round_overflow_Finite (q : Q) :
  (- FLOAT_OVERFLOW < q)%Q -> (q < FLOAT_OVERFLOW)%Q ->
  round_overflow q = Finite q.
Proof.
  intros Hlo Hhi. unfold round_overflow.
  destruct (Qle_bool FLOAT_OVERFLOW q) eqn:E1.
  { apply Qle_bool_iff in E1. now apply Qlt_not_le in Hhi. }
  destruct (Qle_bool q (- FLOAT_OVERFLOW)) eqn:E2.
  { apply Qle_bool_iff in E2. now apply Qlt_not_le in Hlo. }
  reflexivity.
Qed.










(** ** Columns and frame *)

(** C10: when the [try] body loads a table of the input schema and
    [process_data] returns, the frame returned has the columns id,
    category, value1, value2, value1_plus_10, value2_div_value1,
    value1_type in this order; its first four columns hold the id,
    category, value1 and value2 of the rows kept, unchanged, and these
    rows stand in the order they had in the input. *)
Theorem output_columns_and_frame (p : option string) (w : World)
    (rs : list Row) (out : DataFrame) :
  fst (load_input (effective_input_path p) (prepared w))
  = Returns (table_of_rows rs) ->
  fst (process_data p w) = Returns out ->
  exists retained,
    df_columns out
    = ["id"; "category"; "value1"; "value2";
       "value1_plus_10"; "value2_div_value1"; "value1_type"] /\
    retained = List.filter (fun r => 20 <? row_value1 r) rs /\
    sublist retained rs /\
    df_lookup out "id" = Some (SInt (map row_id retained)) /\
    df_lookup out "category" = Some (SObj (map row_category retained)) /\
    df_lookup out "value1" = Some (SInt (map row_value1 retained)) /\
    df_lookup out "value2" = Some (SFloat (map row_value2 retained)).
Proof.
  intros Hl Hrun. rewrite (process_data_rows _ _ _ _ Hl Hrun).
  exists (List.filter kept rs).
  repeat split; try reflexivity. apply filter_sublist.
Qed.

(** ** The sample generator *)

Lemma sample_value1_range (st : RandomState) :
  Forall (fun x => 10 <= x < 50) (sample_value1 st).
Proof.
  unfold sample_value1. apply Forall_forall. intros x Hx.
  apply list_elem_of_In, in_map_iff in Hx as (r & <- & _).
  pose proof (Z.mod_pos_bound r (50 - 10)). lia.
Qed.

Lemma sample_value2_range (st : RandomState) :
  Forall (fun y => exists q, y = Finite q /\ (0 <= q)%Q /\ (q < 100)%Q)
         (sample_value2 st).
Proof.
  unfold sample_value2. apply Forall_forall. intros y Hy.
  apply list_elem_of_In, in_map_iff in Hy as (r & <- & _).
  pose proof (Z.mod_pos_bound r (2 ^ 53) eq_refl) as Hr.
  assert (Hq : (0 <= Qmake (r mod 2 ^ 53) (2 ^ 53) * inject_Z 100)%Q /\
               (Qmake (r mod 2 ^ 53) (2 ^ 53) * inject_Z 100 < 100)%Q).
  { unfold Qle, Qlt, Qmult, inject_Z. cbn [Qnum Qden].
    change (Z.pos (2 ^ 53 * 1)) with (2 ^ 53). lia. }
  destruct Hq as [Hlo Hhi].
  eexists. split; [|split; [exact Hlo | exact Hhi]].
  unfold float_of_int. cbn [float_mul]. apply round_overflow_Finite.
  - eapply Qlt_le_trans; [|exact Hlo]. vm_compute; reflexivity.
  - eapply Qlt_trans; [exact Hhi|]. vm_compute; reflexivity.
Qed.

(** C5 (as amended): every call of [create_sample_dataframe] returns a
    frame of exactly 5 rows with the columns id = 1..5, category = the
    fixed sequence A, B, A, C, B (all from {A, B, C}), value1 = five
    integers of [10, 50) and value2 = five floats of [0, 100). *)
Theorem sample_contract (w : World) :
  exists df w' v1 v2,
    create_sample_dataframe w = (Returns df, w') /\
    df = [ ("id", SInt [1; 2; 3; 4; 5]);
           ("category", SObj ["A"; "B"; "A"; "C"; "B"]);
           ("value1", SInt v1);
           ("value2", SFloat v2) ] /\
    df_len df = 5%nat /\
    Forall (fun c => In c ["A"; "B"; "C"]) ["A"; "B"; "A"; "C"; "B"] /\
    length v1 = 5%nat /\ Forall (fun x => 10 <= x < 50) v1 /\
    length v2 = 5%nat /\
    Forall (fun y => exists q, y = Finite q /\ (0 <= q)%Q /\ (q < 100)%Q) v2.
Proof.
  eexists _, _, (sample_value1 (random w)), (sample_value2 (random w)).
  split; [apply create_sample_dataframe_run|].
  split; [reflexivity|]. split; [reflexivity|].
  split; [repeat (apply List.Forall_cons; [simpl; auto 10|]);
          apply List.Forall_nil|].
  split; [reflexivity|]. split; [apply sample_value1_range|].
  split; [reflexivity | apply sample_value2_range].
Qed.

(** ** Failed loads *)

(** C6 (as amended): once line 81 has made sure of the data directory,
    when [pd.read_csv] finds nothing to parse in the file at the effective
    path and raises [EmptyDataError] (as it does on a zero-byte file),
    [process_data] logs the input as empty and returns the empty frame at
    once: nothing is raised, no file is written, no number is drawn and no
    transformation is logged. *)
Theorem empty_input_returns_empty (p : option string) (w : World)
    (text : string) :
  fst (os_makedirs data_dir w) = Returns tt ->
  entry (files (prepared w)) (effective_input_path p)
  = Some (RegularFile text) ->
  read_csv_text text = Raises EmptyDataError ->
  process_data p w
  = (Returns pd_DataFrame,
     {| files := files (prepared w); random := random w;
        log := log w ++ [(INFO, ReadingFrom (effective_input_path p));
                         (ERROR, InputEmpty (effective_input_path p))] |})
  /\ df_empty pd_DataFrame = true.
Proof.
  intros Hm Hf Hr. split; [|reflexivity].
  rewrite (process_data_prepared _ _ _ Hm).
  pose proof (load_input_present _ _ _ Hf) as Hl. rewrite Hr in Hl.
  rewrite (load_and_transform_failed p _ EmptyDataError) by now rewrite Hl.
  rewrite Hl. unfold logged.
  cbn [snd files random log is_EmptyDataError].
  now rewrite <- app_assoc, prepared_random, prepared_log.
Qed.


(** ** Reading an existing file *)

Lemma process_data_found (p : option string) (w : World) (node : fsnode)
    (u : unit) :
  fst (os_makedirs data_dir w) = Returns u ->
  entry (files w) (effective_input_path p) = Some node ->
  fst (process_data p w)
  = match node with
    | RegularFile text =>
        match read_csv_text text with
        | Returns df => transform_result df
        | Raises _ => Returns pd_DataFrame
        end
    | Directory | Denied => Returns pd_DataFrame
    end /\
  files (snd (process_data p w)) = files (prepared w) /\
  random (snd (process_data p w)) = random w.
Proof.
  intros Hm Hf. pose proof (prepared_entry_kept _ _ _ _ Hm Hf) as Hf'.
  rewrite (process_data_prepared _ _ _ Hm).
  rewrite load_and_transform_value, load_and_transform_files,
    load_and_transform_random.
  rewrite (load_input_exists _ _ _ Hf'). cbn [fst snd logged files random].
  split; [now destruct node|]. split; [reflexivity | apply prepared_random].
Qed.

(** On the path where the input file exists, the value returned depends on
    that file alone, given that line 81 goes the same way. *)
Lemma process_data_same_input (p : option string) (w1 w2 : World)
    (node : fsnode) :
  entry (files w1) (effective_input_path p) = Some node ->
  entry (files w2) (effective_input_path p) = Some node ->
  fst (os_makedirs data_dir w1) = fst (os_makedirs data_dir w2) ->
  fst (process_data p w1) = fst (process_data p w2).
Proof.
  intros H1 H2 Hm.
  destruct (fst (os_makedirs data_dir w1)) as [u|e] eqn:E1.
  - symmetry in Hm.
    destruct (process_data_found p w1 node u E1 H1) as [-> _].
    now destruct (process_data_found p w2 node u Hm H2) as [-> _].
  - symmetry in Hm.
    now rewrite (process_data_blocked _ _ _ E1),
      (process_data_blocked _ _ _ Hm).
Qed.

(** Such a run writes nothing: it leaves the files as line 81 left them,
    the input among them. *)
Lemma process_data_found_files (p : option string) (w : World)
    (node : fsnode) :
  entry (files w) (effective_input_path p) = Some node ->
  files (snd (process_data p w)) = files (prepared w) /\
  random (snd (process_data p w)) = random w /\
  entry (files (snd (process_data p w))) (effective_input_path p)
  = Some node.
Proof.
  intros Hf. destruct (fst (os_makedirs data_dir w)) as [u|e] eqn:E.
  - destruct (process_data_found p w node u E Hf) as (_ & -> & ->).
    split; [reflexivity|]. split; [reflexivity|].
    now apply (prepared_entry_kept _ u).
  - rewrite (process_data_blocked _ _ _ E). cbn [snd].
    apply os_makedirs_Raises in E as (_ & _ & ->). auto.
Qed.

Lemma process_data_again (p : option string) (w : World) (node : fsnode) :
  entry (files w) (effective_input_path p) = Some node ->
  fst (process_data p (snd (process_data p w))) = fst (process_data p w).
Proof.
  intros Hf. destruct (fst (os_makedirs data_dir w)) as [u|e] eqn:E.
  - destruct (process_data_found_files p w node Hf) as (Hfiles & _ & Hin).
    apply (process_data_same_input p _ w node); [exact Hin | exact Hf|].
    rewrite E. rewrite os_makedirs_existing; [destruct u; reflexivity|].
    rewrite Hfiles. now apply (prepared_data_dir _ u).
  - rewrite (process_data_blocked _ _ _ E). cbn [snd].
    now rewrite (process_data_blocked _ _ _ E).
Qed.

(** ** A missing input file *)

(** With nothing at the effective path and a default location that can be
    written, the sample is saved there and the run continues with it. *)
Lemma process_data_missing (p : option string) (w : World) (u : unit) :
  fst (os_makedirs data_dir w) = Returns u ->
  entry (files (prepared w)) (effective_input_path p) = None ->
  writable (files (prepared w)) DEFAULT_INPUT_CSV_PATH = true ->
  fst (process_data p w)
  = Returns (annotated_table (List.filter kept (sample_rows (random w)))) /\
  files (snd (process_data p w))
  = <[DEFAULT_INPUT_CSV_PATH :=
        RegularFile (to_csv_text (sample_frame (random w)))]>
      (files (prepared w)).
Proof.
  intros Hm Hf Hd. pose proof (load_input_missing _ _ Hf Hd) as Hl.
  rewrite prepared_random in Hl.
  rewrite (process_data_prepared _ _ _ Hm).
  rewrite load_and_transform_value, load_and_transform_files, Hl.
  split; [|reflexivity]. cbn [fst].
  rewrite sample_frame_rows. apply transform_result_rows.
Qed.

(** After a missing input the result is empty exactly when none of the five
    [value1] drawn exceeds 20. *)
Lemma missing_input_empty_iff (p : option string) (w : World) (u : unit) :
  fst (os_makedirs data_dir w) = Returns u ->
  entry (files (prepared w)) (effective_input_path p) = None ->
  writable (files (prepared w)) DEFAULT_INPUT_CSV_PATH = true ->
  exists out,
    fst (process_data p w) = Returns out /\
    (df_empty out = true
     <-> Forall (fun x => x <= 20) (sample_value1 (random w))).
Proof.
  intros Hm Hf Hd. destruct (process_data_missing p w u Hm Hf Hd) as [Hout _].
  eexists. split; [exact Hout|].
  rewrite annotated_table_empty, filter_nil_iff.
  change (sample_value1 (random w))
    with (map row_value1 (sample_rows (random w))).
  rewrite Forall_map. apply Forall_iff. intros r. unfold kept.
  rewrite Z.ltb_ge. reflexivity.
Qed.

(** ** The driver *)

Lemma default_input_in_data_dir :
  DEFAULT_INPUT_CSV_PATH = os_path_join data_dir "sample_input.csv".
Proof. reflexivity. Qed.

Lemma default_output_in_data_dir :
  DEFAULT_OUTPUT_CSV_PATH = os_path_join data_dir "processed_output.csv".
Proof. reflexivity. Qed.

Lemma main_files (w : World) :
  files (snd (main w))
  = files_after_main
      (fst (process_data (Some DEFAULT_INPUT_CSV_PATH) (started w)))
      (files (snd (process_data (Some DEFAULT_INPUT_CSV_PATH) (started w)))).
Proof.
  unfold main, started, files_after_main, bind, setup_logging, ret, try_,
    logger_info, logger_critical, logger_log, to_csv.
  cbn [files random log fst snd].
  destruct (process_data _ _) as [[df|e] w1]; cbn [files random log fst snd].
  - destruct (negb (df_empty df)); [|reflexivity]. cbn [andb].
    now destruct (writable (files w1) DEFAULT_OUTPUT_CSV_PATH).
  - reflexivity.
Qed.

Lemma writable_after_write (fs : gmap string fsnode) (path text : string) :
  writable fs path = true ->
  writable (<[path := RegularFile text]> fs) path = true.
Proof.
  intros H. apply writable_no_entries in H.
  unfold writable. now rewrite entry_insert_eq.
Qed.

Lemma files_after_main_twice (r : Outcome DataFrame)
    (fs : gmap string fsnode) :
  files_after_main r (files_after_main r fs) = files_after_main r fs.
Proof.
  unfold files_after_main. destruct r as [df|e]; [|reflexivity].
  destruct (negb (df_empty df)); [|reflexivity]. cbn [andb].
  destruct (writable fs DEFAULT_OUTPUT_CSV_PATH) eqn:E.
  - rewrite (writable_after_write _ _ _ E). apply insert_insert_eq.
  - now rewrite E.
Qed.

Lemma files_after_main_input (r : Outcome DataFrame)
    (fs : gmap string fsnode) :
  entry (files_after_main r fs) DEFAULT_INPUT_CSV_PATH
  = entry fs DEFAULT_INPUT_CSV_PATH.
Proof.
  unfold files_after_main. destruct r as [df|e]; [|reflexivity].
  destruct (_ && _); [|reflexivity].
  apply entry_insert_ne; [apply default_paths_differ|].
  rewrite default_input_in_data_dir, default_output_in_data_dir.
  now rewrite lies_below_join.
Qed.

(** What the driver finds when the default input is there: the data
    directory with it, so line 81 changes nothing. *)
Lemma process_data_default_found (w : World) (node : fsnode) :
  entry (files w) DEFAULT_INPUT_CSV_PATH = Some node ->
  fst (os_makedirs data_dir (started w)) = Returns tt /\
  files (snd (process_data (Some DEFAULT_INPUT_CSV_PATH) (started w)))
  = files w.
Proof.
  intros Hin.
  assert (Hd : entry (files (started w)) data_dir = Some Directory)
    by exact (data_dir_of_entry w "sample_input.csv" node Hin).
  pose proof (os_makedirs_existing _ Hd) as Hm.
  split; [now rewrite Hm|].
  destruct (process_data_found_files (Some DEFAULT_INPUT_CSV_PATH)
              (started w) node) as (-> & _).
  - now rewrite effective_default.
  - now rewrite (prepared_existing _ Hd).
Qed.

(** Running the script again on an unchanged input file leaves the disk,
    and so the output file, as the first run left it. *)
Lemma main_twice (w : World) (node : fsnode) :
  entry (files w) DEFAULT_INPUT_CSV_PATH = Some node ->
  files (snd (main (snd (main w)))) = files (snd (main w)).
Proof.
  intros Hin.
  assert (Hrun : forall w0,
             entry (files w0) DEFAULT_INPUT_CSV_PATH = Some node ->
             files (snd (main w0))
             = files_after_main
                 (fst (process_data (Some DEFAULT_INPUT_CSV_PATH) (started w)))
                 (files w0)).
  { intros w0 H0. rewrite main_files.
    destruct (process_data_default_found w0 node H0) as [Hm0 ->].
    destruct (process_data_default_found w node Hin) as [Hm _].
    f_equal.
    apply (process_data_same_input _ _ _ node);
      rewrite ?effective_default; trivial. congruence. }
  rewrite (Hrun (snd (main w))).
  - rewrite (Hrun w Hin). apply files_after_main_twice.
  - rewrite (Hrun w Hin), files_after_main_input. exact Hin.
Qed.

(** C8: on the path where the input file exists, what [process_data]
    returns is determined by that file alone: two runs that find the same
    file at the effective path, and the data directory in the same state
    at line 81, return the same value, whatever the state of the
    generator, the log and the other files; a run writes nothing (the
    files are as line 81 left them and the input is unchanged), so a second
    run finds the same input and returns the same value; and running the
    whole script twice on an unchanged default input leaves the same
    files, the output file among them. *)
Theorem rerun_yields_same_output (p : option string) (w1 w2 : World)
    (node : fsnode) :
  entry (files w1) (effective_input_path p) = Some node ->
  entry (files w2) (effective_input_path p) = Some node ->
  (fst (os_makedirs data_dir w1) = fst (os_makedirs data_dir w2) ->
   fst (process_data p w1) = fst (process_data p w2)) /\
  files (snd (process_data p w1)) = files (prepared w1) /\
  entry (files (snd (process_data p w1))) (effective_input_path p)
  = Some node /\
  fst (process_data p (snd (process_data p w1))) = fst (process_data p w1) /\
  (entry (files w1) DEFAULT_INPUT_CSV_PATH = Some node ->
   files (snd (main (snd (main w1)))) = files (snd (main w1))).
Proof.
  intros H1 H2.
  destruct (process_data_found_files p w1 node H1) as (Hf & _ & Hin).
  split; [now apply (process_data_same_input p w1 w2 node)|].
  split; [exact Hf|]. split; [exact Hin|].
  split; [now apply (process_data_again p w1 node) | apply main_twice].
Qed.

(** ** Frames outside the input schema *)

Lemma series_add_int_accepted (s : Series) (k : Z) :
  accepted s = true -> exists sum, series_add_int s k = Returns sum.
Proof.
  destruct s as [xs|xs|[|x xs]|xs]; simpl; intros H; try discriminate; eauto.
Qed.

Lemma series_add_float_accepted (s : Series) (e : Q) :
  accepted s = true ->
  exists sum, series_add_float s e = Returns sum /\ accepted sum = true.
Proof.
  destruct s as [xs|xs|[|x xs]|xs]; simpl; intros H; try discriminate;
    eexists; split; reflexivity.
Qed.

Lemma series_div_accepted (a b : Series) :
  accepted a = true -> accepted b = true ->
  exists quotient, series_div a b = Returns quotient.
Proof.
  destruct a as [xs|xs|[|x xs]|xs]; simpl; intros Ha; try discriminate;
    destruct b as [ys|ys|[|y ys]|ys]; simpl; intros Hb; try discriminate;
    eexists; reflexivity.
Qed.

Lemma series_gt_accepted (s : Series) (k : Z) :
  accepted s = true -> exists mask, series_gt s k = Returns mask.
Proof.
  destruct s as [xs|xs|[|x xs]|xs]; simpl; intros H; try discriminate; eauto.
Qed.

Lemma series_filter_accepted (mask : list bool) (s : Series) :
  accepted s = true -> accepted (series_filter mask s) = true.
Proof.
  destruct s as [xs|xs|[|x xs]|xs]; simpl; intros H; try discriminate;
    try reflexivity.
  now rewrite mask_filter_nil.
Qed.

Lemma transform_result_no_value1 (df : DataFrame) :
  df_lookup df "value1" = None ->
  transform_result df = Raises (KeyError "value1").
Proof. intros H. unfold transform_result, getitem. now rewrite H. Qed.

Lemma transform_result_string_value1 (df : DataFrame) (x : string)
    (xs : list string) :
  df_lookup df "value1" = Some (SObj (x :: xs)) ->
  transform_result df = Raises TypeError.
Proof. intros H. unfold transform_result, getitem. now rewrite H. Qed.

(** The transformation up to the division of line 113. *)
Lemma transform_result_value2 (df : DataFrame) (value1 : Series) :
  df_lookup df "value1" = Some value1 ->
  accepted value1 = true ->
  exists divisor,
    series_add_float value1 epsilon = Returns divisor /\
    accepted divisor = true /\
    match df_lookup df "value2" with
    | None => transform_result df = Raises (KeyError "value2")
    | Some value2 =>
        match series_div value2 divisor with
        | Returns _ => exists out, transform_result df = Returns out
        | Raises e => transform_result df = Raises e
        end
    end.
Proof.
  intros Hv1 Hn.
  destruct (series_add_int_accepted value1 10 Hn) as [p10 Hp].
  destruct (series_add_float_accepted value1 epsilon Hn) as (d & Hd & Hda).
  destruct (series_gt_accepted value1 20 Hn) as [keep Hk].
  exists d. split; [exact Hd|]. split; [exact Hda|].
  unfold transform_result, getitem.
  rewrite Hv1. cbn [and_then]. rewrite Hp. cbn [and_then].
  rewrite !df_lookup_setitem_ne by reflexivity. rewrite Hv1.
  destruct (df_lookup df "value2") as [value2|] eqn:Hv2; [|reflexivity].
  cbn [and_then]. rewrite Hd. cbn [and_then].
  destruct (series_div value2 d) as [q|e]; [|reflexivity].
  cbn [and_then].
  rewrite !df_lookup_setitem_ne by reflexivity. rewrite Hv1.
  cbn [and_then]. rewrite Hk. cbn [and_then].
  rewrite df_lookup_filter, !df_lookup_setitem_ne by reflexivity.
  rewrite Hv1. cbn [option_map and_then].
  destruct (series_gt_accepted (series_filter keep value1) 35) as [high ->];
    [now apply series_filter_accepted | cbn [and_then]; eauto].
Qed.

(** X1: once line 81 has made sure of the data directory, a loaded frame
    without a [value1] column makes [process_data] raise [KeyError], and
    so does one with a usable [value1] and no [value2]: these exceptions
    are not caught and reach the caller. *)
Theorem missing_column_raises_KeyError (p : option string) (w : World)
    (df : DataFrame) :
  fst (os_makedirs data_dir w) = Returns tt ->
  fst (load_input (effective_input_path p) (prepared w)) = Returns df ->
  (df_lookup df "value1" = None ->
   fst (process_data p w) = Raises (KeyError "value1")) /\
  (forall value1,
     df_lookup df "value1" = Some value1 -> accepted value1 = true ->
     df_lookup df "value2" = None ->
     fst (process_data p w) = Raises (KeyError "value2")).
Proof.
  intros Hm Hl. rewrite (process_data_value _ _ _ Hm), Hl. split.
  - apply transform_result_no_value1.
  - intros value1 Hv1 Hn Hv2.
    destruct (transform_result_value2 df value1 Hv1 Hn) as (d & _ & _ & H).
    now rewrite Hv2 in H.
Qed.

(** X2: once line 81 has made sure of the data directory, a loaded frame
    whose [value1] holds at least one string makes [process_data] raise
    [TypeError] at line 110, and one with a numeric [value1] and a
    [value2] of strings raises it at line 113. *)
Theorem string_column_raises_TypeError (p : option string) (w : World)
    (df : DataFrame) :
  fst (os_makedirs data_dir w) = Returns tt ->
  fst (load_input (effective_input_path p) (prepared w)) = Returns df ->
  (forall x xs, df_lookup df "value1" = Some (SObj (x :: xs)) ->
     fst (process_data p w) = Raises TypeError) /\
  (forall value1 y ys,
     df_lookup df "value1" = Some value1 -> is_numeric value1 = true ->
     df_lookup df "value2" = Some (SObj (y :: ys)) ->
     fst (process_data p w) = Raises TypeError).
Proof.
  intros Hm Hl. rewrite (process_data_value _ _ _ Hm), Hl. split.
  - apply transform_result_string_value1.
  - intros value1 y ys Hv1 Hn Hv2.
    assert (Ha : accepted value1 = true)
      by (unfold accepted; now rewrite Hn).
    destruct (transform_result_value2 df value1 Hv1 Ha)
      as (d & Hd & _ & H).
    rewrite Hv2 in H.
    assert (Hq : series_div (SObj (y :: ys)) d = Raises TypeError).
    { destruct value1 as [xs|xs|xs|xs]; try discriminate;
        cbn in Hd; injection Hd as <-; reflexivity. }
    now rewrite Hq in H.
Qed.

(** X3: once line 81 has made sure of the data directory, whenever the
    loaded frame has [value1] and [value2] columns that are numeric
    (int64, float64 or bool) or hold no value, beside any other columns,
    [process_data] returns a frame and raises nothing. *)
Theorem numeric_columns_suffice (p : option string) (w : World)
    (df : DataFrame) (value1 value2 : Series) :
  fst (os_makedirs data_dir w) = Returns tt ->
  fst (load_input (effective_input_path p) (prepared w)) = Returns df ->
  df_lookup df "value1" = Some value1 -> accepted value1 = true ->
  df_lookup df "value2" = Some value2 -> accepted value2 = true ->
  exists out, fst (process_data p w) = Returns out.
Proof.
  intros Hm Hl Hv1 Hn1 Hv2 Hn2. rewrite (process_data_value _ _ _ Hm), Hl.
  destruct (transform_result_value2 df value1 Hv1 Hn1) as (d & _ & Hd & H).
  rewrite Hv2 in H.
  destruct (series_div_accepted value2 d Hn2 Hd) as [q Hq].
  now rewrite Hq in H.
Qed.

(** ** What every returned frame satisfies *)

(** X4: in every row of a frame [process_data] returns, [value1] compares
    greater than 20, whatever the dtype of the column; rows whose [value1]
    is NaN are dropped with those at or below 20. *)
Theorem returned_rows_exceed_20 (p : option string) (w : World)
    (out : DataFrame) (i : nat) (c : cell) :
  fst (process_data p w) = Returns out ->
  cell_at out i "value1" = Some c ->
  cell_gt c 20 = Some true /\ c <> CFloat NaN.
Proof.
  intros Hrun Hcell.
  apply process_data_returned in Hrun as [-> | [df Hdf]]; [discriminate|].
  apply transform_result_inv in Hdf
    as (v1 & v2 & p10 & d & q & keep & high
        & Hv1 & Hv2 & Hp & Hd & Hq & Hk & Hh & ->).
  unfold cell_at in Hcell.
  rewrite df_lookup_setitem_ne, df_lookup_filter in Hcell by reflexivity.
  rewrite !df_lookup_setitem_ne in Hcell by reflexivity.
  rewrite Hv1 in Hcell. simpl in Hcell.
  pose proof (series_gt_filter_cell _ _ _ _ _ Hk Hcell) as Hgt.
  split; [exact Hgt|]. intros ->. discriminate Hgt.
Qed.

(** X5: the frame [process_data] returns keeps every column of the frame
    the [try] body loaded, in the loaded order and ahead of any new one;
    the three derived names are added at the end in the order
    value1_plus_10, value2_div_value1, value1_type, except that a derived
    name the input already uses keeps the input's place. *)
Theorem output_columns_extend_input (p : option string) (w : World)
    (df out : DataFrame) :
  fst (load_input (effective_input_path p) (prepared w)) = Returns df ->
  fst (process_data p w) = Returns out ->
  df_columns out
  = add_column (add_column (add_column (df_columns df) "value1_plus_10")
                           "value2_div_value1") "value1_type" /\
  df_columns df `prefix_of` df_columns out /\
  (~ In "value1_plus_10" (df_columns df) ->
   ~ In "value2_div_value1" (df_columns df) ->
   ~ In "value1_type" (df_columns df) ->
   df_columns out
   = (df_columns df
      ++ ["value1_plus_10"; "value2_div_value1"; "value1_type"])%list).
Proof.
  intros Hl Hrun.
  pose proof (process_data_transformed _ _ _ _ Hl Hrun) as Ht.
  apply transform_result_inv in Ht
    as (v1 & v2 & p10 & d & q & keep & high
        & Hv1 & Hv2 & Hp & Hd & Hq & Hk & Hh & ->).
  assert (Hcols : df_columns
            (setitem (df_filter (setitem (setitem df "value1_plus_10" p10)
                                   "value2_div_value1" q) keep)
               "value1_type" (np_where high "High" "Medium"))
          = add_column (add_column (add_column (df_columns df)
                          "value1_plus_10") "value2_div_value1")
                       "value1_type").
  { now rewrite df_columns_setitem, df_columns_filter, !df_columns_setitem. }
  split; [exact Hcols|]. rewrite Hcols. split.
  - etransitivity; [|apply add_column_prefix].
    etransitivity; [|apply add_column_prefix]. apply add_column_prefix.
  - intros H1 H2 H3.
    rewrite (add_column_fresh (df_columns df)) by exact H1.
    rewrite (add_column_fresh (df_columns df ++ _)).
    + rewrite add_column_fresh.
      * now rewrite <- !app_assoc.
      * rewrite !in_app_iff. simpl. intros [[H|[H|[]]]|[H|[]]];
          [now apply H3 | discriminate H | discriminate H].
    + rewrite in_app_iff. simpl. intros [H|[H|[]]];
        [now apply H2 | discriminate H].
Qed.

(** X6: when all columns of the loaded frame have the same length, so do
    all columns of the frame [process_data] returns, and that length, the
    row count of the result, does not exceed the input's. *)
Theorem equal_column_lengths_are_kept (p : option string) (w : World)
    (df out : DataFrame) (n : nat) :
  fst (load_input (effective_input_path p) w) = Returns df ->
  rectangular df n ->
  fst (process_data p w) = Returns out ->
  rectangular out (df_len out) /\ (df_len out <= n)%nat.
Proof.
  intros Hl Hrect Hrun.
  assert (Hout : out = pd_DataFrame \/ transform_result df = Returns out).
  { apply process_data_Returns in Hrun as [_ Hrun].
    rewrite load_and_transform_value in Hrun.
    destruct (load_input_prepared (effective_input_path p) w) as [H|H];
      rewrite H in Hrun.
    - rewrite Hl in Hrun. now right.
    - left. now injection Hrun. }
  destruct Hout as [-> | Ht].
  - split; [constructor | simpl; lia].
  - destruct (transform_result_rectangular _ _ _ Hrect Ht)
      as (v1 & keep & _ & _ & Hkeep & Hr & Hlen & _).
    rewrite Hlen. split; [exact Hr|].
    rewrite <- Hkeep. apply filter_length_le.
Qed.

(** ** What a run changes in the world *)

Lemma low_level_all (records : list (Level * LogMsg)) :
  forallb (fun r => level_no (fst r) <? 40) records = true ->
  Forall low_level records.
Proof.
  intros H. apply Forall_forall. intros r Hr. apply list_elem_of_In in Hr.
  rewrite forallb_forall in H. apply Z.ltb_lt. now apply H.
Qed.

(** The four ways the [try] body can go. *)
Lemma load_input_world (path : string) (w : World) :
  exists records,
    log (snd (load_input path w)) = (log w ++ records)%list /\
    Forall low_level records /\
    match entry (files w) path with
    | Some _ =>
        files (snd (load_input path w)) = files w /\
        random (snd (load_input path w)) = random w
    | None =>
        random (snd (load_input path w)) = advance 5 (advance 5 (random w)) /\
        (files (snd (load_input path w)) = files w \/
         files (snd (load_input path w))
         = <[DEFAULT_INPUT_CSV_PATH :=
               RegularFile (to_csv_text (sample_frame (random w)))]>
             (files w))
    end.
Proof.
  destruct (entry (files w) path) as [node|] eqn:Hf.
  - rewrite (load_input_exists _ _ _ Hf). eexists. split; [reflexivity|].
    split; [now apply low_level_all|]. split; reflexivity.
  - destruct (writable (files w) DEFAULT_INPUT_CSV_PATH) eqn:Hd.
    + rewrite (load_input_missing _ _ Hf Hd).
      eexists. split; [reflexivity|]. split; [now apply low_level_all|].
      split; [reflexivity | now right].
    + rewrite (load_input_unwritable _ _ Hf Hd).
      eexists. split; [reflexivity|]. split; [now apply low_level_all|].
      split; [reflexivity | now left].
Qed.

Lemma transform_records (df : DataFrame) (w : World) :
  exists records,
    log (snd (transform df w)) = (log w ++ records)%list /\
    forallb (fun r : Level * LogMsg => level_no (fst r) <? 40) records = true.
Proof.
  unfold transform, bind, lift, ret,
    logger_info, logger_debug, logger_log; simpl.
  repeat (step_outcome;
          try (rewrite <- !app_assoc; eexists; split; reflexivity)).
Qed.

(** What lines 83-125 append to the log. *)
Lemma load_and_transform_records (p : option string) (w : World) :
  exists records,
    log (snd (load_and_transform p w)) = (log w ++ records)%list /\
    match fst (load_input (effective_input_path p) w) with
    | Raises e =>
        exists earlier,
          records
          = (earlier ++
             [(ERROR, if is_EmptyDataError e
                      then InputEmpty (effective_input_path p)
                      else InputError (effective_input_path p) e)])%list /\
          Forall low_level earlier
    | Returns _ => Forall low_level records
    end.
Proof.
  destruct (load_input_world (effective_input_path p) w)
    as (rs & Hlog & Hlow & _).
  destruct (fst (load_input (effective_input_path p) w)) as [df|e] eqn:H.
  - rewrite (load_and_transform_loaded _ _ _ H).
    destruct (transform_records df (snd (load_input (effective_input_path p) w)))
      as (ts & Hts & Hall).
    exists (rs ++ ts)%list. split.
    + now rewrite Hts, Hlog, app_assoc.
    + apply Forall_app. split; [exact Hlow | now apply low_level_all].
  - rewrite (load_and_transform_failed _ _ _ H). unfold logged.
    cbn [snd log]. rewrite Hlog.
    eexists. split; [now rewrite <- app_assoc|]. eauto.
Qed.

Lemma process_data_log (p : option string) (w : World) :
  log w `prefix_of` log (snd (process_data p w)).
Proof.
  rewrite process_data_run.
  destruct (fst (os_makedirs data_dir w)); [|reflexivity].
  destruct (load_and_transform_records p (prepared w)) as (rs & -> & _).
  rewrite prepared_log. now apply prefix_app_r.
Qed.

(** Line 81 and the [try] body touch the store at two places only. *)
Lemma process_data_files (p : option string) (w : World) :
  files (snd (process_data p w)) = files (prepared w) \/
  files (snd (process_data p w))
  = <[DEFAULT_INPUT_CSV_PATH :=
        RegularFile (to_csv_text (sample_frame (random w)))]>
      (files (prepared w)).
Proof.
  rewrite process_data_run.
  destruct (fst (os_makedirs data_dir w)) as [u|e] eqn:E.
  - rewrite load_and_transform_files.
    destruct (load_input_world (effective_input_path p) (prepared w))
      as (rs & _ & _ & H).
    rewrite prepared_random in H.
    destruct (entry (files (prepared w)) (effective_input_path p)).
    + destruct H as [-> _]. now left.
    + destruct H as [_ [-> | ->]]; auto.
  - apply os_makedirs_Raises in E as (_ & _ & ->). now left.
Qed.

Lemma prepared_lookup (w : World) (other : string) :
  other <> data_dir -> files (prepared w) !! other = files w !! other.
Proof.
  intros Hne. destruct (fst (os_makedirs data_dir w)) as [u|e] eqn:E.
  - apply os_makedirs_Returns in E as [E _].
    now apply (makedirs_lookup data_dir).
  - now apply os_makedirs_Raises in E as (_ & _ & ->).
Qed.

Lemma process_data_other_files (p : option string) (w : World)
    (other : string) :
  other <> DEFAULT_INPUT_CSV_PATH -> other <> data_dir ->
  files (snd (process_data p w)) !! other = files w !! other.
Proof.
  intros Hne Hd. destruct (process_data_files p w) as [-> | ->].
  - now apply prepared_lookup.
  - rewrite lookup_insert_ne by congruence. now apply prepared_lookup.
Qed.

Lemma starts_with_app_r (a b c : string) :
  starts_with a b = true -> starts_with a (b +:+ c) = true.
Proof.
  revert b. induction a as [|ch a IH]; intros [|x b];
    rewrite ?append_nil, ?append_cons; simpl; try discriminate; trivial.
  destruct (Ascii.eqb ch x); simpl; [apply IH | discriminate].
Qed.

Lemma starts_with_slash (a name : string) :
  starts_with (a +:+ "/") name = true -> has_slash name = true.
Proof.
  revert name. induction a as [|ch a IH]; intros [|c name];
    rewrite ?append_nil, ?append_cons; cbn [starts_with has_slash];
    try discriminate.
  - rewrite andb_true_r, Ascii.eqb_sym. now intros ->.
  - intros H. apply andb_true_iff in H as [_ H].
    rewrite (IH _ H). apply orb_true_r.
Qed.

(** The directories above a file of [dir] are [dir] and those above it. *)
Lemma lies_below_file (dir other name : string) :
  has_slash name = false ->
  lies_below other (dir +:+ String "/" name) = true ->
  lies_below other dir = true \/ other = dir.
Proof.
  intros Hn. unfold lies_below. revert other.
  induction dir as [|ch dir IH]; intros [|c other];
    rewrite ?append_nil, ?append_cons; cbn [starts_with].
  - auto.
  - intros H. apply andb_true_iff in H as [_ H].
    apply starts_with_slash in H. congruence.
  - intros H. left. apply andb_true_iff in H as [H _].
    now rewrite H.
  - intros H. apply andb_true_iff in H as [Hc H].
    rewrite Hc. apply Ascii.eqb_eq in Hc as ->. cbn [andb].
    destruct (IH _ H) as [Hb | ->]; auto.
Qed.

Lemma lies_below_default (other name : string) :
  lies_below other (os_path_join data_dir name) = false ->
  other <> data_dir /\ lies_below other data_dir = false.
Proof.
  intros H. split.
  - intros ->. now rewrite lies_below_data_dir in H.
  - destruct (lies_below other data_dir) eqn:E; [|reflexivity].
    rewrite data_dir_join in H. unfold lies_below in *.
    now rewrite (starts_with_app_r _ _ _ E) in H.
Qed.

Lemma prepared_entry_apart (w : World) (other name : string) :
  lies_below other (os_path_join data_dir name) = false ->
  entry (files (prepared w)) other = entry (files w) other.
Proof.
  intros H. apply lies_below_default in H as [Hne Hb].
  destruct (fst (os_makedirs data_dir w)) as [u|e] eqn:E.
  - apply os_makedirs_Returns in E as [E _].
    now apply (makedirs_entry_apart data_dir).
  - now apply os_makedirs_Raises in E as (_ & _ & ->).
Qed.

(** What a path names is the same after [process_data], unless it is the
    default input location or a directory above it. *)
Lemma process_data_entry_apart (p : option string) (w : World)
    (other : string) :
  other <> DEFAULT_INPUT_CSV_PATH ->
  lies_below other DEFAULT_INPUT_CSV_PATH = false ->
  entry (files (snd (process_data p w))) other = entry (files w) other.
Proof.
  intros Hne Hb.
  pose proof (prepared_entry_apart w other "sample_input.csv" Hb) as Hp.
  destruct (process_data_files p w) as [-> | ->]; [exact Hp|].
  now rewrite entry_insert_ne.
Qed.

Lemma files_after_main_apart (r : Outcome DataFrame)
    (fs : gmap string fsnode) (other : string) :
  other <> DEFAULT_OUTPUT_CSV_PATH ->
  lies_below other DEFAULT_OUTPUT_CSV_PATH = false ->
  entry (files_after_main r fs) other = entry fs other.
Proof.
  intros Hne Hb. unfold files_after_main. destruct r as [df|e]; [|reflexivity].
  destruct (_ && _); [|reflexivity]. now apply entry_insert_ne.
Qed.

(** X7: [process_data] changes what a path names at no path but the
    default input location and the directories above it (the data
    directory, which line 81 makes), and [main] at none but these and the
    default output location: every other path names after the run what it
    named before, whichever way the run goes. *)
Theorem runs_write_only_default_paths (p : option string) (w : World)
    (other : string) :
  other <> DEFAULT_INPUT_CSV_PATH ->
  lies_below other DEFAULT_INPUT_CSV_PATH = false ->
  entry (files (snd (process_data p w))) other = entry (files w) other /\
  (other <> DEFAULT_OUTPUT_CSV_PATH ->
   entry (files (snd (main w))) other = entry (files w) other).
Proof.
  intros Hne Hb. split; [now apply process_data_entry_apart|].
  intros Hout. rewrite main_files, files_after_main_apart; trivial.
  - now apply (process_data_entry_apart _ (started w)).
  - apply (lies_below_default other "sample_input.csv") in Hb as [Hd Hb].
    destruct (lies_below other DEFAULT_OUTPUT_CSV_PATH) eqn:E; [|reflexivity].
    rewrite default_output_in_data_dir, data_dir_join in E.
    apply lies_below_file in E as [E | E]; [congruence | easy | reflexivity].
Qed.

(** X8: a run only appends to the log.  When line 81 raises, it appends
    nothing.  Otherwise it appends a record of level ERROR exactly when
    the [try] body raised: that record comes last and names the
    exception.  When the load succeeds nothing at or above ERROR is
    logged, not even when the transformation then raises. *)
Theorem error_records_mark_failed_loads (p : option string) (w : World) :
  exists records,
    log (snd (process_data p w)) = (log w ++ records)%list /\
    match fst (os_makedirs data_dir w) with
    | Raises e => fst (process_data p w) = Raises e /\ records = []
    | Returns _ =>
        match fst (load_input (effective_input_path p) (prepared w)) with
        | Raises e =>
            exists earlier,
              records
              = (earlier ++
                 [(ERROR, if is_EmptyDataError e
                          then InputEmpty (effective_input_path p)
                          else InputError (effective_input_path p) e)])%list /\
              Forall (fun r => level_no (fst r) < 40) earlier
        | Returns _ => Forall (fun r => level_no (fst r) < 40) records
        end
    end.
Proof.
  rewrite process_data_run.
  destruct (fst (os_makedirs data_dir w)) as [u|e].
  - destruct (load_and_transform_records p (prepared w)) as (rs & Hlog & H).
    exists rs. rewrite prepared_log in Hlog. split; [exact Hlog | exact H].
  - exists []. cbn [fst snd]. now rewrite app_nil_r.
Qed.

Lemma process_data_world (p : option string) (w : World) :
  match entry (files (prepared w)) (effective_input_path p) with
  | Some _ =>
      random (snd (process_data p w)) = random w /\
      files (snd (process_data p w)) = files (prepared w)
  | None =>
      forall u : unit,
        fst (os_makedirs data_dir w) = Returns u ->
        tape (random (snd (process_data p w))) = tape (random w) /\
        cursor (random (snd (process_data p w)))
        = (cursor (random w) + 10)%nat
  end.
Proof.
  rewrite process_data_run.
  destruct (load_input_world (effective_input_path p) (prepared w))
    as (rs & _ & _ & H).
  rewrite prepared_random in H.
  destruct (fst (os_makedirs data_dir w)) as [u|e] eqn:E.
  - rewrite load_and_transform_random, load_and_transform_files.
    destruct (entry (files (prepared w)) (effective_input_path p)).
    + destruct H as [-> ->]. now split.
    + intros _ _. destruct H as [-> _]. split; [reflexivity|]. simpl. lia.
  - apply os_makedirs_Raises in E as (_ & _ & ->). cbn [snd].
    destruct (entry (files w) (effective_input_path p)); [now split|].
    discriminate.
Qed.

(** X9: when line 81 raises, [process_data] draws no random number and
    leaves the files alone; so it does when, after line 81, something
    exists at the effective path (it then changes nothing but what line 81
    made); when line 81 returns and nothing exists at the effective path,
    it draws exactly ten numbers, five for [value1] and five for
    [value2], whether or not the sample can then be saved. *)
Theorem process_data_draws (p : option string) (w : World) :
  (forall e, fst (os_makedirs data_dir w) = Raises e ->
     random (snd (process_data p w)) = random w /\
     files (snd (process_data p w)) = files w) /\
  (is_Some (entry (files (prepared w)) (effective_input_path p)) ->
   random (snd (process_data p w)) = random w /\
   files (snd (process_data p w)) = files (prepared w)) /\
  (fst (os_makedirs data_dir w) = Returns tt ->
   entry (files (prepared w)) (effective_input_path p) = None ->
   tape (random (snd (process_data p w))) = tape (random w) /\
   cursor (random (snd (process_data p w))) = (cursor (random w) + 10)%nat).
Proof.
  pose proof (process_data_world p w) as H. split; [|split].
  - intros e He. now rewrite (process_data_blocked _ _ _ He).
  - intros [node Hn]. now rewrite Hn in H.
  - intros Hm Hn. rewrite Hn in H. exact (H tt Hm).
Qed.

(** X10: when nothing exists at the effective path and the default input
    location cannot be written, the sample is drawn and then lost:
    [process_data] returns the empty frame, logs the [OSError] as a read
    error, and leaves every file as it was. *)
Theorem unsaved_sample_returns_empty (p : option string) (w : World) :
  entry (files w) (effective_input_path p) = None ->
  files w !! DEFAULT_INPUT_CSV_PATH = Some Denied ->
  process_data p w
  = (Returns pd_DataFrame,
     {| files := files w;
        random := advance 5 (advance 5 (random w));
        log := log w ++
               [(WARNING, NotFoundGenerating (effective_input_path p));
                (DEBUG, CreatingSample); (DEBUG, SampleCreated 5);
                (ERROR, InputError (effective_input_path p) OSError)] |}).
Proof.
  intros Hf Hd.
  assert (Hdir : entry (files w) data_dir = Some Directory).
  { apply (entry_above _ _ _ _ Hd), lies_below_data_dir. }
  assert (Hw : writable (files w) DEFAULT_INPUT_CSV_PATH = false).
  { unfold writable, entry. rewrite Hd. now destruct (has_entry_below _ _). }
  pose proof (os_makedirs_existing _ Hdir) as Hm.
  rewrite (process_data_prepared p w tt) by now rewrite Hm.
  rewrite (prepared_existing _ Hdir).
  pose proof (load_input_unwritable _ _ Hf Hw) as Hl.
  rewrite (load_and_transform_failed p w OSError) by now rewrite Hl.
  rewrite Hl. unfold logged. cbn [snd files random log is_EmptyDataError].
  now rewrite <- app_assoc.
Qed.

(** ** The driver, whatever happens *)

Lemma main_run (w : World) :
  main w
  = (Returns tt,
     finish_main
       (fst (process_data (Some DEFAULT_INPUT_CSV_PATH) (started w)))
       (snd (process_data (Some DEFAULT_INPUT_CSV_PATH) (started w)))).
Proof.
  unfold main, started, finish_main, logged, bind, setup_logging, ret, try_,
    logger_info, logger_critical, logger_log, to_csv.
  cbn [files random log fst snd].
  destruct (process_data _ _) as [[df|e] w1]; cbn [files random log fst snd].
  - destruct (negb (df_empty df)).
    + destruct (writable (files w1) DEFAULT_OUTPUT_CSV_PATH);
        cbn [files random log fst snd]; now rewrite <- ?app_assoc.
    + cbn [files random log fst snd]. now rewrite <- ?app_assoc.
  - cbn [files random log fst snd]. now rewrite <- ?app_assoc.
Qed.

Lemma finish_main_log (r : Outcome DataFrame) (w : World) :
  exists records,
    log (finish_main r w)
    = (log w ++ records ++ [(INFO, ScriptFinished)])%list.
Proof.
  unfold finish_main, logged. destruct r as [df|e].
  - destruct (negb (df_empty df)).
    + destruct (writable (files w) DEFAULT_OUTPUT_CSV_PATH); now eexists [_].
    + now eexists [_].
  - now eexists [_].
Qed.

Lemma main_finishes (w : World) :
  fst (main w) = Returns tt /\
  exists records,
    log (snd (main w))
    = (log w ++ [(INFO, ScriptStarted)] ++ records
         ++ [(INFO, ScriptFinished)])%list.
Proof.
  rewrite main_run. split; [reflexivity|]. cbn [snd].
  destruct (finish_main_log
              (fst (process_data (Some DEFAULT_INPUT_CSV_PATH) (started w)))
              (snd (process_data (Some DEFAULT_INPUT_CSV_PATH) (started w))))
    as (rs & ->).
  destruct (process_data_log (Some DEFAULT_INPUT_CSV_PATH) (started w))
    as (ps & ->).
  exists (ps ++ rs)%list. unfold started. cbn [log].
  now rewrite <- !app_assoc.
Qed.

Lemma prepared_keeps_files (w : World) (path : string) :
  is_Some (files w !! path) -> is_Some (files (prepared w) !! path).
Proof.
  intros Hs. destruct (fst (os_makedirs data_dir w)) as [u|e] eqn:E.
  - apply os_makedirs_Returns in E as [E _].
    apply makedirs_Returns in E as [[_ ->] | [_ ->]]; [exact Hs|].
    rewrite lookup_insert. case_decide; eauto.
  - now apply os_makedirs_Raises in E as (_ & _ & ->).
Qed.

(** No run removes a file. *)
Lemma main_keeps_files (w : World) (path : string) :
  is_Some (files w !! path) -> is_Some (files (snd (main w)) !! path).
Proof.
  intros Hs. rewrite main_files. unfold files_after_main.
  assert (Hp : is_Some (files (snd (process_data (Some DEFAULT_INPUT_CSV_PATH)
                                      (started w))) !! path)).
  { pose proof (prepared_keeps_files (started w) path Hs) as Hk.
    destruct (process_data_files (Some DEFAULT_INPUT_CSV_PATH) (started w))
      as [-> | ->]; [exact Hk|].
    rewrite lookup_insert. case_decide; eauto. }
  destruct (fst (process_data _ _)) as [df|e]; [|exact Hp].
  destruct (_ && _); [|exact Hp].
  rewrite lookup_insert; case_decide; eauto.
Qed.

Lemma process_data_output_kept (p : option string) (w : World) :
  files (snd (process_data p w)) !! DEFAULT_OUTPUT_CSV_PATH
  = files w !! DEFAULT_OUTPUT_CSV_PATH /\
  writable (files (snd (process_data p w))) DEFAULT_OUTPUT_CSV_PATH
  = writable (files w) DEFAULT_OUTPUT_CSV_PATH.
Proof.
  split.
  - apply process_data_other_files.
    + intros Heq. now apply default_paths_differ.
    + apply data_dir_join_ne.
  - unfold writable. rewrite process_data_entry_apart; [reflexivity| |].
    + intros Heq. now apply default_paths_differ.
    + rewrite default_input_in_data_dir, default_output_in_data_dir.
      now rewrite lies_below_join.
Qed.

(** X12: an exception that escapes [process_data] is caught by [main]: it
    is logged once at CRITICAL level, just before "script finished", and
    no output file is written. *)
Theorem main_logs_unhandled_exception (w : World) (e : exn) :
  fst (process_data (Some DEFAULT_INPUT_CSV_PATH) (started w)) = Raises e ->
  fst (main w) = Returns tt /\
  (exists earlier,
     log (snd (main w))
     = (earlier ++ [(CRITICAL, Unhandled e); (INFO, ScriptFinished)])%list) /\
  files (snd (main w)) !! DEFAULT_OUTPUT_CSV_PATH
  = files w !! DEFAULT_OUTPUT_CSV_PATH.
Proof.
  intros H. rewrite main_run, H. cbn [fst snd finish_main logged files log].
  split; [reflexivity|]. split; [eauto|].
  exact (proj1 (process_data_output_kept _ (started w))).
Qed.

(** X13: what [main] does with the frame [process_data] returns: a
    non-empty frame is written to the default output location, when that
    is a file or free, and "saved" is logged; an empty frame leaves the
    output location as it was and "no data to save" is logged; a
    non-empty frame that cannot be written there (a directory, an entry
    without permission) is logged as an unhandled [OSError]. *)
Theorem main_saves_nonempty_result (w : World) (df : DataFrame) :
  fst (process_data (Some DEFAULT_INPUT_CSV_PATH) (started w)) = Returns df ->
  (df_empty df = false ->
   writable (files w) DEFAULT_OUTPUT_CSV_PATH = true ->
   files (snd (main w)) !! DEFAULT_OUTPUT_CSV_PATH
   = Some (RegularFile (to_csv_text df)) /\
   exists earlier,
     log (snd (main w))
     = (earlier ++ [(INFO, SavedTo DEFAULT_OUTPUT_CSV_PATH);
                    (INFO, ScriptFinished)])%list) /\
  (df_empty df = true ->
   files (snd (main w)) !! DEFAULT_OUTPUT_CSV_PATH
   = files w !! DEFAULT_OUTPUT_CSV_PATH /\
   exists earlier,
     log (snd (main w))
     = (earlier ++ [(INFO, NoDataToSave); (INFO, ScriptFinished)])%list) /\
  (df_empty df = false ->
   writable (files w) DEFAULT_OUTPUT_CSV_PATH = false ->
   files (snd (main w)) !! DEFAULT_OUTPUT_CSV_PATH
   = files w !! DEFAULT_OUTPUT_CSV_PATH /\
   exists earlier,
     log (snd (main w))
     = (earlier ++ [(CRITICAL, Unhandled OSError);
                    (INFO, ScriptFinished)])%list).
Proof.
  intros H.
  destruct (process_data_output_kept (Some DEFAULT_INPUT_CSV_PATH) (started w))
    as [Hout Hwr].
  change (files (started w)) with (files w) in Hout, Hwr.
  rewrite main_run, H. cbn [fst snd]. unfold finish_main.
  split; [|split].
  - intros He Hd. rewrite He. cbn [negb]. rewrite Hwr, Hd. cbn [files log].
    split; [apply lookup_insert_eq | eauto].
  - intros He. rewrite He. cbn [negb logged files log]. split; eauto.
  - intros He Hd. rewrite He. cbn [negb]. rewrite Hwr, Hd.
    cbn [logged files log]. split; eauto.
Qed.

(** X14: [main] never overwrites an input file it finds: whatever exists at
    the default input location before the run is there, unchanged, after
    it. *)
Theorem main_keeps_existing_input (w : World) (node : fsnode) :
  files w !! DEFAULT_INPUT_CSV_PATH = Some node ->
  files (snd (main w)) !! DEFAULT_INPUT_CSV_PATH = Some node.
Proof.
  intros Hin.
  assert (He : exists found, entry (files w) DEFAULT_INPUT_CSV_PATH
                             = Some found).
  { unfold entry. destruct (has_entry_below _ _); eauto. }
  destruct He as [found He].
  destruct (process_data_default_found w found He) as [_ Hfiles].
  rewrite main_files, Hfiles. unfold files_after_main.
  destruct (fst (process_data _ _)) as [df|e]; [|exact Hin].
  destruct (_ && _); [|exact Hin].
  rewrite lookup_insert_ne; [exact Hin|].
  intros Heq. now apply default_paths_differ.
Qed.

(** X15: a run that found no input leaves one behind: when, after line 81,
    nothing exists at the effective path and the default input location
    can be written, and the reader recovers the sample from the text the
    writer produced, running [process_data] again on the default path
    reads the saved sample, draws nothing new, writes nothing and returns
    the frame the first run returned. *)
Theorem saved_sample_is_reused (p : option string) (w : World) :
  fst (os_makedirs data_dir w) = Returns tt ->
  entry (files (prepared w)) (effective_input_path p) = None ->
  writable (files (prepared w)) DEFAULT_INPUT_CSV_PATH = true ->
  read_csv_text (to_csv_text (sample_frame (random w)))
  = Returns (sample_frame (random w)) ->
  let w1 := snd (process_data p w) in
  fst (process_data p w)
  = Returns (annotated_table (List.filter kept (sample_rows (random w)))) /\
  fst (process_data None w1) = fst (process_data p w) /\
  random (snd (process_data None w1)) = random w1 /\
  files (snd (process_data None w1)) = files w1.
Proof.
  intros Hm Hf Hd Hrt w1.
  pose proof (load_input_missing _ _ Hf Hd) as Hl.
  rewrite prepared_random in Hl.
  assert (Hv : fst (process_data p w)
               = Returns (annotated_table
                            (List.filter kept (sample_rows (random w))))).
  { rewrite (process_data_value _ _ _ Hm), Hl. cbn [fst].
    rewrite sample_frame_rows. apply transform_result_rows. }
  assert (Hfiles : files w1
                   = <[DEFAULT_INPUT_CSV_PATH :=
                         RegularFile (to_csv_text (sample_frame (random w)))]>
                       (files (prepared w))).
  { unfold w1. rewrite (process_data_prepared _ _ _ Hm).
    now rewrite load_and_transform_files, Hl. }
  assert (Hin : entry (files w1) (effective_input_path None)
                = Some (RegularFile (to_csv_text (sample_frame (random w))))).
  { rewrite Hfiles. apply entry_insert_eq. now apply writable_no_entries. }
  assert (Hdir : entry (files w1) data_dir = Some Directory).
  { rewrite Hfiles. apply entry_directory_insert.
    - now apply (prepared_data_dir _ tt).
    - apply data_dir_join_ne. }
  assert (Hm1 : fst (os_makedirs data_dir w1) = Returns tt)
    by now rewrite (os_makedirs_existing _ Hdir).
  destruct (process_data_found None w1 _ tt Hm1 Hin) as (Hv1 & Hf1 & Hr1).
  split; [exact Hv|]. split; [|split].
  - rewrite Hv1, Hrt, Hv, sample_frame_rows. apply transform_result_rows.
  - exact Hr1.
  - now rewrite Hf1, (prepared_existing _ Hdir).
Qed.

(** ** The handlers [setup_logging] installs *)

Lemma has_slash_app (a name : string) :
  has_slash (a +:+ String "/" name) = true.
Proof.
  induction a as [|ch a IH]; rewrite ?append_nil, ?append_cons;
    cbn [has_slash]; [reflexivity|].
  rewrite IH. apply orb_true_r.
Qed.

Lemma head_to_last_slash_app (a name : string) :
  has_slash name = false ->
  head_to_last_slash (a +:+ String "/" name) = a +:+ "/".
Proof.
  intros Hn. induction a as [|ch a IH]; rewrite ?append_nil, ?append_cons;
    cbn [head_to_last_slash].
  - now rewrite Hn.
  - now rewrite has_slash_app, IH.
Qed.

Lemma rstrip_slashes_data (a : string) :
  rstrip_slashes ((a +:+ "data") +:+ "/") = a +:+ "data".
Proof.
  induction a as [|ch a IH]; [reflexivity|].
  rewrite !append_cons. cbn [rstrip_slashes]. rewrite IH.
  now destruct a.
Qed.

(** The directory of the log file is the data directory. *)
Lemma log_dir_is_data_dir :
  os_path_dirname DEFAULT_LOG_FILE_PATH = data_dir.
Proof.
  change DEFAULT_LOG_FILE_PATH
    with (os_path_join data_dir "data_processing.log").
  rewrite data_dir_join. unfold os_path_dirname.
  rewrite head_to_last_slash_app by reflexivity.
  destruct data_dir_tail as [a ->]. rewrite rstrip_slashes_data.
  now destruct a.
Qed.

Lemma deliver_enabled (lg : Logger) (lvl : Level) :
  logger_level lg = DEBUG -> deliver lg lvl = routed lg lvl.
Proof.
  intros H. unfold deliver. rewrite H. now destruct lvl.
Qed.

(** [setup_logging] returns exactly when the data directory can be made
    and the log file opened in it. *)
Lemma setup_logging_handlers_run (lg : Logger) (fs : gmap string fsnode) :
  setup_logging_handlers lg fs
  = match makedirs data_dir fs with
    | Raises e => (Raises e, fs)
    | Returns fs1 =>
        match open_for_append DEFAULT_LOG_FILE_PATH fs1 with
        | Raises e => (Raises e, fs1)
        | Returns fs2 =>
            (Returns
               {| handlers :=
                    handlers lg ++
                    [mkHandler (FileSink DEFAULT_LOG_FILE_PATH) DEBUG
                       "%(asctime)s - %(name)s - %(levelname)s - %(message)s";
                     mkHandler ConsoleSink INFO
                       "%(asctime)s - %(name)s - %(levelname)s - %(message)s"];
                  logger_level := DEBUG; propagate := false |}, fs2)
        end
    end.
Proof. unfold setup_logging_handlers. now rewrite log_dir_is_data_dir. Qed.

Lemma open_for_append_writable (path : string) (fs : gmap string fsnode) :
  writable fs path = true ->
  exists fs',
    open_for_append path fs = Returns fs' /\
    (exists text, fs' !! path = Some (RegularFile text)) /\
    (forall other node, fs !! other = Some node -> fs' !! other = Some node).
Proof.
  unfold writable, open_for_append.
  destruct (entry fs path) as [[text| |]|] eqn:E; try discriminate; intros _.
  - exists fs. split; [reflexivity|]. apply entry_file in E as [E _]. eauto.
  - eexists. split; [reflexivity|]. rewrite lookup_insert_eq.
    split; [eauto|]. intros other node Ho.
    rewrite lookup_insert_ne; [exact Ho|]. intros <-.
    apply entry_None in E as [E _]. congruence.
Qed.

Lemma open_for_append_unwritable (path : string) (fs : gmap string fsnode) :
  writable fs path = false -> open_for_append path fs = Raises OSError.
Proof.
  unfold writable, open_for_append.
  now destruct (entry fs path) as [[text| |]|].
Qed.

Lemma makedirs_keeps (path : string) (fs fs' : gmap string fsnode) :
  makedirs path fs = Returns fs' ->
  forall other node, fs !! other = Some node -> fs' !! other = Some node.
Proof.
  intros H other node Ho.
  apply makedirs_Returns in H as [[_ ->] | [He ->]]; [exact Ho|].
  rewrite lookup_insert_ne; [exact Ho|]. intros <-.
  apply entry_None in He as [He _]. congruence.
Qed.

Lemma makedirs_raises (path : string) (fs : gmap string fsnode) (e : exn) :
  makedirs path fs = Raises e -> e = OSError.
Proof.
  unfold makedirs. destruct (entry fs path) as [[text| |]|];
    try destruct (blocked_above fs path); congruence.
Qed.

(** X16: when the data directory is there or can be made and the log file
    can be opened in it, one [setup_logging] on a logger without handlers
    returns; after it a DEBUG record goes to the log file only and every
    record from INFO up goes to the log file and then to the console; the
    log file exists, and no file that existed before is lost or
    changed. *)
Theorem setup_logging_routes_by_level (lg : Logger)
    (fs fs1 : gmap string fsnode) :
  handlers lg = [] ->
  makedirs (os_path_dirname DEFAULT_LOG_FILE_PATH) fs = Returns fs1 ->
  writable fs1 DEFAULT_LOG_FILE_PATH = true ->
  exists lg' fs',
    setup_logging_handlers lg fs = (Returns lg', fs') /\
    propagate lg' = false /\
    deliver lg' DEBUG = [FileSink DEFAULT_LOG_FILE_PATH] /\
    (forall lvl, lvl <> DEBUG ->
       deliver lg' lvl = [FileSink DEFAULT_LOG_FILE_PATH; ConsoleSink]) /\
    (exists text,
       fs' !! DEFAULT_LOG_FILE_PATH = Some (RegularFile text)) /\
    entry fs' data_dir = Some Directory /\
    (forall path node, fs !! path = Some node -> fs' !! path = Some node).
Proof.
  intros Hh Hmk Hw. rewrite log_dir_is_data_dir in Hmk.
  destruct (open_for_append_writable _ _ Hw) as (fs2 & Hopen & Hex & Hk).
  rewrite setup_logging_handlers_run, Hmk, Hopen.
  eexists _, fs2. split; [reflexivity|]. rewrite Hh.
  split; [reflexivity|]. split; [reflexivity|]. split.
  { intros lvl Hl. destruct lvl; try reflexivity. congruence. }
  split; [exact Hex|]. split.
  - destruct Hex as [text Hex]. apply (entry_above _ _ _ _ Hex).
    apply lies_below_data_dir.
  - intros path node Hp. apply Hk. now apply (makedirs_keeps _ _ _ Hmk).
Qed.

Lemma count_sink_app (s : Sink) (xs ys : list Sink) :
  count_sink s (xs ++ ys) = (count_sink s xs + count_sink s ys)%nat.
Proof. unfold count_sink. now rewrite List.filter_app, List.length_app. Qed.

Lemma routed_after_setup (lg : Logger) (lvl : Level) :
  routed
    {| handlers :=
         handlers lg ++
         [mkHandler (FileSink DEFAULT_LOG_FILE_PATH) DEBUG
            "%(asctime)s - %(name)s - %(levelname)s - %(message)s";
          mkHandler ConsoleSink INFO
            "%(asctime)s - %(name)s - %(levelname)s - %(message)s"];
       logger_level := DEBUG; propagate := false |} lvl
  = (routed lg lvl ++
     (FileSink DEFAULT_LOG_FILE_PATH
      :: match lvl with DEBUG => [] | _ => [ConsoleSink] end))%list.
Proof.
  unfold routed. cbn [handlers]. rewrite List.filter_app, List.map_app.
  f_equal. now destruct lvl.
Qed.

Lemma setup_logging_times_count (n : nat) (lg lg' : Logger)
    (fs fs' : gmap string fsnode) (lvl : Level) :
  setup_logging_times n lg fs = (Returns lg', fs') ->
  count_sink (FileSink DEFAULT_LOG_FILE_PATH) (routed lg' lvl)
  = (count_sink (FileSink DEFAULT_LOG_FILE_PATH) (routed lg lvl) + n)%nat /\
  count_sink ConsoleSink (routed lg' lvl)
  = (count_sink ConsoleSink (routed lg lvl)
     + match lvl with DEBUG => 0 | _ => n end)%nat /\
  (n <> 0%nat -> logger_level lg' = DEBUG).
Proof.
  revert lg fs. induction n as [|n IH]; intros lg fs H.
  - injection H as <- <-. repeat split; try lia. destruct lvl; lia.
  - simpl in H.
    destruct (setup_logging_handlers lg fs) as [[lg1|e] fs1] eqn:E;
      [|discriminate].
    destruct (IH lg1 fs1 H) as (Hf & Hc & Hl).
    rewrite setup_logging_handlers_run in E.
    destruct (makedirs data_dir fs) as [fs2|e]; [|discriminate].
    destruct (open_for_append DEFAULT_LOG_FILE_PATH fs2) as [fs3|e];
      [|discriminate].
    injection E as <- <-.
    rewrite routed_after_setup, count_sink_app in Hf, Hc.
    assert (Hone : count_sink (FileSink DEFAULT_LOG_FILE_PATH)
                     (FileSink DEFAULT_LOG_FILE_PATH
                      :: match lvl with DEBUG => [] | _ => [ConsoleSink] end)
                   = 1%nat).
    { unfold count_sink. cbn [List.filter]. rewrite String.eqb_refl.
      now destruct lvl. }
    assert (Htwo : count_sink ConsoleSink
                     (FileSink DEFAULT_LOG_FILE_PATH
                      :: match lvl with DEBUG => [] | _ => [ConsoleSink] end)
                   = match lvl with DEBUG => 0%nat | _ => 1%nat end).
    { unfold count_sink. now destruct lvl. }
    rewrite Hone in Hf. rewrite Htwo in Hc.
    split; [lia|]. split.
    + destruct lvl; lia.
    + intros _. destruct n as [|n']; [|now apply Hl].
      now injection H as <- <-.
Qed.

(** X17: [setup_logging] adds its two handlers each time it is called:
    after [n + 1] calls in a row on a logger without handlers, every
    record is written [n + 1] times to the log file, and [n + 1] times to
    the console when its level is INFO or above (never for DEBUG). *)
Theorem repeated_setup_duplicates_records (n : nat) (lg lg' : Logger)
    (fs fs' : gmap string fsnode) (lvl : Level) :
  handlers lg = [] ->
  setup_logging_times (S n) lg fs = (Returns lg', fs') ->
  count_sink (FileSink DEFAULT_LOG_FILE_PATH) (deliver lg' lvl) = S n /\
  count_sink ConsoleSink (deliver lg' lvl)
  = match lvl with DEBUG => 0%nat | _ => S n end.
Proof.
  intros Hh Hrun.
  destruct (setup_logging_times_count (S n) lg lg' fs fs' lvl Hrun)
    as (Hf & Hc & Hl).
  assert (Hnone : routed lg lvl = []) by (unfold routed; now rewrite Hh).
  rewrite Hnone in Hf, Hc.
  rewrite (deliver_enabled lg' lvl) by now apply Hl.
  split; [exact Hf|]. rewrite Hc. now destruct lvl.
Qed.

(** ** The two labels *)

(** X18: in every row of a frame [process_data] returns, an int64 [value1]
    labelled "Medium" lies in (20, 35] and one labelled "High" lies above
    35; there is no other label. *)
Theorem labels_partition_kept_rows (p : option string) (w : World)
    (out : DataFrame) (i : nat) (x : Z) :
  fst (process_data p w) = Returns out ->
  cell_at out i "value1" = Some (CInt x) ->
  (cell_at out i "value1_type" = Some (CStr "Medium") /\ 20 < x <= 35) \/
  (cell_at out i "value1_type" = Some (CStr "High") /\ 35 < x).
Proof.
  intros Hrun Hcell.
  apply process_data_returned in Hrun as [-> | [df Hdf]]; [discriminate|].
  apply transform_result_inv in Hdf
    as (v1 & v2 & p10 & d & q & keep & high
        & Hv1 & Hv2 & Hp & Hd & Hq & Hk & Hh & ->).
  unfold cell_at in *.
  rewrite df_lookup_setitem_ne, df_lookup_filter in Hcell by reflexivity.
  rewrite !df_lookup_setitem_ne in Hcell by reflexivity.
  rewrite Hv1 in Hcell. cbn [option_map] in Hcell.
  rewrite df_lookup_setitem_eq.
  pose proof (series_gt_filter_cell _ _ _ _ _ Hk Hcell) as H20.
  destruct (series_gt_cell _ _ _ _ _ Hh Hcell) as (b & Hb & Hi).
  simpl in H20, Hb. injection H20 as H20. injection Hb as Hb.
  apply Z.ltb_lt in H20.
  unfold np_where. cbn [series_cells]. rewrite !lookup_map, Hi.
  cbn [option_map]. subst b. destruct (Z.ltb_spec 35 x); [right | left];
    (split; [reflexivity | lia]).
Qed.

(** ** After a missing input *)

(** X19: when, after line 81, nothing exists at the effective path and the
    default input location can be written, the file saved there holds the
    whole sample, five rows and the four input columns, as it was before
    any column was derived; the frame returned holds the sample rows with
    [value1 > 20], at most five, and it is empty exactly when no drawn
    [value1] exceeds 20. *)
Theorem missing_input_saves_raw_sample (p : option string) (w : World) :
  fst (os_makedirs data_dir w) = Returns tt ->
  entry (files (prepared w)) (effective_input_path p) = None ->
  writable (files (prepared w)) DEFAULT_INPUT_CSV_PATH = true ->
  exists sample out,
    files (snd (process_data p w)) !! DEFAULT_INPUT_CSV_PATH
    = Some (RegularFile (to_csv_text sample)) /\
    df_columns sample = ["id"; "category"; "value1"; "value2"] /\
    df_len sample = 5%nat /\
    fst (process_data p w) = Returns out /\
    rows_of sample = Some (sample_rows (random w)) /\
    rows_of out = Some (List.filter kept (sample_rows (random w))) /\
    (df_len out <= 5)%nat /\
    (df_empty out = true
     <-> Forall (fun x => x <= 20) (sample_value1 (random w))).
Proof.
  intros Hm Hf Hd.
  destruct (process_data_missing p w tt Hm Hf Hd) as [Hout Hfiles].
  destruct (missing_input_empty_iff p w tt Hm Hf Hd) as (out' & Hout' & Hempty).
  exists (sample_frame (random w)),
         (annotated_table (List.filter kept (sample_rows (random w)))).
  rewrite Hfiles, lookup_insert_eq.
  split; [reflexivity|]. split; [reflexivity|]. split; [reflexivity|].
  split; [exact Hout|].
  split; [rewrite sample_frame_rows; apply rows_of_table|].
  split; [apply annotated_table_rows|]. split.
  - change (df_len (annotated_table (List.filter kept (sample_rows (random w)))))
      with (length (map row_id (List.filter kept (sample_rows (random w))))).
    rewrite length_map.
    etransitivity; [apply filter_length_le|]. reflexivity.
  - rewrite Hout in Hout'. injection Hout' as <-. exact Hempty.
Qed.

(** ** The script as a whole *)

(** X11: the only exception that ends the script is the [OSError]
    [setup_logging] raises when the data directory cannot be made or the
    log file cannot be opened: then nothing is logged or drawn.  In every
    other case the script returns, whatever the files hold and the
    generator draws: its first record is "script started", its last
    "script finished", the records logged before are kept and the log file
    exists. *)
Theorem script_raises_only_at_setup (lg : Logger) (w : World) :
  (forall e, makedirs data_dir (files w) = Raises e ->
     script lg w = (Raises OSError, w, lg)) /\
  (forall fs1,
     makedirs data_dir (files w) = Returns fs1 ->
     writable fs1 DEFAULT_LOG_FILE_PATH = false ->
     script lg w
     = (Raises OSError,
        {| files := fs1; random := random w; log := log w |}, lg)) /\
  (forall fs1,
     makedirs data_dir (files w) = Returns fs1 ->
     writable fs1 DEFAULT_LOG_FILE_PATH = true ->
     exists w' lg' records,
       script lg w = (Returns tt, w', lg') /\
       log w' = (log w ++ [(INFO, ScriptStarted)] ++ records
                   ++ [(INFO, ScriptFinished)])%list /\
       is_Some (files w' !! DEFAULT_LOG_FILE_PATH)).
Proof.
  unfold script. rewrite setup_logging_handlers_run. split; [|split].
  - intros e He. rewrite He. rewrite (makedirs_raises _ _ _ He).
    now destruct w.
  - intros fs1 Hmk Hw.
    now rewrite Hmk, (open_for_append_unwritable _ _ Hw).
  - intros fs1 Hmk Hw. rewrite Hmk.
    destruct (open_for_append_writable _ _ Hw) as (fs2 & -> & [text Hex] & _).
    set (w0 := {| files := fs2; random := random w; log := log w |}).
    destruct (main_finishes w0) as (Hr & records & Hlog).
    assert (Hkeep : is_Some (files (snd (main w0)) !! DEFAULT_LOG_FILE_PATH))
      by (apply main_keeps_files; cbn [w0 files]; eauto).
    destruct (main w0) as [r w']. cbn [fst snd] in *. subst r.
    eexists w', _, records. split; [reflexivity|].
    split; [exact Hlog | exact Hkeep].
Qed.

End Script.

(** ** The statements at concrete inputs *)

(** [test_process_data_with_input_file]: the rows kept have the ids 2, 3, 4
    and the types Medium, Medium, High. *)
Example test_process_data_with_input_file :
  let process := process_data app_root read_csv_known to_csv_header in
  exists processed_df,
    fst (process (Some "in.csv") (world_with "in.csv" fixture_csv))
    = Returns processed_df /\
    df_empty processed_df = false /\
    In "value1_plus_10" (df_columns processed_df) /\
    df_lookup processed_df "id" = Some (SInt [2; 3; 4]) /\
    df_lookup processed_df "value1_type"
    = Some (SObj ["Medium"; "Medium"; "High"]).
Proof.
  exists fixture_output. split; [vm_compute; reflexivity|].
  repeat split; try reflexivity. simpl. auto 10.
Qed.

(** Line 81 at work: where nothing is at the place of the data directory
    it is made, and the run goes on; where a file takes its place
    [os.makedirs] raises, outside the [try] statement, and [process_data]
    ends with that exception, nothing read, logged or drawn. *)
Example data_directory_is_made_or_missed :
  let process := process_data app_root read_csv_known to_csv_header in
  let w := world_with "in.csv" fixture_csv in
  let taken := occupied_world "in.csv" fixture_csv in
  files w !! data_directory = None /\
  files (snd (process (Some "in.csv") w)) !! data_directory
  = Some Directory /\
  fst (process (Some "in.csv") w) = Returns fixture_output /\
  files taken !! data_directory = Some (RegularFile "not a directory") /\
  process (Some "in.csv") taken = (Raises OSError, taken).
Proof.
  repeat split; vm_compute; reflexivity.
Qed.

(** The data directory given as the input path: line 81 makes it, line 86
    then finds it, [pd.read_csv] cannot read a directory, and the run ends
    with the empty frame, no sample drawn or saved. *)
Example data_directory_as_input_path :
  let process := process_data app_root read_csv_known to_csv_header in
  let w := bare_world (fun n => 7 * Z.of_nat n) in
  files w = ∅ /\
  fst (process (Some data_directory) w) = Returns pd_DataFrame /\
  files (snd (process (Some data_directory) w))
  = {[ data_directory := Directory ]} /\
  random (snd (process (Some data_directory) w)) = random w /\
  log (snd (process (Some data_directory) w))
  = [(INFO, ReadingFrom data_directory);
     (ERROR, InputError data_directory OSError)].
Proof.
  repeat split; vm_compute; reflexivity.
Qed.

Lemma value1_plus_10_wraps_witness :
  let process := process_data app_root read_csv_known to_csv_header in
  fst (process (Some "in.csv") (world_with "in.csv" fixture_csv))
  = Returns fixture_output /\
  cell_at fixture_output 0 "value1" = Some (CInt 25) /\
  cell_at fixture_output 0 "value1_plus_10" = Some (CInt (wrap64 (25 + 10))) /\
  (in_int64 (25 + 10) ->
   cell_at fixture_output 0 "value1_plus_10" = Some (CInt (25 + 10))).
Proof.
  intros process.
  split; [vm_compute; reflexivity|]. split; [reflexivity|].
  apply (value1_plus_10_wraps app_root read_csv_known to_csv_header
           (Some "in.csv") (world_with "in.csv" fixture_csv)
           fixture_output 0 25);
    vm_compute; reflexivity.
Defined.

Lemma value1_type_threshold_witness :
  let process := process_data app_root read_csv_known to_csv_header in
  fst (process (Some "in.csv") (world_with "in.csv" fixture_csv))
  = Returns fixture_output /\
  cell_at fixture_output 2 "value1" = Some (CInt 45) /\
  cell_gt (CInt 45) 35 = Some true /\
  cell_at fixture_output 2 "value1_type" = Some (CStr "High").
Proof.
  intros process.
  split; [vm_compute; reflexivity|]. split; [reflexivity|].
  split; [reflexivity|].
  destruct (value1_type_threshold app_root read_csv_known to_csv_header
              (Some "in.csv") (world_with "in.csv" fixture_csv)
              fixture_output 2 (CInt 45))
    as (high & Hgt & _ & Hhigh & _); [vm_compute; reflexivity | reflexivity |].
  apply Hhigh. simpl in Hgt. now injection Hgt as <-.
Defined.

Lemma filter_keeps_rows_above_20_witness :
  let process := process_data app_root read_csv_known to_csv_header in
  let load := load_input app_root read_csv_known to_csv_header in
  let w := world_with "in.csv" fixture_csv in
  fst (load (effective_input_path app_root (Some "in.csv"))
            (prepared app_root w))
  = Returns (table_of_rows fixture_rows) /\
  rectangular (table_of_rows fixture_rows) 5 /\
  fst (process (Some "in.csv") w) = Returns fixture_output /\
  rows_of fixture_output
  = Some (List.filter (fun r => 20 <? row_value1 r) fixture_rows) /\
  df_lookup fixture_output "id" = Some (SInt [2; 3; 4]) /\
  df_len fixture_output = 3%nat /\
  (df_len fixture_output <= 5)%nat.
Proof.
  intros process load w.
  assert (Hl : fst (load (effective_input_path app_root (Some "in.csv"))
                         (prepared app_root w))
               = Returns (table_of_rows fixture_rows))
    by (vm_compute; reflexivity).
  assert (Hrect : rectangular (table_of_rows fixture_rows) 5)
    by (repeat constructor).
  assert (Hrun : fst (process (Some "in.csv") w) = Returns fixture_output)
    by (vm_compute; reflexivity).
  split; [exact Hl|]. split; [exact Hrect|]. split; [exact Hrun|].
  destruct (filter_keeps_rows_above_20 app_root read_csv_known to_csv_header
              (Some "in.csv") w (table_of_rows fixture_rows) fixture_output
              5 Hl Hrect Hrun)
    as (keep & _ & _ & _ & _ & Hle & Hrows).
  destruct (Hrows fixture_rows eq_refl) as (Hr & _ & _).
  split; [exact Hr|]. split; [reflexivity|]. split; [reflexivity | exact Hle].
Defined.


Lemma empty_input_returns_empty_witness :
  let process := process_data app_root read_csv_known to_csv_header in
  let w := world_with "empty_input.csv" zero_bytes in
  fst (os_makedirs (data_dir app_root) w) = Returns tt /\
  entry (files (prepared app_root w)) "empty_input.csv"
  = Some (RegularFile zero_bytes) /\
  read_csv_known zero_bytes = Raises EmptyDataError /\
  process (Some "empty_input.csv") w
  = (Returns pd_DataFrame,
     {| files := files (prepared app_root w); random := random w;
        log := [(INFO, ReadingFrom "empty_input.csv");
                (ERROR, InputEmpty "empty_input.csv")] |}).
Proof.
  intros process w.
  split; [vm_compute; reflexivity|].
  split; [vm_compute; reflexivity|]. split; [reflexivity|].
  apply (empty_input_returns_empty app_root read_csv_known to_csv_header
           (Some "empty_input.csv") w zero_bytes);
    vm_compute; reflexivity.
Defined.


Lemma rerun_yields_same_output_witness :
  let w1 := world_with default_input fixture_csv in
  let w2 := busy_world default_input fixture_csv in
  let process := process_data app_root read_csv_known to_csv_header None in
  let script := main app_root read_csv_known to_csv_header in
  entry (files w1) default_input = Some (RegularFile fixture_csv) /\
  entry (files w2) default_input = Some (RegularFile fixture_csv) /\
  fst (os_makedirs (data_dir app_root) w1)
  = fst (os_makedirs (data_dir app_root) w2) /\
  fst (process w1) = fst (process w2) /\
  fst (process (snd (process w1))) = fst (process w1) /\
  files (snd (script (snd (script w1)))) = files (snd (script w1)).
Proof.
  intros w1 w2 process script.
  assert (H1 : entry (files w1) default_input
               = Some (RegularFile fixture_csv))
    by (vm_compute; reflexivity).
  assert (H2 : entry (files w2) default_input
               = Some (RegularFile fixture_csv))
    by (vm_compute; reflexivity).
  assert (Hm : fst (os_makedirs (data_dir app_root) w1)
               = fst (os_makedirs (data_dir app_root) w2))
    by (vm_compute; reflexivity).
  destruct (rerun_yields_same_output app_root read_csv_known to_csv_header
              None w1 w2 (RegularFile fixture_csv) H1 H2)
    as (Hsame & _ & _ & Hagain & Hscript).
  repeat split; auto.
Defined.

Lemma output_columns_and_frame_witness :
  let process := process_data app_root read_csv_known to_csv_header in
  let load := load_input app_root read_csv_known to_csv_header in
  let w := world_with "in.csv" fixture_csv in
  fst (load (effective_input_path app_root (Some "in.csv"))
            (prepared app_root w))
  = Returns (table_of_rows fixture_rows) /\
  fst (process (Some "in.csv") w) = Returns fixture_output /\
  exists retained,
    df_columns fixture_output
    = ["id"; "category"; "value1"; "value2";
       "value1_plus_10"; "value2_div_value1"; "value1_type"] /\
    retained = List.filter (fun r => 20 <? row_value1 r) fixture_rows /\
    sublist retained fixture_rows /\
    df_lookup fixture_output "id" = Some (SInt (map row_id retained)) /\
    df_lookup fixture_output "category"
    = Some (SObj (map row_category retained)) /\
    df_lookup fixture_output "value1"
    = Some (SInt (map row_value1 retained)) /\
    df_lookup fixture_output "value2"
    = Some (SFloat (map row_value2 retained)).
Proof.
  intros process load w.
  split; [vm_compute; reflexivity|]. split; [vm_compute; reflexivity|].
  apply (output_columns_and_frame app_root read_csv_known to_csv_header
           (Some "in.csv") w fixture_rows fixture_output);
    vm_compute; reflexivity.
Defined.

(** ** Where the specification and the script part *)

(** C1, counterexample: a file whose first row has the largest int64 as
    [value1] yields a row whose [value1_plus_10] is negative, not
    [value1 + 10]. *)
Lemma value1_plus_10_overflows :
  let process := process_data app_root read_csv_known to_csv_header in
  exists out,
    fst (process (Some "in.csv") (world_with "in.csv" extreme_csv))
    = Returns out /\
    cell_at out 0 "value1" = Some (CInt 9223372036854775807) /\
    cell_at out 0 "value1_plus_10" = Some (CInt (-9223372036854775799)) /\
    cell_at out 0 "value1_plus_10"
    <> Some (CInt (9223372036854775807 + 10)).
Proof.
  eexists. split; [vm_compute; reflexivity|].
  split; [reflexivity|]. split; [reflexivity|]. discriminate.
Qed.

(** C5, counterexample: the category column of the sample does not cycle
    through A, B, C, and it repeats with no period shorter than its
    length. *)
Lemma sample_category_not_cyclic :
  exists df w' cats,
    create_sample_dataframe (bare_world (fun _ => 0)) = (Returns df, w') /\
    df_lookup df "category" = Some (SObj cats) /\
    ~ cycles_through ["A"; "B"; "C"] cats /\
    forall p, (0 < p < 5)%nat -> ~ periodic p cats.
Proof.
  eexists _, _, _. split; [apply create_sample_dataframe_run|].
  split; [reflexivity|]. split.
  - intros H. specialize (H 2%nat "A" eq_refl). discriminate H.
  - intros p Hp H.
    destruct p as [|[|[|[|[|p]]]]]; try lia.
    + specialize (H 0%nat "B" eq_refl). discriminate H.
    + specialize (H 1%nat "C" eq_refl). discriminate H.
    + specialize (H 0%nat "C" eq_refl). discriminate H.
    + specialize (H 0%nat "B" eq_refl). discriminate H.
Qed.

(** C6, counterexample: a file that holds the header line of the input
    schema and no data line parses to zero rows, yet it is not classified
    as empty: [pd.read_csv] returns a frame, the transformation runs and
    is logged, no "input is empty" record is written, and what comes back
    is a frame of seven columns.  A header line that names other columns
    parses to zero rows as well, and the [KeyError] of line 110 reaches
    the caller. *)
Lemma header_only_input_is_transformed :
  let process := process_data app_root read_csv_headers to_csv_header in
  let w := world_with "headers.csv" header in
  let w2 := world_with "headers.csv" other_header_csv in
  read_csv_headers header = Returns header_only_frame /\
  df_len header_only_frame = 0%nat /\
  (exists out,
     fst (process (Some "headers.csv") w) = Returns out /\
     out <> pd_DataFrame /\
     df_columns out
     = ["id"; "category"; "value1"; "value2";
        "value1_plus_10"; "value2_div_value1"; "value1_type"] /\
     In (DEBUG, StartingTransformations)
        (log (snd (process (Some "headers.csv") w))) /\
     ~ In (ERROR, InputEmpty "headers.csv")
          (log (snd (process (Some "headers.csv") w)))) /\
  read_csv_headers other_header_csv = Returns other_header_frame /\
  df_len other_header_frame = 0%nat /\
  fst (process (Some "headers.csv") w2) = Raises (KeyError "value1").
Proof.
  split; [reflexivity|]. split; [reflexivity|]. split.
  - eexists. split; [vm_compute; reflexivity|].
    split; [discriminate|]. split; [reflexivity|]. split.
    + vm_compute. auto 10.
    + vm_compute. intros H.
      repeat (destruct H as [H|H]; [discriminate H|]). exact H.
  - split; [reflexivity|]. split; [reflexivity|]. vm_compute; reflexivity.
Qed.

(** C7, at the failing input: no file at the path given and a generator
    whose five [value1] draws are all 10.  The sample is generated and saved
    at the default location, every row is then filtered out, and the frame
    returned is empty. *)
Theorem missing_input_can_return_empty :
  let w := bare_world (fun _ => 0) in
  let result :=
    process_data app_root read_csv_known to_csv_header
                 (Some "non_existent_file.csv") w in
  files w !! "non_existent_file.csv" = None /\
  sample_value1 (random w) = [10; 10; 10; 10; 10] /\
  files (snd result) !! default_input
  = Some (RegularFile (to_csv_header (sample_frame (random w)))) /\
  fst result = Returns (annotated_table []) /\
  df_empty (annotated_table []) = true.
Proof.
  vm_compute. repeat split; reflexivity.
Qed.

(** ** The further statements at concrete inputs *)

Lemma missing_column_raises_KeyError_witness :
  let process := process_data app_root read_csv_more to_csv_header in
  let load := load_input app_root read_csv_more to_csv_header in
  let w := world_with "in.csv" other_columns_csv in
  let w2 := world_with "in.csv" no_value2_csv in
  fst (os_makedirs (data_dir app_root) w) = Returns tt /\
  fst (load (effective_input_path app_root (Some "in.csv"))
            (prepared app_root w))
  = Returns other_columns_frame /\
  df_lookup other_columns_frame "value1" = None /\
  fst (process (Some "in.csv") w) = Raises (KeyError "value1") /\
  fst (process (Some "in.csv") w2) = Raises (KeyError "value2").
Proof.
  intros process load w w2.
  split; [vm_compute; reflexivity|].
  split; [vm_compute; reflexivity|]. split; [reflexivity|]. split.
  - apply (missing_column_raises_KeyError app_root read_csv_more
             to_csv_header (Some "in.csv") w other_columns_frame);
      vm_compute; reflexivity.
  - apply (missing_column_raises_KeyError app_root read_csv_more
             to_csv_header (Some "in.csv") w2 no_value2_frame)
      with (value1 := SInt [30]);
      vm_compute; reflexivity.
Defined.

Lemma string_column_raises_TypeError_witness :
  let process := process_data app_root read_csv_more to_csv_header in
  let load := load_input app_root read_csv_more to_csv_header in
  let w := world_with "in.csv" text_value1_csv in
  fst (os_makedirs (data_dir app_root) w) = Returns tt /\
  fst (load (effective_input_path app_root (Some "in.csv"))
            (prepared app_root w))
  = Returns text_value1_frame /\
  df_lookup text_value1_frame "value1" = Some (SObj ["abc"]) /\
  fst (process (Some "in.csv") w) = Raises TypeError.
Proof.
  intros process load w.
  split; [vm_compute; reflexivity|].
  split; [vm_compute; reflexivity|]. split; [reflexivity|].
  apply (string_column_raises_TypeError app_root read_csv_more
           to_csv_header (Some "in.csv") w text_value1_frame)
    with (x := "abc") (xs := []);
    vm_compute; reflexivity.
Defined.

Lemma numeric_columns_suffice_witness :
  let process := process_data app_root read_csv_headers to_csv_header in
  let load := load_input app_root read_csv_headers to_csv_header in
  let w := world_with "in.csv" fixture_csv in
  let w2 := world_with "headers.csv" header in
  fst (os_makedirs (data_dir app_root) w) = Returns tt /\
  fst (load (effective_input_path app_root (Some "in.csv"))
            (prepared app_root w))
  = Returns (table_of_rows fixture_rows) /\
  (exists out, fst (process (Some "in.csv") w) = Returns out) /\
  fst (load (effective_input_path app_root (Some "headers.csv"))
            (prepared app_root w2))
  = Returns header_only_frame /\
  accepted (SObj []) = true /\
  (exists out, fst (process (Some "headers.csv") w2) = Returns out).
Proof.
  intros process load w w2.
  split; [vm_compute; reflexivity|].
  split; [vm_compute; reflexivity|]. split.
  { apply (numeric_columns_suffice app_root read_csv_headers to_csv_header
             (Some "in.csv") w (table_of_rows fixture_rows)
             (SInt (map row_value1 fixture_rows))
             (SFloat (map row_value2 fixture_rows)));
      vm_compute; reflexivity. }
  split; [vm_compute; reflexivity|]. split; [reflexivity|].
  apply (numeric_columns_suffice app_root read_csv_headers to_csv_header
           (Some "headers.csv") w2 header_only_frame (SObj []) (SObj []));
    vm_compute; reflexivity.
Defined.

Lemma returned_rows_exceed_20_witness :
  let process := process_data app_root read_csv_known to_csv_header in
  fst (process (Some "in.csv") (world_with "in.csv" fixture_csv))
  = Returns fixture_output /\
  cell_at fixture_output 0 "value1" = Some (CInt 25) /\
  cell_gt (CInt 25) 20 = Some true /\ CInt 25 <> CFloat NaN.
Proof.
  intros process.
  split; [vm_compute; reflexivity|]. split; [reflexivity|].
  apply (returned_rows_exceed_20 app_root read_csv_known to_csv_header
           (Some "in.csv") (world_with "in.csv" fixture_csv)
           fixture_output 0 (CInt 25));
    vm_compute; reflexivity.
Defined.

Lemma output_columns_extend_input_witness :
  let process := process_data app_root read_csv_known to_csv_header in
  let load := load_input app_root read_csv_known to_csv_header in
  let w := world_with "in.csv" fixture_csv in
  fst (load (effective_input_path app_root (Some "in.csv"))
            (prepared app_root w))
  = Returns (table_of_rows fixture_rows) /\
  fst (process (Some "in.csv") w) = Returns fixture_output /\
  df_columns (table_of_rows fixture_rows)
    `prefix_of` df_columns fixture_output.
Proof.
  intros process load w.
  split; [vm_compute; reflexivity|]. split; [vm_compute; reflexivity|].
  apply (output_columns_extend_input app_root read_csv_known to_csv_header
           (Some "in.csv") w (table_of_rows fixture_rows) fixture_output);
    vm_compute; reflexivity.
Defined.

Lemma equal_column_lengths_are_kept_witness :
  let process := process_data app_root read_csv_known to_csv_header in
  let load := load_input app_root read_csv_known to_csv_header in
  let w := world_with "in.csv" fixture_csv in
  fst (load (effective_input_path app_root (Some "in.csv")) w)
  = Returns (table_of_rows fixture_rows) /\
  rectangular (table_of_rows fixture_rows) 5 /\
  fst (process (Some "in.csv") w) = Returns fixture_output /\
  rectangular fixture_output (df_len fixture_output) /\
  (df_len fixture_output <= 5)%nat.
Proof.
  intros process load w.
  assert (Hrect : rectangular (table_of_rows fixture_rows) 5)
    by (repeat constructor).
  split; [vm_compute; reflexivity|]. split; [exact Hrect|].
  split; [vm_compute; reflexivity|].
  apply (equal_column_lengths_are_kept app_root read_csv_known
           to_csv_header (Some "in.csv") w (table_of_rows fixture_rows)
           fixture_output 5);
    [vm_compute; reflexivity | exact Hrect | vm_compute; reflexivity].
Defined.

Lemma runs_write_only_default_paths_witness :
  let w := busy_world "in.csv" fixture_csv in
  let process := process_data app_root read_csv_known to_csv_header in
  let script := main app_root read_csv_known to_csv_header in
  "notes.txt" <> DEFAULT_INPUT_CSV_PATH app_root /\
  lies_below "notes.txt" (DEFAULT_INPUT_CSV_PATH app_root) = false /\
  entry (files (snd (process (Some "missing.csv") w))) "notes.txt"
  = entry (files w) "notes.txt" /\
  entry (files (snd (script w))) "notes.txt" = entry (files w) "notes.txt".
Proof.
  intros w process script.
  assert (Hne : "notes.txt" <> DEFAULT_INPUT_CSV_PATH app_root)
    by (vm_compute; discriminate).
  assert (Hb : lies_below "notes.txt" (DEFAULT_INPUT_CSV_PATH app_root)
               = false) by (vm_compute; reflexivity).
  split; [exact Hne|]. split; [exact Hb|].
  destruct (runs_write_only_default_paths app_root read_csv_known
              to_csv_header (Some "missing.csv") w "notes.txt" Hne Hb)
    as [Hp Hm].
  split; [exact Hp|]. apply Hm. vm_compute. discriminate.
Defined.

Lemma unsaved_sample_returns_empty_witness :
  let process := process_data app_root read_csv_known to_csv_header in
  entry (files blocked_world) "missing.csv" = None /\
  files blocked_world !! DEFAULT_INPUT_CSV_PATH app_root = Some Denied /\
  fst (process (Some "missing.csv") blocked_world) = Returns pd_DataFrame /\
  files (snd (process (Some "missing.csv") blocked_world))
  = files blocked_world.
Proof.
  intros process.
  assert (H1 : entry (files blocked_world)
                 (effective_input_path app_root (Some "missing.csv")) = None)
    by (vm_compute; reflexivity).
  assert (H2 : files blocked_world !! DEFAULT_INPUT_CSV_PATH app_root
               = Some Denied) by (vm_compute; reflexivity).
  split; [exact H1|]. split; [exact H2|]. unfold process.
  rewrite (unsaved_sample_returns_empty app_root read_csv_known
             to_csv_header (Some "missing.csv") blocked_world H1 H2).
  split; reflexivity.
Defined.

Lemma main_logs_unhandled_exception_witness :
  let w := world_with default_input other_columns_csv in
  let script := main app_root read_csv_more to_csv_header in
  fst (process_data app_root read_csv_more to_csv_header
         (Some (DEFAULT_INPUT_CSV_PATH app_root)) (started w))
  = Raises (KeyError "value1") /\
  fst (script w) = Returns tt /\
  exists earlier,
    log (snd (script w))
    = (earlier ++ [(CRITICAL, Unhandled (KeyError "value1"));
                   (INFO, ScriptFinished)])%list.
Proof.
  intros w script.
  assert (H : fst (process_data app_root read_csv_more to_csv_header
                     (Some (DEFAULT_INPUT_CSV_PATH app_root)) (started w))
              = Raises (KeyError "value1")) by (vm_compute; reflexivity).
  split; [exact H|].
  destruct (main_logs_unhandled_exception app_root read_csv_more
              to_csv_header w (KeyError "value1") H) as (Hr & Hlog & _).
  split; assumption.
Defined.

Lemma main_saves_nonempty_result_witness :
  let w := world_with default_input fixture_csv in
  let script := main app_root read_csv_known to_csv_header in
  fst (process_data app_root read_csv_known to_csv_header
         (Some (DEFAULT_INPUT_CSV_PATH app_root)) (started w))
  = Returns fixture_output /\
  df_empty fixture_output = false /\
  writable (files w) (DEFAULT_OUTPUT_CSV_PATH app_root) = true /\
  files (snd (script w)) !! DEFAULT_OUTPUT_CSV_PATH app_root
  = Some (RegularFile (to_csv_header fixture_output)).
Proof.
  intros w script.
  assert (H : fst (process_data app_root read_csv_known to_csv_header
                     (Some (DEFAULT_INPUT_CSV_PATH app_root)) (started w))
              = Returns fixture_output) by (vm_compute; reflexivity).
  assert (Hd : writable (files w) (DEFAULT_OUTPUT_CSV_PATH app_root) = true)
    by (vm_compute; reflexivity).
  split; [exact H|]. split; [reflexivity|]. split; [exact Hd|].
  destruct (main_saves_nonempty_result app_root read_csv_known
              to_csv_header w fixture_output H) as (Hsave & _ & _).
  now destruct (Hsave eq_refl Hd).
Defined.

Lemma main_keeps_existing_input_witness :
  let w := world_with default_input fixture_csv in
  let script := main app_root read_csv_known to_csv_header in
  files w !! DEFAULT_INPUT_CSV_PATH app_root
  = Some (RegularFile fixture_csv) /\
  files (snd (script w)) !! DEFAULT_INPUT_CSV_PATH app_root
  = Some (RegularFile fixture_csv).
Proof.
  intros w script.
  assert (H : files w !! DEFAULT_INPUT_CSV_PATH app_root
              = Some (RegularFile fixture_csv)) by (vm_compute; reflexivity).
  split; [exact H|].
  exact (main_keeps_existing_input app_root read_csv_known to_csv_header
           w (RegularFile fixture_csv) H).
Defined.

Lemma saved_sample_is_reused_witness :
  let w := bare_world (fun n => 7 * Z.of_nat n) in
  let process := process_data app_root read_csv_sample to_csv_sample in
  fst (os_makedirs (data_dir app_root) w) = Returns tt /\
  entry (files (prepared app_root w))
        (effective_input_path app_root (Some "missing.csv")) = None /\
  writable (files (prepared app_root w)) (DEFAULT_INPUT_CSV_PATH app_root)
  = true /\
  read_csv_sample (to_csv_sample (sample_frame (random w)))
  = Returns (sample_frame (random w)) /\
  fst (process None (snd (process (Some "missing.csv") w)))
  = fst (process (Some "missing.csv") w).
Proof.
  intros w process.
  assert (H0 : fst (os_makedirs (data_dir app_root) w) = Returns tt)
    by (vm_compute; reflexivity).
  assert (H1 : entry (files (prepared app_root w))
                 (effective_input_path app_root (Some "missing.csv")) = None)
    by (vm_compute; reflexivity).
  assert (H2 : writable (files (prepared app_root w))
                 (DEFAULT_INPUT_CSV_PATH app_root) = true)
    by (vm_compute; reflexivity).
  assert (H3 : read_csv_sample (to_csv_sample (sample_frame (random w)))
               = Returns (sample_frame (random w))) by reflexivity.
  split; [exact H0|]. split; [exact H1|].
  split; [exact H2|]. split; [exact H3|].
  now destruct (saved_sample_is_reused app_root read_csv_sample
                  to_csv_sample (Some "missing.csv") w H0 H1 H2 H3)
    as (_ & Hagain & _).
Defined.

Lemma setup_logging_routes_by_level_witness :
  let made : gmap string fsnode := <[data_directory := Directory]> ∅ in
  handlers getLogger = [] /\
  makedirs (os_path_dirname (DEFAULT_LOG_FILE_PATH app_root)) ∅
  = Returns made /\
  writable made (DEFAULT_LOG_FILE_PATH app_root) = true /\
  exists lg' fs',
    setup_logging_handlers app_root getLogger ∅ = (Returns lg', fs') /\
    deliver lg' DEBUG = [FileSink (DEFAULT_LOG_FILE_PATH app_root)] /\
    deliver lg' WARNING
    = [FileSink (DEFAULT_LOG_FILE_PATH app_root); ConsoleSink].
Proof.
  intros made.
  assert (Hm : makedirs (os_path_dirname (DEFAULT_LOG_FILE_PATH app_root)) ∅
               = Returns made) by (vm_compute; reflexivity).
  assert (Hw : writable made (DEFAULT_LOG_FILE_PATH app_root) = true)
    by (vm_compute; reflexivity).
  split; [reflexivity|]. split; [exact Hm|]. split; [exact Hw|].
  destruct (setup_logging_routes_by_level app_root getLogger ∅ made
              eq_refl Hm Hw)
    as (lg' & fs' & Hrun & _ & Hdebug & Hup & _).
  exists lg', fs'. split; [exact Hrun|]. split; [exact Hdebug|].
  apply Hup. discriminate.
Defined.

Lemma repeated_setup_duplicates_records_witness :
  handlers getLogger = [] /\
  exists lg' fs',
    setup_logging_times app_root 3 getLogger ∅ = (Returns lg', fs') /\
    count_sink (FileSink (DEFAULT_LOG_FILE_PATH app_root)) (deliver lg' INFO)
    = 3%nat /\
    count_sink ConsoleSink (deliver lg' INFO) = 3%nat.
Proof.
  split; [reflexivity|].
  destruct (setup_logging_times app_root 3 getLogger ∅)
    as [[lg'|e] fs'] eqn:Hrun.
  - exists lg', fs'. split; [reflexivity|].
    exact (repeated_setup_duplicates_records app_root 2 getLogger lg' ∅ fs'
             INFO eq_refl Hrun).
  - vm_compute in Hrun. discriminate Hrun.
Defined.

Lemma labels_partition_kept_rows_witness :
  let process := process_data app_root read_csv_known to_csv_header in
  fst (process (Some "in.csv") (world_with "in.csv" fixture_csv))
  = Returns fixture_output /\
  cell_at fixture_output 1 "value1" = Some (CInt 35) /\
  cell_at fixture_output 1 "value1_type" = Some (CStr "Medium") /\
  20 < 35 <= 35.
Proof.
  intros process.
  split; [vm_compute; reflexivity|]. split; [reflexivity|].
  destruct (labels_partition_kept_rows app_root read_csv_known
              to_csv_header (Some "in.csv")
              (world_with "in.csv" fixture_csv) fixture_output 1 35)
    as [H | [_ H]]; [vm_compute; reflexivity | reflexivity | exact H | lia].
Defined.

Lemma missing_input_saves_raw_sample_witness :
  let w := bare_world (fun n => 7 * Z.of_nat n) in
  let process := process_data app_root read_csv_known to_csv_header in
  fst (os_makedirs (data_dir app_root) w) = Returns tt /\
  entry (files (prepared app_root w))
        (effective_input_path app_root (Some "missing.csv")) = None /\
  writable (files (prepared app_root w)) (DEFAULT_INPUT_CSV_PATH app_root)
  = true /\
  exists sample out,
    files (snd (process (Some "missing.csv") w))
      !! DEFAULT_INPUT_CSV_PATH app_root
    = Some (RegularFile (to_csv_header sample)) /\
    df_len sample = 5%nat /\
    fst (process (Some "missing.csv") w) = Returns out /\
    (df_len out <= 5)%nat.
Proof.
  intros w process.
  assert (H0 : fst (os_makedirs (data_dir app_root) w) = Returns tt)
    by (vm_compute; reflexivity).
  assert (H1 : entry (files (prepared app_root w))
                 (effective_input_path app_root (Some "missing.csv")) = None)
    by (vm_compute; reflexivity).
  assert (H2 : writable (files (prepared app_root w))
                 (DEFAULT_INPUT_CSV_PATH app_root) = true)
    by (vm_compute; reflexivity).
  split; [exact H0|]. split; [exact H1|]. split; [exact H2|].
  destruct (missing_input_saves_raw_sample app_root read_csv_known
              to_csv_header (Some "missing.csv") w H0 H1 H2)
    as (sample & out & Hs & _ & Hl & Ho & _ & _ & Hle & _).
  exists sample, out. repeat split; assumption.
Defined.
